(** * go-reasonable-api: token lifecycle, transactions and cleanup

    A shallow embedding of the services, repositories, SQL statements and
    transaction manager of the repository, together with the properties
    the specification states about them.

    Conventions.
    - [time.Time] is an instant in nanoseconds (a [Z]); a [time.Duration]
      is a number of nanoseconds.  [UTC()] does not change the instant.
    - A UUID is a natural number; [uuid.New] hands out successive ones.
    - Go's [(value, error)] results are the outcome of a computation in the
      monad [M]: [Ret] for a nil error, [Fail] for a non-nil one, [Panic]
      for a run-time panic unwinding the stack.
    - Everything outside the process (the PostgreSQL server, the clock, the
      entropy source, the task broker) is part of the [World] that the
      monad threads through the calls. *)

From Stdlib Require Import ZArith List String Ascii Bool Lia.
From Stdlib Require Import Init.Byte.
Import ListNotations.

Local Open Scope string_scope.
Local Open Scope Z_scope.

(* ===================================================================== *)
(** ** Time *)

Definition Time := Z.
Definition Duration := Z.

Definition Nanosecond : Duration := 1.
Definition Second : Duration := 1000000000 * Nanosecond.
Definition Minute : Duration := 60 * Second.
Definition Hour : Duration := 60 * Minute.

(** [t.Add(d)] *)
Definition Time_Add (t : Time) (d : Duration) : Time := t + d.

(** [t.After(u)] reports whether the instant [t] is after [u]. *)
Definition Time_After (t u : Time) : bool := u <? t.

(* ===================================================================== *)
(** ** Errors: support/errors, app/errors and the eris wrappers *)

Inductive error : Type :=
| sql_ErrNoRows                                   (* database/sql.ErrNoRows *)
| sql_ErrTxDone                                   (* database/sql.ErrTxDone *)
| DriverError (msg : string)                      (* any other failure of the driver or server *)
| EntropyError (msg : string)                     (* crypto/rand failure *)
| BrokerError (msg : string)                      (* asynq / redis failure *)
| BcryptError (msg : string)                      (* an input bcrypt refuses *)
| AppError (Code Message : string) (StatusCode : Z)
| Wrapped (cause : error) (msg : string).         (* eris.Wrap(cause, msg) *)

(** Two error values are the same error. *)
Fixpoint error_eqb (a b : error) : bool :=
  match a, b with
  | sql_ErrNoRows, sql_ErrNoRows => true
  | sql_ErrTxDone, sql_ErrTxDone => true
  | DriverError m, DriverError m' => String.eqb m m'
  | EntropyError m, EntropyError m' => String.eqb m m'
  | BrokerError m, BrokerError m' => String.eqb m m'
  | BcryptError m, BcryptError m' => String.eqb m m'
  | AppError c m s, AppError c' m' s' => String.eqb c c' && String.eqb m m' && Z.eqb s s'
  | Wrapped c m, Wrapped c' m' => error_eqb c c' && String.eqb m m'
  | _, _ => false
  end.

(** One link of the chain against the target: the same error, or, by the
    [Is] method of [AppError], an application error with the same [Code]. *)
Definition error_is (e target : error) : bool :=
  error_eqb e target ||
  match e, target with
  | AppError c _ _, AppError c' _ _ => String.eqb c c'
  | _, _ => false
  end.

(** [eris.Is(err, target)]: some error of the chain of [err] is [target]. *)
Fixpoint eris_Is (err target : error) : bool :=
  error_is err target ||
  match err with
  | Wrapped cause _ => eris_Is cause target
  | _ => false
  end.

Definition eris_Wrap (err : error) (msg : string) : error := Wrapped err msg.

(** [err.Error()], as [%v] prints it. *)
Fixpoint Error_string (err : error) : string :=
  match err with
  | sql_ErrNoRows => "sql: no rows in result set"
  | sql_ErrTxDone => "sql: transaction has already been committed or rolled back"
  | DriverError m => m
  | EntropyError m => m
  | BrokerError m => m
  | BcryptError m => m
  | AppError _ m _ => m
  | Wrapped cause m => m ++ ": " ++ Error_string cause
  end.

(** [eris.Wrapf(err, "rollback also failed: %v", rbErr)] *)
Definition eris_Wrapf_rollback (err rbErr : error) : error :=
  Wrapped err ("rollback also failed: " ++ Error_string rbErr).

Definition StatusUnauthorized : Z := 401.
Definition StatusNotFound : Z := 404.
Definition StatusUnprocessableEntity : Z := 422.

(** [strings.ToUpper] on ASCII letters. *)
Definition ascii_ToUpper (c : ascii) : ascii :=
  let n := nat_of_ascii c in
  if ((97 <=? n) && (n <=? 122))%nat then ascii_of_nat (n - 32) else c.

Fixpoint strings_ToUpper (s : string) : string :=
  match s with
  | EmptyString => EmptyString
  | String c r => String (ascii_ToUpper c) (strings_ToUpper r)
  end.

Definition errors_NewWithStatus (code message : string) (statusCode : Z) : error :=
  AppError code message statusCode.
Definition errors_New (code message : string) : error :=
  AppError code message StatusUnprocessableEntity.
Definition errors_Unauthorized (code message : string) : error :=
  errors_NewWithStatus code message StatusUnauthorized.
Definition errors_NotFoundf (resource : string) : error :=
  errors_NewWithStatus (strings_ToUpper resource ++ "_NOT_FOUND")
                       (resource ++ " not found") StatusNotFound.

Definition ErrInvalidCredentials : error :=
  errors_Unauthorized "INVALID_CREDENTIALS" "invalid credentials".
Definition ErrInvalidToken : error :=
  errors_Unauthorized "INVALID_TOKEN" "invalid token".
Definition ErrTokenExpired : error :=
  errors_Unauthorized "TOKEN_EXPIRED" "token expired".
Definition ErrTokenRevoked : error :=
  errors_Unauthorized "TOKEN_REVOKED" "token revoked".
Definition ErrTokenAlreadyUsed : error :=
  errors_New "TOKEN_ALREADY_USED" "token already used".
Definition ErrInvalidResetToken : error :=
  errors_New "INVALID_RESET_TOKEN" "invalid or expired reset token".
Definition ErrUserNotFound : error := errors_NotFoundf "user".
Definition ErrDeletionAlreadyScheduled : error :=
  errors_New "DELETION_ALREADY_SCHEDULED" "account deletion is already scheduled".

(* ===================================================================== *)
(** ** Rows (db/sqlcgen) and the database *)

Definition UUID := nat.

Record User := mkUser {
  User_ID : UUID;
  User_Name : string;
  User_Email : string;
  User_PasswordHash : string;
  User_EmailVerifiedAt : option Time;
  User_DeletionScheduledAt : option Time;
  User_CreatedAt : Time;
  User_UpdatedAt : Time
}.

Record AuthToken := mkAuthToken {
  AuthToken_ID : UUID;
  AuthToken_UserID : UUID;
  AuthToken_TokenHash : string;
  AuthToken_ExpiresAt : Time;
  AuthToken_RevokedAt : option Time;
  AuthToken_CreatedAt : Time
}.

Record PasswordReset := mkPasswordReset {
  PasswordReset_ID : UUID;
  PasswordReset_UserID : UUID;
  PasswordReset_TokenHash : string;
  PasswordReset_ExpiresAt : Time;
  PasswordReset_UsedAt : option Time;
  PasswordReset_CreatedAt : Time
}.

Record EmailVerification := mkEmailVerification {
  EmailVerification_ID : UUID;
  EmailVerification_UserID : UUID;
  EmailVerification_TokenHash : string;
  EmailVerification_ExpiresAt : Time;
  EmailVerification_UsedAt : option Time;
  EmailVerification_CreatedAt : Time
}.

(** The four tables of the migration. *)
Record DB := mkDB {
  users : list User;
  auth_tokens : list AuthToken;
  password_resets : list PasswordReset;
  email_verifications : list EmailVerification
}.

Definition is_null {A} (o : option A) : bool :=
  match o with None => true | Some _ => false end.

Definition set_users (d : DB) (us : list User) : DB :=
  mkDB us (auth_tokens d) (password_resets d) (email_verifications d).
Definition set_auth_tokens (d : DB) (ts : list AuthToken) : DB :=
  mkDB (users d) ts (password_resets d) (email_verifications d).
Definition set_password_resets (d : DB) (rs : list PasswordReset) : DB :=
  mkDB (users d) (auth_tokens d) rs (email_verifications d).
Definition set_email_verifications (d : DB) (vs : list EmailVerification) : DB :=
  mkDB (users d) (auth_tokens d) (password_resets d) vs.

(* ===================================================================== *)
(** ** SQL statements (db/queries/*.sql, schema from the migration)

    A statement maps the table contents to its result and the new
    contents.  [:one] queries answer [sql_ErrNoRows] when no row matches;
    an [INSERT] that breaks a [UNIQUE], primary-key or foreign-key
    constraint is refused by the server and changes nothing.  An [UPDATE]
    or [DELETE] that matches no row succeeds.  Timestamps keep their full
    precision. *)

Definition Stmt (A : Type) := DB -> (error + A) * DB.


Definition one {A} (o : option A) : error + A :=
  match o with
  | Some a => inr a
  | None => inl sql_ErrNoRows
  end.

Definition violation (constraint : string) : error :=
  DriverError ("pq: insert or update violates constraint " ++ constraint).

Module sqlcgen.

(** *** users.sql *)

(** [INSERT INTO users (...) VALUES (...) RETURNING *] *)
Definition CreateUser (id : UUID) (name email passwordHash : string)
    (createdAt updatedAt : Time) : Stmt User :=
  fun d =>
    if existsb (fun u => Nat.eqb (User_ID u) id) (users d)
    then (inl (violation "users_pkey"), d)
    else if existsb (fun u => String.eqb (User_Email u) email) (users d)
    then (inl (violation "uq_users_email"), d)
    else
      let u := mkUser id name email passwordHash None None createdAt updatedAt in
      (inr u, set_users d (users d ++ [u])).

(** [SELECT * FROM users WHERE id = $1] *)
Definition GetUserByID (id : UUID) : Stmt User :=
  fun d => (one (find (fun u => Nat.eqb (User_ID u) id) (users d)), d).

(** [SELECT * FROM users WHERE email = $1] *)
Definition GetUserByEmail (email : string) : Stmt User :=
  fun d => (one (find (fun u => String.eqb (User_Email u) email) (users d)), d).

(** [UPDATE users SET password_hash = $1, updated_at = $2 WHERE id = $3] *)
Definition UpdateUserPassword (passwordHash : string) (updatedAt : Time) (id : UUID)
    : Stmt unit :=
  fun d =>
    (inr tt,
     set_users d
       (map (fun u =>
               if Nat.eqb (User_ID u) id
               then mkUser (User_ID u) (User_Name u) (User_Email u) passwordHash
                      (User_EmailVerifiedAt u) (User_DeletionScheduledAt u)
                      (User_CreatedAt u) updatedAt
               else u) (users d))).

(** [UPDATE users SET email_verified_at = $1, updated_at = $2 WHERE id = $3] *)
Definition MarkUserEmailVerified (verifiedAt : option Time) (updatedAt : Time) (id : UUID)
    : Stmt unit :=
  fun d =>
    (inr tt,
     set_users d
       (map (fun u =>
               if Nat.eqb (User_ID u) id
               then mkUser (User_ID u) (User_Name u) (User_Email u) (User_PasswordHash u)
                      verifiedAt (User_DeletionScheduledAt u)
                      (User_CreatedAt u) updatedAt
               else u) (users d))).

(** [SELECT EXISTS(SELECT 1 FROM users WHERE email = $1)] *)
Definition EmailExists (email : string) : Stmt bool :=
  fun d => (inr (existsb (fun u => String.eqb (User_Email u) email) (users d)), d).

(** [UPDATE users SET deletion_scheduled_at = $1, updated_at = $2 WHERE id = $3] *)
Definition ScheduleUserDeletion (scheduledAt : option Time) (updatedAt : Time) (id : UUID)
    : Stmt unit :=
  fun d =>
    (inr tt,
     set_users d
       (map (fun u =>
               if Nat.eqb (User_ID u) id
               then mkUser (User_ID u) (User_Name u) (User_Email u) (User_PasswordHash u)
                      (User_EmailVerifiedAt u) scheduledAt
                      (User_CreatedAt u) updatedAt
               else u) (users d))).

(** [UPDATE users SET deletion_scheduled_at = NULL, updated_at = $1 WHERE id = $2] *)
Definition CancelUserDeletion (updatedAt : Time) (id : UUID) : Stmt unit :=
  fun d =>
    (inr tt,
     set_users d
       (map (fun u =>
               if Nat.eqb (User_ID u) id
               then mkUser (User_ID u) (User_Name u) (User_Email u) (User_PasswordHash u)
                      (User_EmailVerifiedAt u) None
                      (User_CreatedAt u) updatedAt
               else u) (users d))).

(** The [WHERE] clause of [DeleteScheduledUsers]:
    [deletion_scheduled_at IS NOT NULL AND deletion_scheduled_at <= $1]. *)
Definition deletion_due (now : Time) (u : User) : bool :=
  match User_DeletionScheduledAt u with
  | Some at_ => at_ <=? now
  | None => false
  end.

(** [DELETE FROM users WHERE ...]; the three token tables reference
    [users(id)] with [ON DELETE CASCADE], so the rows of a deleted user go
    with it.  [:execrows] answers the number of deleted users. *)
Definition DeleteScheduledUsers (now : Time) : Stmt Z :=
  fun d =>
    let gone := filter (deletion_due now) (users d) in
    let is_gone (uid : UUID) := existsb (fun u => Nat.eqb (User_ID u) uid) gone in
    (inr (Z.of_nat (List.length gone)),
     mkDB (filter (fun u => negb (deletion_due now u)) (users d))
          (filter (fun t => negb (is_gone (AuthToken_UserID t))) (auth_tokens d))
          (filter (fun r => negb (is_gone (PasswordReset_UserID r))) (password_resets d))
          (filter (fun v => negb (is_gone (EmailVerification_UserID v)))
                  (email_verifications d))).

Definition user_exists (uid : UUID) (d : DB) : bool :=
  existsb (fun u => Nat.eqb (User_ID u) uid) (users d).

(** *** auth_tokens.sql *)

(** [INSERT INTO auth_tokens (id, user_id, token_hash, expires_at, created_at)] *)
Definition CreateAuthToken (id userID : UUID) (tokenHash : string)
    (expiresAt createdAt : Time) : Stmt unit :=
  fun d =>
    if existsb (fun t => Nat.eqb (AuthToken_ID t) id) (auth_tokens d)
    then (inl (violation "auth_tokens_pkey"), d)
    else if existsb (fun t => String.eqb (AuthToken_TokenHash t) tokenHash) (auth_tokens d)
    then (inl (violation "uq_auth_tokens_token_hash"), d)
    else if negb (user_exists userID d)
    then (inl (violation "fk_auth_tokens_user"), d)
    else
      (inr tt,
       set_auth_tokens d
         (auth_tokens d ++ [mkAuthToken id userID tokenHash expiresAt None createdAt])).

(** [SELECT * FROM auth_tokens WHERE token_hash = $1] *)
Definition GetAuthTokenByHash (tokenHash : string) : Stmt AuthToken :=
  fun d =>
    (one (find (fun t => String.eqb (AuthToken_TokenHash t) tokenHash) (auth_tokens d)), d).

Definition revoke_where (p : AuthToken -> bool) (revokedAt : option Time) (d : DB) : DB :=
  set_auth_tokens d
    (map (fun t =>
            if p t
            then mkAuthToken (AuthToken_ID t) (AuthToken_UserID t) (AuthToken_TokenHash t)
                   (AuthToken_ExpiresAt t) revokedAt (AuthToken_CreatedAt t)
            else t) (auth_tokens d)).

(** [UPDATE auth_tokens SET revoked_at = $1 WHERE id = $2] *)
Definition RevokeAuthToken (revokedAt : option Time) (id : UUID) : Stmt unit :=
  fun d => (inr tt, revoke_where (fun t => Nat.eqb (AuthToken_ID t) id) revokedAt d).

(** [UPDATE auth_tokens SET revoked_at = $1 WHERE token_hash = $2] *)
Definition RevokeAuthTokenByHash (revokedAt : option Time) (tokenHash : string) : Stmt unit :=
  fun d =>
    (inr tt,
     revoke_where (fun t => String.eqb (AuthToken_TokenHash t) tokenHash) revokedAt d).

(** [UPDATE auth_tokens SET revoked_at = $1 WHERE user_id = $2 AND revoked_at IS NULL] *)
Definition RevokeAllAuthTokensForUser (revokedAt : option Time) (userID : UUID) : Stmt unit :=
  fun d =>
    (inr tt,
     revoke_where
       (fun t => Nat.eqb (AuthToken_UserID t) userID && is_null (AuthToken_RevokedAt t))
       revokedAt d).

(** The [WHERE] clause [expires_at < $1 OR revoked_at IS NOT NULL]. *)
Definition auth_token_stale (now : Time) (t : AuthToken) : bool :=
  (AuthToken_ExpiresAt t <? now) || negb (is_null (AuthToken_RevokedAt t)).

(** [DELETE FROM auth_tokens WHERE expires_at < $1 OR revoked_at IS NOT NULL] *)
Definition DeleteExpiredOrRevokedAuthTokens (now : Time) : Stmt Z :=
  fun d =>
    (inr (Z.of_nat (List.length (filter (auth_token_stale now) (auth_tokens d)))),
     set_auth_tokens d (filter (fun t => negb (auth_token_stale now t)) (auth_tokens d))).

(** *** password_resets.sql *)

(** [INSERT INTO password_resets (id, user_id, token_hash, expires_at, created_at)] *)
Definition CreatePasswordReset (id userID : UUID) (tokenHash : string)
    (expiresAt createdAt : Time) : Stmt unit :=
  fun d =>
    if existsb (fun r => Nat.eqb (PasswordReset_ID r) id) (password_resets d)
    then (inl (violation "password_resets_pkey"), d)
    else if existsb (fun r => String.eqb (PasswordReset_TokenHash r) tokenHash)
                    (password_resets d)
    then (inl (violation "uq_password_resets_token_hash"), d)
    else if negb (user_exists userID d)
    then (inl (violation "fk_password_resets_user"), d)
    else
      (inr tt,
       set_password_resets d
         (password_resets d ++ [mkPasswordReset id userID tokenHash expiresAt None createdAt])).

(** [SELECT * FROM password_resets WHERE token_hash = $1] *)
Definition GetPasswordResetByTokenHash (tokenHash : string) : Stmt PasswordReset :=
  fun d =>
    (one (find (fun r => String.eqb (PasswordReset_TokenHash r) tokenHash)
               (password_resets d)), d).

Definition use_reset_where (p : PasswordReset -> bool) (usedAt : option Time) (d : DB) : DB :=
  set_password_resets d
    (map (fun r =>
            if p r
            then mkPasswordReset (PasswordReset_ID r) (PasswordReset_UserID r)
                   (PasswordReset_TokenHash r) (PasswordReset_ExpiresAt r) usedAt
                   (PasswordReset_CreatedAt r)
            else r) (password_resets d)).

(** [UPDATE password_resets SET used_at = $1 WHERE id = $2] *)
Definition MarkPasswordResetUsed (usedAt : option Time) (id : UUID) : Stmt unit :=
  fun d => (inr tt, use_reset_where (fun r => Nat.eqb (PasswordReset_ID r) id) usedAt d).

(** [UPDATE password_resets SET used_at = $1 WHERE user_id = $2 AND used_at IS NULL] *)
Definition InvalidateAllPasswordResetsForUser (usedAt : option Time) (userID : UUID)
    : Stmt unit :=
  fun d =>
    (inr tt,
     use_reset_where
       (fun r => Nat.eqb (PasswordReset_UserID r) userID && is_null (PasswordReset_UsedAt r))
       usedAt d).

(** The [WHERE] clause [expires_at < $1 OR used_at IS NOT NULL]. *)
Definition password_reset_stale (now : Time) (r : PasswordReset) : bool :=
  (PasswordReset_ExpiresAt r <? now) || negb (is_null (PasswordReset_UsedAt r)).

(** [DELETE FROM password_resets WHERE expires_at < $1 OR used_at IS NOT NULL] *)
Definition DeleteExpiredOrUsedPasswordResets (now : Time) : Stmt Z :=
  fun d =>
    (inr (Z.of_nat (List.length (filter (password_reset_stale now) (password_resets d)))),
     set_password_resets d
       (filter (fun r => negb (password_reset_stale now r)) (password_resets d))).

(** *** email_verifications.sql *)

(** [INSERT INTO email_verifications (id, user_id, token_hash, expires_at, created_at)] *)
Definition CreateEmailVerification (id userID : UUID) (tokenHash : string)
    (expiresAt createdAt : Time) : Stmt unit :=
  fun d =>
    if existsb (fun v => Nat.eqb (EmailVerification_ID v) id) (email_verifications d)
    then (inl (violation "email_verifications_pkey"), d)
    else if existsb (fun v => String.eqb (EmailVerification_TokenHash v) tokenHash)
                    (email_verifications d)
    then (inl (violation "uq_email_verifications_token_hash"), d)
    else if negb (user_exists userID d)
    then (inl (violation "fk_email_verifications_user"), d)
    else
      (inr tt,
       set_email_verifications d
         (email_verifications d
            ++ [mkEmailVerification id userID tokenHash expiresAt None createdAt])).

(** [SELECT * FROM email_verifications WHERE token_hash = $1] *)
Definition GetEmailVerificationByTokenHash (tokenHash : string) : Stmt EmailVerification :=
  fun d =>
    (one (find (fun v => String.eqb (EmailVerification_TokenHash v) tokenHash)
               (email_verifications d)), d).

Definition use_verification_where (p : EmailVerification -> bool) (usedAt : option Time)
    (d : DB) : DB :=
  set_email_verifications d
    (map (fun v =>
            if p v
            then mkEmailVerification (EmailVerification_ID v) (EmailVerification_UserID v)
                   (EmailVerification_TokenHash v) (EmailVerification_ExpiresAt v) usedAt
                   (EmailVerification_CreatedAt v)
            else v) (email_verifications d)).

(** [UPDATE email_verifications SET used_at = $1 WHERE id = $2] *)
Definition MarkEmailVerificationUsed (usedAt : option Time) (id : UUID) : Stmt unit :=
  fun d =>
    (inr tt, use_verification_where (fun v => Nat.eqb (EmailVerification_ID v) id) usedAt d).

(** [UPDATE email_verifications SET used_at = $1 WHERE user_id = $2 AND used_at IS NULL] *)
Definition InvalidateAllEmailVerificationsForUser (usedAt : option Time) (userID : UUID)
    : Stmt unit :=
  fun d =>
    (inr tt,
     use_verification_where
       (fun v => Nat.eqb (EmailVerification_UserID v) userID
                 && is_null (EmailVerification_UsedAt v))
       usedAt d).

(** The [WHERE] clause [expires_at < $1 OR used_at IS NOT NULL]. *)
Definition email_verification_stale (now : Time) (v : EmailVerification) : bool :=
  (EmailVerification_ExpiresAt v <? now) || negb (is_null (EmailVerification_UsedAt v)).

(** [DELETE FROM email_verifications WHERE expires_at < $1 OR used_at IS NOT NULL] *)
Definition DeleteExpiredOrUsedEmailVerifications (now : Time) : Stmt Z :=
  fun d =>
    (inr (Z.of_nat
            (List.length (filter (email_verification_stale now) (email_verifications d)))),
     set_email_verifications d
       (filter (fun v => negb (email_verification_stale now v)) (email_verifications d))).

End sqlcgen.

(* ===================================================================== *)
(** ** The world outside the process *)

(** A [*sql.Tx] is named by the number the server gave the transaction. *)
Definition Tx := nat.

(** [sqlcgen.DBTX]: the connection pool ([*sql.DB]) or a transaction. *)
Inductive DBTX : Type :=
| Pool
| InTx (tx : Tx).

(** [map[string]any] values of an email payload. *)
Inductive any : Type :=
| AnyString (s : string)
| AnyInt (n : Z).

Record EmailPayload := mkEmailPayload {
  EmailPayload_To : string;
  EmailPayload_Subject : string;
  EmailPayload_Template : string;
  EmailPayload_Data : list (string * any)
}.

(** [taskqueue.TaskMetadata] *)
Record TaskMetadata := mkTaskMetadata {
  TaskMetadata_JobID : UUID;
  TaskMetadata_RequestID : string;
  TaskMetadata_UserID : string
}.

(** [asynq.MaxRetry], [asynq.Timeout], [asynq.Retention] *)
Record TaskOptions := mkTaskOptions {
  TaskOptions_MaxRetry : Z;
  TaskOptions_Timeout : Duration;
  TaskOptions_Retention : Duration
}.

Record TaskEnvelope := mkTaskEnvelope {
  TaskEnvelope_Metadata : TaskMetadata;
  TaskEnvelope_Payload : EmailPayload
}.

(** What the process did to the outside, one entry per interaction. *)
Inductive Event : Type :=
| EvBegin (tx : Tx)                      (* BEGIN answered *)
| EvCommit (tx : Tx)                     (* COMMIT answered *)
| EvRollback (tx : Tx)                   (* ROLLBACK answered *)
| EvQuery (h : DBTX) (name : string)     (* a statement answered by the server *)
| EvFault (op : string) (e : error)      (* a driver call that failed *)
| EvEnqueue (taskType : string) (env : TaskEnvelope) (opts : TaskOptions)
| EvCapture (e : error).                 (* sentry.CaptureError *)

Record World := mkWorld {
  store : DB;                            (* committed rows *)
  txns : list (Tx * DB);                 (* open transactions and their working copies *)
  next_tx : Tx;
  clock : Time;                          (* what the next time.Now() reads *)
  ticks : list Duration;                 (* time passing after each reading *)
  next_uuid : UUID;
  entropy : list (error + list byte);    (* what successive rand.Read calls deliver *)
  faults : list (option error);          (* fate of successive driver calls *)
  broker : list (option error);          (* fate of successive enqueue calls *)
  log : list Event                       (* newest first *)
}.

Definition with_store (w : World) (d : DB) : World :=
  mkWorld d (txns w) (next_tx w) (clock w) (ticks w) (next_uuid w) (entropy w)
          (faults w) (broker w) (log w).
Definition with_txns (w : World) (ts : list (Tx * DB)) : World :=
  mkWorld (store w) ts (next_tx w) (clock w) (ticks w) (next_uuid w) (entropy w)
          (faults w) (broker w) (log w).
Definition with_next_tx (w : World) (n : Tx) : World :=
  mkWorld (store w) (txns w) n (clock w) (ticks w) (next_uuid w) (entropy w)
          (faults w) (broker w) (log w).
Definition with_clock (w : World) (t : Time) (ds : list Duration) : World :=
  mkWorld (store w) (txns w) (next_tx w) t ds (next_uuid w) (entropy w)
          (faults w) (broker w) (log w).
Definition with_next_uuid (w : World) (n : UUID) : World :=
  mkWorld (store w) (txns w) (next_tx w) (clock w) (ticks w) n (entropy w)
          (faults w) (broker w) (log w).
Definition with_entropy (w : World) (es : list (error + list byte)) : World :=
  mkWorld (store w) (txns w) (next_tx w) (clock w) (ticks w) (next_uuid w) es
          (faults w) (broker w) (log w).
Definition with_faults (w : World) (fs : list (option error)) : World :=
  mkWorld (store w) (txns w) (next_tx w) (clock w) (ticks w) (next_uuid w) (entropy w)
          fs (broker w) (log w).
Definition with_broker (w : World) (bs : list (option error)) : World :=
  mkWorld (store w) (txns w) (next_tx w) (clock w) (ticks w) (next_uuid w) (entropy w)
          (faults w) bs (log w).
Definition emit (ev : Event) (w : World) : World :=
  mkWorld (store w) (txns w) (next_tx w) (clock w) (ticks w) (next_uuid w) (entropy w)
          (faults w) (broker w) (ev :: log w).

(** The interactions in the order they happened. *)
Definition history (w : World) : list Event := rev (log w).

(** Working copy of an open transaction. *)
Fixpoint tx_lookup (tx : Tx) (ts : list (Tx * DB)) : option DB :=
  match ts with
  | [] => None
  | (n, d) :: r => if Nat.eqb n tx then Some d else tx_lookup tx r
  end.

Fixpoint tx_update (tx : Tx) (d' : DB) (ts : list (Tx * DB)) : list (Tx * DB) :=
  match ts with
  | [] => []
  | (n, d) :: r => if Nat.eqb n tx then (n, d') :: r else (n, d) :: tx_update tx d' r
  end.

Fixpoint tx_remove (tx : Tx) (ts : list (Tx * DB)) : list (Tx * DB) :=
  match ts with
  | [] => []
  | (n, d) :: r => if Nat.eqb n tx then r else (n, d) :: tx_remove tx r
  end.

(* ===================================================================== *)
(** ** The monad of effectful calls *)

Inductive outcome (A : Type) : Type :=
| Ret (a : A)            (* returned with a nil error *)
| Fail (e : error)       (* returned a non-nil error *)
| Panic (v : string).    (* panicked *)
Arguments Ret {A} a.
Arguments Fail {A} e.
Arguments Panic {A} v.

Definition M (A : Type) := World -> outcome A * World.

Definition ret {A} (a : A) : M A := fun w => (Ret a, w).
Definition fail {A} (e : error) : M A := fun w => (Fail e, w).
Definition panic {A} (v : string) : M A := fun w => (Panic v, w).

(** Sequencing: an error or a panic of the first call ends the function;
    this is [if err != nil { return err }]. *)
Definition bind {A B} (m : M A) (k : A -> M B) : M B :=
  fun w =>
    match m w with
    | (Ret a, w') => k a w'
    | (Fail e, w') => (Fail e, w')
    | (Panic v, w') => (Panic v, w')
    end.

(** [v, err := f()]: the error becomes a value the caller inspects.  A
    panic is not an error value and keeps unwinding. *)
Definition try {A} (m : M A) : M (error + A) :=
  fun w =>
    match m w with
    | (Ret a, w') => (Ret (inr a), w')
    | (Fail e, w') => (Ret (inl e), w')
    | (Panic v, w') => (Panic v, w')
    end.

(** [if err != nil { return eris.Wrap(err, msg) }] *)
Definition wrapping {A} (msg : string) (m : M A) : M A :=
  fun w =>
    match m w with
    | (Fail e, w') => (Fail (eris_Wrap e msg), w')
    | r => r
    end.

Declare Scope go_scope.
Delimit Scope go_scope with go.
Notation "x <- m ;; k" := (bind m (fun x => k))
  (at level 61, m at next level, right associativity) : go_scope.
Notation "m ;;; k" := (bind m (fun _ => k))
  (at level 61, right associativity) : go_scope.
Local Open Scope go_scope.

Definition of_sum {A} (r : error + A) : outcome A :=
  match r with
  | inl e => Fail e
  | inr a => Ret a
  end.

(* ===================================================================== *)
(** ** Primitive calls *)

(** [time.Now().UTC()]: reads the clock; time then moves on. *)
Definition time_Now : M Time :=
  fun w =>
    match ticks w with
    | [] => (Ret (clock w), w)
    | d :: ds => (Ret (clock w), with_clock w (clock w + Z.max 0 d) ds)
    end.

(** [uuid.New()] *)
Definition uuid_New : M UUID :=
  fun w => (Ret (next_uuid w), with_next_uuid w (S (next_uuid w))).

(** Exactly [n] bytes out of what the source delivered. *)
Definition fill (n : nat) (bs : list byte) : list byte :=
  firstn n (bs ++ repeat x00 n).

(** [rand.Read(b)] with [len(b) = n] *)
Definition rand_Read (n : nat) : M (list byte) :=
  fun w =>
    match entropy w with
    | [] => (Ret (fill n []), w)
    | inr bs :: es => (Ret (fill n bs), with_entropy w es)
    | inl e :: es => (Fail e, with_entropy w es)
    end.

(** The fate of the next driver call. *)
Definition next_fault (w : World) : option error * World :=
  match faults w with
  | [] => (None, w)
  | f :: fs => (f, with_faults w fs)
  end.

(** One sqlc query method on the handle [h]: a finished transaction
    answers [sql.ErrTxDone]; otherwise the driver call may fail, and if it
    does not the server runs the statement on the rows the handle sees. *)
Definition exec {A} (h : DBTX) (name : string) (q : Stmt A) : M A :=
  fun w =>
    match h with
    | Pool =>
        match next_fault w with
        | (Some e, w1) => (Fail e, emit (EvFault name e) w1)
        | (None, w1) =>
            let (r, d') := q (store w1) in
            (of_sum r, emit (EvQuery h name) (with_store w1 d'))
        end
    | InTx tx =>
        match tx_lookup tx (txns w) with
        | None => (Fail sql_ErrTxDone, w)
        | Some d =>
            match next_fault w with
            | (Some e, w1) => (Fail e, emit (EvFault name e) w1)
            | (None, w1) =>
                let (r, d') := q d in
                (of_sum r, emit (EvQuery h name) (with_txns w1 (tx_update tx d' (txns w1))))
            end
        end
    end.

(** [db.BeginTx(ctx, nil)]: the transaction starts from the committed rows. *)
Definition BeginTx : M Tx :=
  fun w =>
    match next_fault w with
    | (Some e, w1) => (Fail e, emit (EvFault "begin" e) w1)
    | (None, w1) =>
        let tx := next_tx w1 in
        (Ret tx,
         emit (EvBegin tx)
              (with_next_tx (with_txns w1 ((tx, store w1) :: txns w1)) (S tx)))
    end.

(** [tx.Commit()]: the transaction is finished whatever the answer; its
    writes become the committed rows only if the server answers. *)
Definition Tx_Commit (tx : Tx) : M unit :=
  fun w =>
    match tx_lookup tx (txns w) with
    | None => (Fail sql_ErrTxDone, w)
    | Some d =>
        match next_fault w with
        | (Some e, w1) =>
            (Fail e, emit (EvFault "commit" e) (with_txns w1 (tx_remove tx (txns w1))))
        | (None, w1) =>
            (Ret tt,
             emit (EvCommit tx) (with_store (with_txns w1 (tx_remove tx (txns w1))) d))
        end
    end.

(** [tx.Rollback()]: the writes of the transaction are dropped; a failed
    call leaves a transaction the server aborts with the connection. *)
Definition Tx_Rollback (tx : Tx) : M unit :=
  fun w =>
    match tx_lookup tx (txns w) with
    | None => (Fail sql_ErrTxDone, w)
    | Some _ =>
        match next_fault w with
        | (Some e, w1) =>
            (Fail e, emit (EvFault "rollback" e) (with_txns w1 (tx_remove tx (txns w1))))
        | (None, w1) =>
            (Ret tt, emit (EvRollback tx) (with_txns w1 (tx_remove tx (txns w1))))
        end
    end.

(* ===================================================================== *)
(** ** support/db: the transaction manager *)

(** [TxManager.RunInTx]: begin, run [fn], roll back on error, commit
    otherwise.  The function has no [defer] and no [recover].  [fn]
    returns an error only; a value of type [A] stands for the variables of
    the caller that the closure assigns. *)
Definition RunInTx {A} (fn : Tx -> M A) : M A :=
  tx <- wrapping "failed to begin transaction" BeginTx ;;
  r <- try (fn tx) ;;
  match r with
  | inl err =>
      rb <- try (Tx_Rollback tx) ;;
      match rb with
      | inl rbErr => fail (eris_Wrapf_rollback err rbErr)
      | inr _ => fail err
      end
  | inr a =>
      wrapping "failed to commit transaction" (Tx_Commit tx) ;;;
      ret a
  end.

(* ===================================================================== *)
(** ** support/config *)

Record AuthConfig := mkAuthConfig {
  Secret : string;
  AuthTokenTTL : Duration;
  PasswordResetTokenTTL : Duration;
  EmailConfirmationTokenTTL : Duration;
  AccountDeletionDelay : Duration;
  BcryptCost : Z
}.

Record WorkerConfig := mkWorkerConfig {
  EmailMaxRetry : Z;
  EmailTimeout : Duration;
  EmailRetention : Duration
}.

Record AppConfig := mkAppConfig {
  BaseURL : string
}.

(** The sections of [Config] the services read. *)
Record Config := mkConfig {
  Auth : AuthConfig;
  Worker : WorkerConfig;
  App : AppConfig
}.

Definition digit_of (c : ascii) : option Z :=
  let n := nat_of_ascii c in
  if ((48 <=? n) && (n <=? 57))%nat then Some (Z.of_nat (n - 48)) else None.

Fixpoint leading_int (s : string) (acc : Z) : Z * string :=
  match s with
  | EmptyString => (acc, s)
  | String c r =>
      match digit_of c with
      | Some d => leading_int r (10 * acc + d)
      | None => (acc, s)
      end
  end.

Definition unit_of (u : string) : option Duration :=
  if String.eqb u "ns" then Some Nanosecond
  else if String.eqb u "s" then Some Second
  else if String.eqb u "m" then Some Minute
  else if String.eqb u "h" then Some Hour
  else None.

(** [time.ParseDuration] on the strings the defaults use: ["0"], or one
    decimal integer followed by a unit. *)
Definition ParseDuration (s : string) : option Duration :=
  if String.eqb s "0" then Some 0
  else
    match s with
    | EmptyString => None
    | String c _ =>
        match digit_of c with
        | None => None
        | Some _ =>
            let (n, u) := leading_int s 0 in
            option_map (Z.mul n) (unit_of u)
        end
    end.

(** The [viper.SetDefault] calls of [Load] for the sections above. *)
Definition setDefaults : list (string * any) :=
  [ ("auth.secret", AnyString "dev-secret-change-in-production");
    ("auth.auth_token_ttl", AnyString "0");
    ("auth.password_reset_token_ttl", AnyString "1h");
    ("auth.email_confirmation_token_ttl", AnyString "24h");
    ("auth.account_deletion_delay", AnyString "720h");
    ("auth.bcrypt_cost", AnyInt 12);
    ("worker.email_max_retry", AnyInt 5);
    ("worker.email_timeout", AnyString "30s");
    ("worker.email_retention", AnyString "24h");
    ("app.base_url", AnyString "http://localhost:3000") ].

Fixpoint lookup_key (k : string) (kv : list (string * any)) : option any :=
  match kv with
  | [] => None
  | (k', v) :: r => if String.eqb k' k then Some v else lookup_key k r
  end.

(** [viper.Get]: what the file or the environment sets wins over the default. *)
Definition viper_Get (settings : list (string * any)) (k : string) : option any :=
  match lookup_key k settings with
  | Some v => Some v
  | None => lookup_key k setDefaults
  end.

Definition as_duration (v : option any) : option Duration :=
  match v with
  | Some (AnyString s) => ParseDuration s
  | Some (AnyInt n) => Some n
  | None => Some 0
  end.

Definition as_int (v : option any) : option Z :=
  match v with
  | Some (AnyInt n) => Some n
  | Some (AnyString s) =>
      match leading_int s 0 with
      | (n, EmptyString) => Some n
      | _ => None
      end
  | None => Some 0
  end.

Definition as_string (v : option any) : option string :=
  match v with
  | Some (AnyString s) => Some s
  | Some (AnyInt _) => None
  | None => Some ""
  end.

Definition opt_bind {A B} (o : option A) (k : A -> option B) : option B :=
  match o with
  | Some a => k a
  | None => None
  end.

(** [viper.Unmarshal(&cfg)] *)
Definition Unmarshal (settings : list (string * any)) : option Config :=
  let g := viper_Get settings in
  opt_bind (as_string (g "auth.secret")) (fun secret =>
  opt_bind (as_duration (g "auth.auth_token_ttl")) (fun authTTL =>
  opt_bind (as_duration (g "auth.password_reset_token_ttl")) (fun resetTTL =>
  opt_bind (as_duration (g "auth.email_confirmation_token_ttl")) (fun confirmTTL =>
  opt_bind (as_duration (g "auth.account_deletion_delay")) (fun delay =>
  opt_bind (as_int (g "auth.bcrypt_cost")) (fun cost =>
  opt_bind (as_int (g "worker.email_max_retry")) (fun maxRetry =>
  opt_bind (as_duration (g "worker.email_timeout")) (fun timeout =>
  opt_bind (as_duration (g "worker.email_retention")) (fun retention =>
  opt_bind (as_string (g "app.base_url")) (fun baseURL =>
  Some (mkConfig (mkAuthConfig secret authTTL resetTTL confirmTTL delay cost)
                 (mkWorkerConfig maxRetry timeout retention)
                 (mkAppConfig baseURL)))))))))))).

(** [Config.Validate], for the fields above. *)
Definition Validate (c : Config) : bool :=
  negb ((BcryptCost (Auth c) <? 4) || (31 <? BcryptCost (Auth c))).

(** [config.Load]: [settings] is what the configuration file and the
    environment set. *)
Definition Load (settings : list (string * any)) : option Config :=
  match Unmarshal settings with
  | Some cfg => if Validate cfg then Some cfg else None
  | None => None
  end.

(* ===================================================================== *)
(** ** Libraries the services call *)

(** SHA-256, bcrypt, URL escaping and date formatting are used through
    their interfaces only. *)
Class Libraries := {
  (** [sha256.Sum256([]byte(s))] *)
  sha256_Sum256 : string -> list byte;
  (** bcrypt of a password at a cost with a given salt; an error for a
      password or cost the library refuses *)
  bcrypt_hash : string -> Z -> list byte -> error + string;
  (** [bcrypt.CompareHashAndPassword(hash, password) == nil] *)
  bcrypt_matches : string -> string -> bool;
  (** [url.QueryEscape] *)
  url_QueryEscape : string -> string;
  (** [t.Format("02/01/2006")] *)
  Time_Format : Time -> string
}.

Section Program.

Context {libs : Libraries}.

(* --------------------------------------------------------------------- *)
(** *** app/services: the token codec *)

Definition hextable : list ascii :=
  list_ascii_of_string "0123456789abcdef".

Definition hex_digit (n : N) : ascii := nth (N.to_nat n) hextable "0"%char.

(** [hex.EncodeToString] *)
Fixpoint hex_EncodeToString (bs : list byte) : string :=
  match bs with
  | [] => EmptyString
  | b :: r =>
      let n := Byte.to_N b in
      String (hex_digit (N.div n 16)) (String (hex_digit (N.modulo n 16)) (hex_EncodeToString r))
  end.

(** [GenerateSecureToken(length)] *)
Definition GenerateSecureToken (length : nat) : M string :=
  bytes <- wrapping "failed to generate secure token" (rand_Read length) ;;
  ret (hex_EncodeToString bytes).

(** [HashToken(token)] *)
Definition HashToken (token : string) : string :=
  hex_EncodeToString (sha256_Sum256 token).

(** [bcrypt.GenerateFromPassword(password, cost)]: draws a 16-byte salt. *)
Definition bcrypt_GenerateFromPassword (password : string) (cost : Z) : M string :=
  salt <- rand_Read 16 ;;
  match bcrypt_hash password cost salt with
  | inl e => fail e
  | inr h => ret h
  end.

(* --------------------------------------------------------------------- *)
(** *** support/taskqueue: the task client *)

(** The identifiers a [context.Context] carries for tracing. *)
Record Context := mkContext {
  RequestIDFromContext : string;
  UserIDFromContext : string
}.

Definition TypeEmail : string := "email:send".
Definition TypeCleanup : string := "cleanup:tokens".

(** [tasks.EmailTaskOptions(cfg)] *)
Definition EmailTaskOptions (cfg : Config) : TaskOptions :=
  mkTaskOptions (EmailMaxRetry (Worker cfg)) (EmailTimeout (Worker cfg))
                (EmailRetention (Worker cfg)).

(** [asynq.Client.Enqueue] *)
Definition asynq_Enqueue (taskType : string) (env : TaskEnvelope) (opts : TaskOptions)
    : M unit :=
  fun w =>
    match broker w with
    | Some e :: bs => (Fail e, with_broker w bs)
    | None :: bs => (Ret tt, emit (EvEnqueue taskType env opts) (with_broker w bs))
    | [] => (Ret tt, emit (EvEnqueue taskType env opts) w)
    end.

(** [Client.EnqueueWithMeta]; marshalling a payload of strings and
    integers to JSON does not fail. *)
Definition EnqueueWithMeta (taskType : string) (payload : EmailPayload)
    (requestID userID : string) (opts : TaskOptions) : M unit :=
  jobID <- uuid_New ;;
  let meta := mkTaskMetadata jobID requestID userID in
  wrapping "failed to enqueue task"
    (asynq_Enqueue taskType (mkTaskEnvelope meta payload) opts).

(** [sentry.CaptureError] *)
Definition sentry_CaptureError (e : error) : M unit :=
  fun w => (Ret tt, emit (EvCapture e) w).

(** [Client.EnqueueCtx]: fire and forget. *)
Definition EnqueueCtx (ctx : Context) (taskType : string) (payload : EmailPayload)
    (opts : TaskOptions) : M unit :=
  let requestID := RequestIDFromContext ctx in
  let userID := UserIDFromContext ctx in
  r <- try (EnqueueWithMeta taskType payload requestID userID opts) ;;
  match r with
  | inl err => sentry_CaptureError err
  | inr _ => ret tt
  end.

(* --------------------------------------------------------------------- *)
(** *** app/repositories

    A repository holds the handle its queries run on: the pool for the
    repositories the application is wired with, a transaction for the ones
    [WithTx] returns. *)

Record UserRepository := mkUserRepository { UserRepository_queries : DBTX }.
Record AuthTokenRepository := mkAuthTokenRepository { AuthTokenRepository_queries : DBTX }.
Record PasswordResetRepository :=
  mkPasswordResetRepository { PasswordResetRepository_queries : DBTX }.
Record EmailVerificationRepository :=
  mkEmailVerificationRepository { EmailVerificationRepository_queries : DBTX }.

Definition NewUserRepository : UserRepository := mkUserRepository Pool.
Definition NewAuthTokenRepository : AuthTokenRepository := mkAuthTokenRepository Pool.
Definition NewPasswordResetRepository : PasswordResetRepository :=
  mkPasswordResetRepository Pool.
Definition NewEmailVerificationRepository : EmailVerificationRepository :=
  mkEmailVerificationRepository Pool.

Definition UserRepository_WithTx (r : UserRepository) (tx : Tx) : UserRepository :=
  mkUserRepository (InTx tx).
Definition AuthTokenRepository_WithTx (r : AuthTokenRepository) (tx : Tx)
    : AuthTokenRepository :=
  mkAuthTokenRepository (InTx tx).
Definition PasswordResetRepository_WithTx (r : PasswordResetRepository) (tx : Tx)
    : PasswordResetRepository :=
  mkPasswordResetRepository (InTx tx).
Definition EmailVerificationRepository_WithTx (r : EmailVerificationRepository) (tx : Tx)
    : EmailVerificationRepository :=
  mkEmailVerificationRepository (InTx tx).

(** **** UserRepository *)

Definition UserRepository_Create (r : UserRepository) (name email passwordHash : string)
    : M User :=
  now <- time_Now ;;
  id <- uuid_New ;;
  wrapping "failed to create user"
    (exec (UserRepository_queries r) "CreateUser"
          (sqlcgen.CreateUser id name email passwordHash now now)).

Definition UserRepository_GetByID (r : UserRepository) (id : UUID) : M User :=
  wrapping "failed to get user by id"
    (exec (UserRepository_queries r) "GetUserByID" (sqlcgen.GetUserByID id)).

Definition UserRepository_GetByEmail (r : UserRepository) (email : string) : M User :=
  wrapping "failed to get user by email"
    (exec (UserRepository_queries r) "GetUserByEmail" (sqlcgen.GetUserByEmail email)).

Definition UserRepository_UpdatePassword (r : UserRepository) (userID : UUID)
    (passwordHash : string) : M unit :=
  now <- time_Now ;;
  wrapping "failed to update user password"
    (exec (UserRepository_queries r) "UpdateUserPassword"
          (sqlcgen.UpdateUserPassword passwordHash now userID)).

Definition UserRepository_EmailExists (r : UserRepository) (email : string) : M bool :=
  wrapping "failed to check if email exists"
    (exec (UserRepository_queries r) "EmailExists" (sqlcgen.EmailExists email)).

Definition UserRepository_ScheduleDeletion (r : UserRepository) (userID : UUID)
    (scheduledAt : Time) : M unit :=
  now <- time_Now ;;
  wrapping "failed to schedule user deletion"
    (exec (UserRepository_queries r) "ScheduleUserDeletion"
          (sqlcgen.ScheduleUserDeletion (Some scheduledAt) now userID)).

Definition UserRepository_CancelDeletion (r : UserRepository) (userID : UUID) : M unit :=
  now <- time_Now ;;
  wrapping "failed to cancel user deletion"
    (exec (UserRepository_queries r) "CancelUserDeletion"
          (sqlcgen.CancelUserDeletion now userID)).

Definition UserRepository_DeleteScheduledUsers (r : UserRepository) : M Z :=
  now <- time_Now ;;
  wrapping "failed to delete scheduled users"
    (exec (UserRepository_queries r) "DeleteScheduledUsers"
          (sqlcgen.DeleteScheduledUsers now)).

(** **** AuthTokenRepository *)

Definition AuthTokenRepository_Create (r : AuthTokenRepository) (userID : UUID)
    (tokenHash : string) (expiresAt : Time) : M AuthToken :=
  id <- uuid_New ;;
  createdAt <- time_Now ;;
  let token := mkAuthToken id userID tokenHash expiresAt None createdAt in
  wrapping "failed to create auth token"
    (exec (AuthTokenRepository_queries r) "CreateAuthToken"
          (sqlcgen.CreateAuthToken (AuthToken_ID token) (AuthToken_UserID token)
             (AuthToken_TokenHash token) (AuthToken_ExpiresAt token)
             (AuthToken_CreatedAt token))) ;;;
  ret token.

Definition AuthTokenRepository_GetByHash (r : AuthTokenRepository) (tokenHash : string)
    : M AuthToken :=
  wrapping "failed to get auth token by hash"
    (exec (AuthTokenRepository_queries r) "GetAuthTokenByHash"
          (sqlcgen.GetAuthTokenByHash tokenHash)).

Definition AuthTokenRepository_RevokeByHash (r : AuthTokenRepository) (tokenHash : string)
    : M unit :=
  now <- time_Now ;;
  wrapping "failed to revoke auth token by hash"
    (exec (AuthTokenRepository_queries r) "RevokeAuthTokenByHash"
          (sqlcgen.RevokeAuthTokenByHash (Some now) tokenHash)).

Definition AuthTokenRepository_RevokeAllForUser (r : AuthTokenRepository) (userID : UUID)
    : M unit :=
  now <- time_Now ;;
  wrapping "failed to revoke all auth tokens for user"
    (exec (AuthTokenRepository_queries r) "RevokeAllAuthTokensForUser"
          (sqlcgen.RevokeAllAuthTokensForUser (Some now) userID)).

Definition AuthTokenRepository_DeleteExpiredOrRevoked (r : AuthTokenRepository) : M Z :=
  now <- time_Now ;;
  wrapping "failed to delete expired or revoked auth tokens"
    (exec (AuthTokenRepository_queries r) "DeleteExpiredOrRevokedAuthTokens"
          (sqlcgen.DeleteExpiredOrRevokedAuthTokens now)).

(** **** PasswordResetRepository *)

Definition PasswordResetRepository_Create (r : PasswordResetRepository) (userID : UUID)
    (tokenHash : string) (expiresAt : Time) : M PasswordReset :=
  id <- uuid_New ;;
  createdAt <- time_Now ;;
  let reset := mkPasswordReset id userID tokenHash expiresAt None createdAt in
  wrapping "failed to create password reset"
    (exec (PasswordResetRepository_queries r) "CreatePasswordReset"
          (sqlcgen.CreatePasswordReset (PasswordReset_ID reset) (PasswordReset_UserID reset)
             (PasswordReset_TokenHash reset) (PasswordReset_ExpiresAt reset)
             (PasswordReset_CreatedAt reset))) ;;;
  ret reset.

Definition PasswordResetRepository_GetByTokenHash (r : PasswordResetRepository)
    (tokenHash : string) : M PasswordReset :=
  wrapping "failed to get password reset by token hash"
    (exec (PasswordResetRepository_queries r) "GetPasswordResetByTokenHash"
          (sqlcgen.GetPasswordResetByTokenHash tokenHash)).

Definition PasswordResetRepository_MarkUsed (r : PasswordResetRepository) (id : UUID)
    : M unit :=
  now <- time_Now ;;
  wrapping "failed to mark password reset as used"
    (exec (PasswordResetRepository_queries r) "MarkPasswordResetUsed"
          (sqlcgen.MarkPasswordResetUsed (Some now) id)).

Definition PasswordResetRepository_InvalidateAllForUser (r : PasswordResetRepository)
    (userID : UUID) : M unit :=
  now <- time_Now ;;
  wrapping "failed to invalidate all password resets for user"
    (exec (PasswordResetRepository_queries r) "InvalidateAllPasswordResetsForUser"
          (sqlcgen.InvalidateAllPasswordResetsForUser (Some now) userID)).

Definition PasswordResetRepository_DeleteExpiredOrUsed (r : PasswordResetRepository) : M Z :=
  now <- time_Now ;;
  wrapping "failed to delete expired or used password resets"
    (exec (PasswordResetRepository_queries r) "DeleteExpiredOrUsedPasswordResets"
          (sqlcgen.DeleteExpiredOrUsedPasswordResets now)).

(** **** EmailVerificationRepository *)

Definition EmailVerificationRepository_DeleteExpiredOrUsed
    (r : EmailVerificationRepository) : M Z :=
  now <- time_Now ;;
  wrapping "failed to delete expired or used email verifications"
    (exec (EmailVerificationRepository_queries r) "DeleteExpiredOrUsedEmailVerifications"
          (sqlcgen.DeleteExpiredOrUsedEmailVerifications now)).

(* --------------------------------------------------------------------- *)
(** *** app/services: SessionService *)

(** The time-to-live of authentication tokens when none is configured:
    [365 * 24 * time.Hour]. *)
Definition DefaultAuthTokenTTL : Duration := 365 * 24 * Hour.

Record SessionService := mkSessionService {
  SessionService_config : Config;
  SessionService_userRepo : UserRepository;
  SessionService_authTokenRepo : AuthTokenRepository
}.

Definition NewSessionService (cfg : Config) (userRepo : UserRepository)
    (authTokenRepo : AuthTokenRepository) : SessionService :=
  mkSessionService cfg userRepo authTokenRepo.

Definition SessionService_generateToken (s : SessionService) (userID : UUID) : M string :=
  token <- wrapping "failed to generate secure token" (GenerateSecureToken 32) ;;
  let tokenHash := HashToken token in
  now <- time_Now ;;
  let ttl := AuthTokenTTL (Auth (SessionService_config s)) in
  let ttl := if ttl =? 0 then DefaultAuthTokenTTL else ttl in
  let expiresAt := Time_Add now ttl in
  wrapping "failed to create auth token"
    (AuthTokenRepository_Create (SessionService_authTokenRepo s) userID tokenHash expiresAt) ;;;
  ret token.

Definition clear_deletion (u : User) : User :=
  mkUser (User_ID u) (User_Name u) (User_Email u) (User_PasswordHash u)
         (User_EmailVerifiedAt u) None (User_CreatedAt u) (User_UpdatedAt u).

Definition SessionService_Create (s : SessionService) (ctx : Context)
    (email password : string) : M (User * string) :=
  r <- try (UserRepository_GetByEmail (SessionService_userRepo s) email) ;;
  match r with
  | inl err =>
      if eris_Is err sql_ErrNoRows
      then fail ErrInvalidCredentials
      else fail (eris_Wrap err "failed to get user by email")
  | inr user =>
      if negb (bcrypt_matches (User_PasswordHash user) password)
      then fail ErrInvalidCredentials
      else
        (* Cancel scheduled deletion if user logs in *)
        user <- (if negb (is_null (User_DeletionScheduledAt user))
                 then
                   wrapping "failed to cancel deletion"
                     (UserRepository_CancelDeletion (SessionService_userRepo s)
                        (User_ID user)) ;;;
                   ret (clear_deletion user)
                 else ret user) ;;
        token <- wrapping "failed to generate token"
                   (SessionService_generateToken s (User_ID user)) ;;
        ret (user, token)
  end.

Definition SessionService_CreateForUser (s : SessionService) (ctx : Context)
    (userID : UUID) : M string :=
  SessionService_generateToken s userID.

Definition SessionService_Delete (s : SessionService) (ctx : Context) (token : string)
    : M unit :=
  let tokenHash := HashToken token in
  wrapping "failed to revoke token"
    (AuthTokenRepository_RevokeByHash (SessionService_authTokenRepo s) tokenHash).

Definition SessionService_ValidateToken (s : SessionService) (ctx : Context)
    (token : string) : M AuthToken :=
  let tokenHash := HashToken token in
  r <- try (AuthTokenRepository_GetByHash (SessionService_authTokenRepo s) tokenHash) ;;
  match r with
  | inl err =>
      if eris_Is err sql_ErrNoRows
      then fail ErrInvalidToken
      else fail (eris_Wrap err "failed to get auth token")
  | inr authToken =>
      if negb (is_null (AuthToken_RevokedAt authToken))
      then fail ErrTokenRevoked
      else
        now <- time_Now ;;
        if Time_After now (AuthToken_ExpiresAt authToken)
        then fail ErrTokenExpired
        else ret authToken
  end.

(* --------------------------------------------------------------------- *)
(** *** app/services: PasswordResetService *)

(** The transaction manager and the task client of the Go struct act on
    the world and need no field here. *)
Record PasswordResetService := mkPasswordResetService {
  PasswordResetService_config : Config;
  PasswordResetService_userRepo : UserRepository;
  PasswordResetService_passwordResetRepo : PasswordResetRepository;
  PasswordResetService_authTokenRepo : AuthTokenRepository
}.

Definition NewPasswordResetService (cfg : Config) (userRepo : UserRepository)
    (passwordResetRepo : PasswordResetRepository) (authTokenRepo : AuthTokenRepository)
    : PasswordResetService :=
  mkPasswordResetService cfg userRepo passwordResetRepo authTokenRepo.

Definition PasswordResetService_Create (s : PasswordResetService) (ctx : Context)
    (email : string) : M unit :=
  r <- try (UserRepository_GetByEmail (PasswordResetService_userRepo s) email) ;;
  match r with
  | inl err =>
      if eris_Is err sql_ErrNoRows
      then ret tt
      else fail (eris_Wrap err "failed to get user by email")
  | inr user =>
      resetToken <- wrapping "failed to generate reset token" (GenerateSecureToken 32) ;;
      let tokenHash := HashToken resetToken in
      now <- time_Now ;;
      let expiresAt :=
        Time_Add now (PasswordResetTokenTTL (Auth (PasswordResetService_config s))) in
      wrapping "failed to create password reset"
        (PasswordResetRepository_Create (PasswordResetService_passwordResetRepo s)
           (User_ID user) tokenHash expiresAt) ;;;
      let resetLink :=
        BaseURL (App (PasswordResetService_config s))
          ++ "/reset-password?token=" ++ url_QueryEscape resetToken in
      EnqueueCtx ctx TypeEmail
        (mkEmailPayload (User_Email user) "Redefinir Senha - ZapAgenda" "password-reset"
           [("Name", AnyString (User_Name user)); ("ResetLink", AnyString resetLink)])
        (EmailTaskOptions (PasswordResetService_config s)) ;;;
      ret tt
  end.

Definition PasswordResetService_Execute (s : PasswordResetService) (ctx : Context)
    (token newPassword : string) : M unit :=
  let tokenHash := HashToken token in
  r <- try (PasswordResetRepository_GetByTokenHash
              (PasswordResetService_passwordResetRepo s) tokenHash) ;;
  match r with
  | inl err =>
      if eris_Is err sql_ErrNoRows
      then fail ErrInvalidResetToken
      else fail (eris_Wrap err "failed to get password reset by token hash")
  | inr reset =>
      if negb (is_null (PasswordReset_UsedAt reset))
      then fail ErrTokenAlreadyUsed
      else
        now <- time_Now ;;
        if Time_After now (PasswordReset_ExpiresAt reset)
        then fail ErrTokenExpired
        else
          passwordHash <-
            wrapping "failed to hash password"
              (bcrypt_GenerateFromPassword newPassword
                 (BcryptCost (Auth (PasswordResetService_config s)))) ;;
          RunInTx (fun tx =>
            let txUserRepo := UserRepository_WithTx (PasswordResetService_userRepo s) tx in
            let txPasswordResetRepo :=
              PasswordResetRepository_WithTx (PasswordResetService_passwordResetRepo s) tx in
            let txAuthTokenRepo :=
              AuthTokenRepository_WithTx (PasswordResetService_authTokenRepo s) tx in
            wrapping "failed to update password"
              (UserRepository_UpdatePassword txUserRepo (PasswordReset_UserID reset)
                 passwordHash) ;;;
            wrapping "failed to mark password reset as used"
              (PasswordResetRepository_MarkUsed txPasswordResetRepo
                 (PasswordReset_ID reset)) ;;;
            wrapping "failed to invalidate password resets for user"
              (PasswordResetRepository_InvalidateAllForUser txPasswordResetRepo
                 (PasswordReset_UserID reset)) ;;;
            wrapping "failed to revoke auth tokens for user"
              (AuthTokenRepository_RevokeAllForUser txAuthTokenRepo
                 (PasswordReset_UserID reset)) ;;;
            ret tt)
  end.

(* --------------------------------------------------------------------- *)
(** *** app/services: UserService.ScheduleDeletion *)

(** As for [PasswordResetService], without the transaction manager and
    the task client. *)
Record UserService := mkUserService {
  UserService_config : Config;
  UserService_userRepo : UserRepository;
  UserService_authTokenRepo : AuthTokenRepository
}.

Definition NewUserService (cfg : Config) (userRepo : UserRepository)
    (authTokenRepo : AuthTokenRepository) : UserService :=
  mkUserService cfg userRepo authTokenRepo.

(** [int(d.Hours() / 24)] *)
Definition DaysLeft (d : Duration) : Z := Z.quot d (24 * Hour).

Definition UserService_ScheduleDeletion (s : UserService) (ctx : Context) (userID : UUID)
    : M unit :=
  now <- time_Now ;;
  let scheduledAt := Time_Add now (AccountDeletionDelay (Auth (UserService_config s))) in
  (* Run all database operations in a transaction *)
  info <- RunInTx (fun tx =>
    let userRepoTx := UserRepository_WithTx (UserService_userRepo s) tx in
    let authTokenRepoTx := AuthTokenRepository_WithTx (UserService_authTokenRepo s) tx in
    (* Get user inside transaction to ensure consistent read *)
    r <- try (UserRepository_GetByID userRepoTx userID) ;;
    match r with
    | inl err =>
        if eris_Is err sql_ErrNoRows
        then fail ErrUserNotFound
        else fail (eris_Wrap err "failed to get user by ID")
    | inr user =>
        if negb (is_null (User_DeletionScheduledAt user))
        then fail ErrDeletionAlreadyScheduled
        else
          (* Store user info for email after transaction commits *)
          let userEmail := User_Email user in
          let userName := User_Name user in
          wrapping "failed to schedule user deletion"
            (UserRepository_ScheduleDeletion userRepoTx userID scheduledAt) ;;;
          (* Revoke all auth tokens to log the user out *)
          wrapping "failed to revoke all auth tokens for user"
            (AuthTokenRepository_RevokeAllForUser authTokenRepoTx userID) ;;;
          ret (userEmail, userName)
    end) ;;
  let (userEmail, userName) := info in
  EnqueueCtx ctx TypeEmail
    (mkEmailPayload userEmail "Sua conta será excluída - ZapAgenda"
       "account-deletion-scheduled"
       [("Name", AnyString userName);
        ("ScheduledAt", AnyString (Time_Format scheduledAt));
        ("DaysLeft", AnyInt (DaysLeft (AccountDeletionDelay (Auth (UserService_config s)))))])
    (EmailTaskOptions (UserService_config s)) ;;;
  ret tt.

(* --------------------------------------------------------------------- *)
(** *** app/tasks: CleanupTask *)

Record CleanupTask := mkCleanupTask {
  CleanupTask_authTokenRepo : AuthTokenRepository;
  CleanupTask_passwordResetRepo : PasswordResetRepository;
  CleanupTask_emailVerificationRepo : EmailVerificationRepository;
  CleanupTask_userRepo : UserRepository
}.

Definition NewCleanupTask (authTokenRepo : AuthTokenRepository)
    (passwordResetRepo : PasswordResetRepository)
    (emailVerificationRepo : EmailVerificationRepository) (userRepo : UserRepository)
    : CleanupTask :=
  mkCleanupTask authTokenRepo passwordResetRepo emailVerificationRepo userRepo.

(** [CleanupTask.Handle]; the metadata unwrapped from the payload only
    feeds the logger.  The result is the four counts the last log line
    reports. *)
Definition CleanupTask_Handle (t : CleanupTask) (ctx : Context) : M (Z * Z * Z * Z) :=
  (* Cleanup auth tokens *)
  authDeleted <- wrapping "failed to cleanup auth tokens"
    (AuthTokenRepository_DeleteExpiredOrRevoked (CleanupTask_authTokenRepo t)) ;;
  (* Cleanup password reset tokens *)
  passwordDeleted <- wrapping "failed to cleanup password reset tokens"
    (PasswordResetRepository_DeleteExpiredOrUsed (CleanupTask_passwordResetRepo t)) ;;
  (* Cleanup email verification tokens *)
  emailDeleted <- wrapping "failed to cleanup email verification tokens"
    (EmailVerificationRepository_DeleteExpiredOrUsed (CleanupTask_emailVerificationRepo t)) ;;
  (* Delete users with scheduled deletion date in the past *)
  usersDeleted <- wrapping "failed to delete scheduled users"
    (UserRepository_DeleteScheduledUsers (CleanupTask_userRepo t)) ;;
  ret (authDeleted, passwordDeleted, emailDeleted, usersDeleted).

(* --------------------------------------------------------------------- *)
(** *** support/wire: the services as the application builds them *)

Definition ProvideSessionService (cfg : Config) : SessionService :=
  NewSessionService cfg NewUserRepository NewAuthTokenRepository.

Definition ProvidePasswordResetService (cfg : Config) : PasswordResetService :=
  NewPasswordResetService cfg NewUserRepository NewPasswordResetRepository
    NewAuthTokenRepository.

Definition ProvideUserService (cfg : Config) : UserService :=
  NewUserService cfg NewUserRepository NewAuthTokenRepository.

Definition ProvideCleanupTask : CleanupTask :=
  NewCleanupTask NewAuthTokenRepository NewPasswordResetRepository
    NewEmailVerificationRepository NewUserRepository.

(* --------------------------------------------------------------------- *)
(** *** app/errors: the remaining sentinels *)

Definition ErrMissingAuthHeader : error :=
  errors_Unauthorized "MISSING_AUTH_HEADER" "missing authorization header".
Definition ErrInvalidAuthFormat : error :=
  errors_Unauthorized "INVALID_AUTH_FORMAT" "invalid authorization header format".
Definition ErrInvalidVerificationToken : error :=
  errors_New "INVALID_VERIFICATION_TOKEN" "invalid or expired verification token".
Definition ErrEmailAlreadyExists : error :=
  errors_New "EMAIL_ALREADY_EXISTS" "email already exists".
Definition ErrEmailAlreadyVerified : error :=
  errors_New "EMAIL_ALREADY_VERIFIED" "email already verified".

(* --------------------------------------------------------------------- *)
(** *** app/repositories: the remaining methods *)

Definition UserRepository_MarkEmailVerified (r : UserRepository) (userID : UUID) : M unit :=
  now <- time_Now ;;
  wrapping "failed to mark email as verified"
    (exec (UserRepository_queries r) "MarkUserEmailVerified"
          (sqlcgen.MarkUserEmailVerified (Some now) now userID)).

Definition AuthTokenRepository_Revoke (r : AuthTokenRepository) (id : UUID) : M unit :=
  now <- time_Now ;;
  wrapping "failed to revoke auth token"
    (exec (AuthTokenRepository_queries r) "RevokeAuthToken"
          (sqlcgen.RevokeAuthToken (Some now) id)).

Definition EmailVerificationRepository_Create (r : EmailVerificationRepository)
    (userID : UUID) (tokenHash : string) (expiresAt : Time) : M EmailVerification :=
  id <- uuid_New ;;
  createdAt <- time_Now ;;
  let verification := mkEmailVerification id userID tokenHash expiresAt None createdAt in
  wrapping "failed to create email verification"
    (exec (EmailVerificationRepository_queries r) "CreateEmailVerification"
          (sqlcgen.CreateEmailVerification (EmailVerification_ID verification)
             (EmailVerification_UserID verification)
             (EmailVerification_TokenHash verification)
             (EmailVerification_ExpiresAt verification)
             (EmailVerification_CreatedAt verification))) ;;;
  ret verification.

Definition EmailVerificationRepository_GetByTokenHash (r : EmailVerificationRepository)
    (tokenHash : string) : M EmailVerification :=
  wrapping "failed to get email verification by token hash"
    (exec (EmailVerificationRepository_queries r) "GetEmailVerificationByTokenHash"
          (sqlcgen.GetEmailVerificationByTokenHash tokenHash)).

Definition EmailVerificationRepository_MarkUsed (r : EmailVerificationRepository) (id : UUID)
    : M unit :=
  now <- time_Now ;;
  wrapping "failed to mark email verification as used"
    (exec (EmailVerificationRepository_queries r) "MarkEmailVerificationUsed"
          (sqlcgen.MarkEmailVerificationUsed (Some now) id)).

Definition EmailVerificationRepository_InvalidateAllForUser (r : EmailVerificationRepository)
    (userID : UUID) : M unit :=
  now <- time_Now ;;
  wrapping "failed to invalidate all email verifications for user"
    (exec (EmailVerificationRepository_queries r) "InvalidateAllEmailVerificationsForUser"
          (sqlcgen.InvalidateAllEmailVerificationsForUser (Some now) userID)).

(* --------------------------------------------------------------------- *)
(** *** app/services: UserService, registration and lookups *)

Definition UserService_Create (s : UserService) (ctx : Context)
    (name email password : string) : M User :=
  exists_ <- wrapping "failed to check if email exists"
               (UserRepository_EmailExists (UserService_userRepo s) email) ;;
  if exists_ : bool
  then fail ErrEmailAlreadyExists
  else
    passwordHash <-
      wrapping "failed to generate password hash"
        (bcrypt_GenerateFromPassword password (BcryptCost (Auth (UserService_config s)))) ;;
    UserRepository_Create (UserService_userRepo s) name email passwordHash.

Definition UserService_GetByID (s : UserService) (ctx : Context) (id : UUID) : M User :=
  r <- try (UserRepository_GetByID (UserService_userRepo s) id) ;;
  match r with
  | inl err =>
      if eris_Is err sql_ErrNoRows
      then fail ErrUserNotFound
      else fail (eris_Wrap err "failed to get user by ID")
  | inr user => ret user
  end.

Definition UserService_GetByEmail (s : UserService) (ctx : Context) (email : string)
    : M User :=
  r <- try (UserRepository_GetByEmail (UserService_userRepo s) email) ;;
  match r with
  | inl err =>
      if eris_Is err sql_ErrNoRows
      then fail ErrUserNotFound
      else fail (eris_Wrap err "failed to get user by email")
  | inr user => ret user
  end.

(* --------------------------------------------------------------------- *)
(** *** app/services: EmailVerificationService *)

(** As for [PasswordResetService], without the transaction manager and
    the task client. *)
Record EmailVerificationService := mkEmailVerificationService {
  EmailVerificationService_config : Config;
  EmailVerificationService_userRepo : UserRepository;
  EmailVerificationService_emailVerificationRepo : EmailVerificationRepository
}.

Definition NewEmailVerificationService (cfg : Config) (userRepo : UserRepository)
    (emailVerificationRepo : EmailVerificationRepository) : EmailVerificationService :=
  mkEmailVerificationService cfg userRepo emailVerificationRepo.

Definition EmailVerificationService_Send (s : EmailVerificationService) (ctx : Context)
    (userID : UUID) : M unit :=
  user <- wrapping "failed to get user by id"
            (UserRepository_GetByID (EmailVerificationService_userRepo s) userID) ;;
  if negb (is_null (User_EmailVerifiedAt user))
  then fail ErrEmailAlreadyVerified
  else
    verificationToken <-
      wrapping "failed to generate verification token" (GenerateSecureToken 32) ;;
    let tokenHash := HashToken verificationToken in
    now <- time_Now ;;
    let expiresAt :=
      Time_Add now (EmailConfirmationTokenTTL (Auth (EmailVerificationService_config s))) in
    wrapping "failed to invalidate email verifications for user"
      (EmailVerificationRepository_InvalidateAllForUser
         (EmailVerificationService_emailVerificationRepo s) userID) ;;;
    wrapping "failed to create email verification"
      (EmailVerificationRepository_Create
         (EmailVerificationService_emailVerificationRepo s) userID tokenHash expiresAt) ;;;
    let verificationLink :=
      BaseURL (App (EmailVerificationService_config s))
        ++ "/verify-email?token=" ++ url_QueryEscape verificationToken in
    EnqueueCtx ctx TypeEmail
      (mkEmailPayload (User_Email user) "Confirme seu Email - ZapAgenda" "email-verification"
         [("Name", AnyString (User_Name user));
          ("VerificationLink", AnyString verificationLink)])
      (EmailTaskOptions (EmailVerificationService_config s)) ;;;
    ret tt.

Definition EmailVerificationService_Verify (s : EmailVerificationService) (ctx : Context)
    (token : string) : M unit :=
  let tokenHash := HashToken token in
  r <- try (EmailVerificationRepository_GetByTokenHash
              (EmailVerificationService_emailVerificationRepo s) tokenHash) ;;
  match r with
  | inl err =>
      if eris_Is err sql_ErrNoRows
      then fail ErrInvalidVerificationToken
      else fail (eris_Wrap err "failed to get email verification by token hash")
  | inr verification =>
      if negb (is_null (EmailVerification_UsedAt verification))
      then fail ErrTokenAlreadyUsed
      else
        now <- time_Now ;;
        if Time_After now (EmailVerification_ExpiresAt verification)
        then fail ErrTokenExpired
        else
          RunInTx (fun tx =>
            let txUserRepo :=
              UserRepository_WithTx (EmailVerificationService_userRepo s) tx in
            let txEmailVerificationRepo :=
              EmailVerificationRepository_WithTx
                (EmailVerificationService_emailVerificationRepo s) tx in
            wrapping "failed to mark email as verified"
              (UserRepository_MarkEmailVerified txUserRepo
                 (EmailVerification_UserID verification)) ;;;
            wrapping "failed to mark email verification as used"
              (EmailVerificationRepository_MarkUsed txEmailVerificationRepo
                 (EmailVerification_ID verification)) ;;;
            wrapping "failed to invalidate email verifications for user"
              (EmailVerificationRepository_InvalidateAllForUser txEmailVerificationRepo
                 (EmailVerification_UserID verification)) ;;;
            ret tt)
  end.

Definition EmailVerificationService_Resend (s : EmailVerificationService) (ctx : Context)
    (email : string) : M unit :=
  r <- try (UserRepository_GetByEmail (EmailVerificationService_userRepo s) email) ;;
  match r with
  | inl err =>
      if eris_Is err sql_ErrNoRows
      then ret tt
      else fail (eris_Wrap err "failed to get user by email")
  | inr user =>
      if negb (is_null (User_EmailVerifiedAt user))
      then ret tt
      else EmailVerificationService_Send s ctx (User_ID user)
  end.

Definition ProvideEmailVerificationService (cfg : Config) : EmailVerificationService :=
  NewEmailVerificationService cfg NewUserRepository NewEmailVerificationRepository.

(* --------------------------------------------------------------------- *)
(** *** Vocabulary of the properties *)

(** The next driver call reaches the server and is answered. *)
Definition answered (w : World) : Prop := fst (next_fault w) = None.

(** The row [GetAuthTokenByHash] selects for a raw token. *)
Definition stored_auth_token (w : World) (token : string) : option AuthToken :=
  find (fun t => String.eqb (AuthToken_TokenHash t) (HashToken token))
       (auth_tokens (store w)).

(** The row [GetUserByEmail] selects. *)
Definition stored_user (w : World) (email : string) : option User :=
  find (fun u => String.eqb (User_Email u) email) (users (store w)).

(** The row [GetPasswordResetByTokenHash] selects for a raw token. *)
Definition stored_reset (w : World) (token : string) : option PasswordReset :=
  find (fun r => String.eqb (PasswordReset_TokenHash r) (HashToken token))
       (password_resets (store w)).

(** The tasks handed to the broker so far, newest first. *)
Definition is_dispatch (ev : Event) : bool :=
  match ev with
  | EvEnqueue _ _ _ => true
  | _ => false
  end.

Definition dispatched (w : World) : list Event := filter is_dispatch (log w).

(** No driver call of the run is scheduled to fail. *)
Definition calm (w : World) : Prop := faults w = [].

Definition validate_result (stored : option AuthToken) (now : Time) : outcome AuthToken :=
  match stored with
  | None => Fail ErrInvalidToken
  | Some t =>
      if negb (is_null (AuthToken_RevokedAt t)) then Fail ErrTokenRevoked
      else if Time_After now (AuthToken_ExpiresAt t) then Fail ErrTokenExpired
      else Ret t
  end.

(** The closure [Execute] hands to [RunInTx]. *)
Definition Execute_tx (cfg : Config) (reset : PasswordReset) (passwordHash : string)
    (tx : Tx) : M unit :=
  let s := ProvidePasswordResetService cfg in
  let txUserRepo := UserRepository_WithTx (PasswordResetService_userRepo s) tx in
  let txPasswordResetRepo :=
    PasswordResetRepository_WithTx (PasswordResetService_passwordResetRepo s) tx in
  let txAuthTokenRepo :=
    AuthTokenRepository_WithTx (PasswordResetService_authTokenRepo s) tx in
  wrapping "failed to update password"
    (UserRepository_UpdatePassword txUserRepo (PasswordReset_UserID reset) passwordHash) ;;;
  wrapping "failed to mark password reset as used"
    (PasswordResetRepository_MarkUsed txPasswordResetRepo (PasswordReset_ID reset)) ;;;
  wrapping "failed to invalidate password resets for user"
    (PasswordResetRepository_InvalidateAllForUser txPasswordResetRepo
       (PasswordReset_UserID reset)) ;;;
  wrapping "failed to revoke auth tokens for user"
    (AuthTokenRepository_RevokeAllForUser txAuthTokenRepo (PasswordReset_UserID reset)) ;;;
  ret tt.

(** The rows after the four statements of the closure, run at the
    instants [t1] to [t4]. *)
Definition reset_rows (reset : PasswordReset) (passwordHash : string)
    (t1 t2 t3 t4 : Time) (d : DB) : DB :=
  let uid := PasswordReset_UserID reset in
  let d1 := snd (sqlcgen.UpdateUserPassword passwordHash t1 uid d) in
  let d2 := snd (sqlcgen.MarkPasswordResetUsed (Some t2) (PasswordReset_ID reset) d1) in
  let d3 := snd (sqlcgen.InvalidateAllPasswordResetsForUser (Some t3) uid d2) in
  snd (sqlcgen.RevokeAllAuthTokensForUser (Some t4) uid d3).

(** The closure [ScheduleDeletion] hands to [RunInTx]; its result is what
    it stores in [userEmail] and [userName]. *)
Definition ScheduleDeletion_tx (cfg : Config) (userID : UUID) (scheduledAt : Time) (tx : Tx)
    : M (string * string) :=
  let s := ProvideUserService cfg in
  let userRepoTx := UserRepository_WithTx (UserService_userRepo s) tx in
  let authTokenRepoTx := AuthTokenRepository_WithTx (UserService_authTokenRepo s) tx in
  r <- try (UserRepository_GetByID userRepoTx userID) ;;
  match r with
  | inl err =>
      if eris_Is err sql_ErrNoRows
      then fail ErrUserNotFound
      else fail (eris_Wrap err "failed to get user by ID")
  | inr user =>
      if negb (is_null (User_DeletionScheduledAt user))
      then fail ErrDeletionAlreadyScheduled
      else
        wrapping "failed to schedule user deletion"
          (UserRepository_ScheduleDeletion userRepoTx userID scheduledAt) ;;;
        wrapping "failed to revoke all auth tokens for user"
          (AuthTokenRepository_RevokeAllForUser authTokenRepoTx userID) ;;;
        ret (User_Email user, User_Name user)
  end.

(** The email [ScheduleDeletion] sends. *)
Definition deletion_notice (cfg : Config) (scheduledAt : Time) (userEmail userName : string)
    : EmailPayload :=
  mkEmailPayload userEmail "Sua conta será excluída - ZapAgenda"
    "account-deletion-scheduled"
    [("Name", AnyString userName);
     ("ScheduledAt", AnyString (Time_Format scheduledAt));
     ("DaysLeft", AnyInt (DaysLeft (AccountDeletionDelay (Auth cfg))))].

(** The row [GetUserByID] selects in the rows [d]. *)
Definition user_by_id (d : DB) (userID : UUID) : option User :=
  find (fun u => Nat.eqb (User_ID u) userID) (users d).

(** The rows after the two statements of the closure. *)
Definition schedule_rows (userID : UUID) (scheduledAt t1 t2 : Time) (d : DB) : DB :=
  snd (sqlcgen.RevokeAllAuthTokensForUser (Some t2) userID
         (snd (sqlcgen.ScheduleUserDeletion (Some scheduledAt) t1 userID d))).

(** The rows after [CancelUserDeletion] ran at [t] for the user [userID]. *)
Definition cancel_rows (t : Time) (userID : UUID) (d : DB) : DB :=
  snd (sqlcgen.CancelUserDeletion t userID d).

(** The rows each purge of the cleanup task leaves. *)
Definition purge_auth_tokens (now : Time) (d : DB) : DB :=
  snd (sqlcgen.DeleteExpiredOrRevokedAuthTokens now d).
Definition purge_password_resets (now : Time) (d : DB) : DB :=
  snd (sqlcgen.DeleteExpiredOrUsedPasswordResets now d).
Definition purge_email_verifications (now : Time) (d : DB) : DB :=
  snd (sqlcgen.DeleteExpiredOrUsedEmailVerifications now d).
Definition purge_users (now : Time) (d : DB) : DB :=
  snd (sqlcgen.DeleteScheduledUsers now d).

(** A character of the hexadecimal alphabet [0-9a-f]. *)
Definition is_hex_char (c : ascii) : bool := existsb (Ascii.eqb c) hextable.

(** The time-to-live [generateToken] applies. *)
Definition effective_ttl (cfg : Config) : Duration :=
  if AuthTokenTTL (Auth cfg) =? 0 then DefaultAuthTokenTTL else AuthTokenTTL (Auth cfg).

(** The row [GetEmailVerificationByTokenHash] selects for a raw token. *)
Definition stored_verification (w : World) (token : string) : option EmailVerification :=
  find (fun v => String.eqb (EmailVerification_TokenHash v) (HashToken token))
       (email_verifications (store w)).

(** An auth token row with [revoked_at] set. *)
Definition revoked_at (at_ : Time) (t : AuthToken) : AuthToken :=
  mkAuthToken (AuthToken_ID t) (AuthToken_UserID t) (AuthToken_TokenHash t)
    (AuthToken_ExpiresAt t) (Some at_) (AuthToken_CreatedAt t).

(** An error that [eris.Wrap] or [eris.Wrapf] produced: context around a
    cause, as opposed to a sentinel or a bare driver error. *)
Definition is_wrapped (e : error) : bool :=
  match e with
  | Wrapped _ _ => true
  | _ => false
  end.

(** An outcome that is nil or a wrapped error, and not a panic. *)
Definition tame {A} (o : outcome A) : Prop :=
  match o with
  | Ret _ => True
  | Fail e => is_wrapped e = true
  | Panic _ => False
  end.

(** A call that does not panic. *)
Definition no_panic {A} (o : outcome A) : Prop :=
  match o with
  | Panic _ => False
  | _ => True
  end.

(** The world after a lookup on the pool that the server answered. *)
Definition looked_up (name : string) (w : World) : World :=
  emit (EvQuery Pool name) (with_store (snd (next_fault w)) (store w)).

(** The email [PasswordResetService.Create] sends for the raw token. *)
Definition reset_email (cfg : Config) (u : User) (token : string) : EmailPayload :=
  mkEmailPayload (User_Email u) "Redefinir Senha - ZapAgenda" "password-reset"
    [("Name", AnyString (User_Name u));
     ("ResetLink",
      AnyString (BaseURL (App cfg) ++ "/reset-password?token=" ++ url_QueryEscape token))].

(** The email [EmailVerificationService.Send] sends for the raw token. *)
Definition verification_email (cfg : Config) (u : User) (token : string) : EmailPayload :=
  mkEmailPayload (User_Email u) "Confirme seu Email - ZapAgenda" "email-verification"
    [("Name", AnyString (User_Name u));
     ("VerificationLink",
      AnyString (BaseURL (App cfg) ++ "/verify-email?token=" ++ url_QueryEscape token))].

(** The event of a task handed to the broker for the request [ctx]. *)
Definition enqueued (ctx : Context) (cfg : Config) (jobID : UUID) (payload : EmailPayload)
    : Event :=
  EvEnqueue TypeEmail
    (mkTaskEnvelope
       (mkTaskMetadata jobID (RequestIDFromContext ctx) (UserIDFromContext ctx)) payload)
    (EmailTaskOptions cfg).

(** The closure [Verify] hands to [RunInTx]. *)
Definition Verify_tx (cfg : Config) (verification : EmailVerification) (tx : Tx) : M unit :=
  let s := ProvideEmailVerificationService cfg in
  let txUserRepo := UserRepository_WithTx (EmailVerificationService_userRepo s) tx in
  let txEmailVerificationRepo :=
    EmailVerificationRepository_WithTx
      (EmailVerificationService_emailVerificationRepo s) tx in
  wrapping "failed to mark email as verified"
    (UserRepository_MarkEmailVerified txUserRepo
       (EmailVerification_UserID verification)) ;;;
  wrapping "failed to mark email verification as used"
    (EmailVerificationRepository_MarkUsed txEmailVerificationRepo
       (EmailVerification_ID verification)) ;;;
  wrapping "failed to invalidate email verifications for user"
    (EmailVerificationRepository_InvalidateAllForUser txEmailVerificationRepo
       (EmailVerification_UserID verification)) ;;;
  ret tt.

(** The rows after the three statements of the closure, run at the
    instants [t1] to [t3]. *)
Definition verify_rows (v : EmailVerification) (t1 t2 t3 : Time) (d : DB) : DB :=
  let uid := EmailVerification_UserID v in
  let d1 := snd (sqlcgen.MarkUserEmailVerified (Some t1) t1 uid d) in
  let d2 := snd (sqlcgen.MarkEmailVerificationUsed (Some t2) (EmailVerification_ID v) d1) in
  snd (sqlcgen.InvalidateAllEmailVerificationsForUser (Some t3) uid d2).

(** [Send] after the lookup of the user, for the unverified [user] found. *)
Definition Send_issue (cfg : Config) (ctx : Context) (userID : UUID) (user : User)
    : M unit :=
  let s := ProvideEmailVerificationService cfg in
  verificationToken <-
    wrapping "failed to generate verification token" (GenerateSecureToken 32) ;;
  let tokenHash := HashToken verificationToken in
  now <- time_Now ;;
  let expiresAt := Time_Add now (EmailConfirmationTokenTTL (Auth cfg)) in
  wrapping "failed to invalidate email verifications for user"
    (EmailVerificationRepository_InvalidateAllForUser
       (EmailVerificationService_emailVerificationRepo s) userID) ;;;
  wrapping "failed to create email verification"
    (EmailVerificationRepository_Create
       (EmailVerificationService_emailVerificationRepo s) userID tokenHash expiresAt) ;;;
  EnqueueCtx ctx TypeEmail (verification_email cfg user verificationToken)
    (EmailTaskOptions cfg) ;;;
  ret tt.

(** The rows after [InvalidateAllEmailVerificationsForUser] ran at [t]. *)
Definition invalidated_rows (t : Time) (userID : UUID) (d : DB) : DB :=
  snd (sqlcgen.InvalidateAllEmailVerificationsForUser (Some t) userID d).

(** [eris.Wrap] applied once for each message, the first message
    outermost. *)
Definition wrap_all (msgs : list string) (e : error) : error :=
  fold_right (fun msg acc => eris_Wrap acc msg) e msgs.

End Program.

(* ===================================================================== *)
(** ** The HTTP layer: support/http and its middlewares *)

(** [uuid.UUID.String] is used through its interface only. *)
Class Formatting := {
  (** [id.String()] *)
  UUID_String : UUID -> string
}.

Section Http.

Context {libs : Libraries} {fmt : Formatting}.

Local Open Scope go_scope.

(** [strings.Split(s, sep)] for a separator of one character: the
    pieces of [s] between the separators, one piece when there is none. *)
Fixpoint strings_Split (s : string) (sep : ascii) : list string :=
  match s with
  | EmptyString => [EmptyString]
  | String c r =>
      if Ascii.eqb c sep
      then EmptyString :: strings_Split r sep
      else
        match strings_Split r sep with
        | [] => [String c EmptyString]
        | p :: ps => String c p :: ps
        end
  end.

(** [strings.Join(parts, sep)] for a separator of one character. *)
Fixpoint strings_Join (parts : list string) (sep : ascii) : string :=
  match parts with
  | [] => EmptyString
  | [p] => p
  | p :: ps => p ++ String sep (strings_Join ps sep)
  end.

(** [strings.ContainsRune(s, c)] *)
Fixpoint strings_ContainsRune (s : string) (c : ascii) : bool :=
  match s with
  | EmptyString => false
  | String a r => Ascii.eqb a c || strings_ContainsRune r c
  end.

(** A [zerolog.Logger], as the fields its context carries. *)
Definition zerolog_Logger := list (string * string).

(** [l.With().Str(key, value).Logger()] *)
Definition zerolog_With_Str (l : zerolog_Logger) (key value : string) : zerolog_Logger :=
  (l ++ [(key, value)])%list.

(** The [context.Context] of a request: the tracing identifiers and the
    logger that [logger.WithContext] attached. *)
Record RequestContext := mkRequestContext {
  RequestContext_ids : Context;
  RequestContext_logger : option zerolog_Logger
}.

Definition logger_WithContext (ctx : RequestContext) (l : zerolog_Logger) : RequestContext :=
  mkRequestContext (RequestContext_ids ctx) (Some l).

Definition logger_WithUserID (ctx : RequestContext) (userID : string) : RequestContext :=
  mkRequestContext
    (mkContext (RequestIDFromContext (RequestContext_ids ctx)) userID)
    (RequestContext_logger ctx).

(** [echo.Context]: the request, and the values stored with [c.Set]
    under the keys of package [reqctx]. *)
Record echo_Context := mkEchoContext {
  Header_Authorization : string;          (* c.Request().Header.Get("Authorization") *)
  PathParams : list (string * string);    (* the values of the route's parameters *)
  Request_Context : RequestContext;       (* c.Request().Context() *)
  contextKeyUserID : option UUID;
  contextKeyToken : option string;
  contextKeyLogger : option zerolog_Logger
}.



Definition reqctx_SetUserID (c : echo_Context) (userID : UUID) : echo_Context :=
  mkEchoContext (Header_Authorization c) (PathParams c) (Request_Context c) (Some userID)
    (contextKeyToken c) (contextKeyLogger c).

(** [reqctx.GetUserID]: [None] stands for [ok == false]. *)
Definition reqctx_GetUserID (c : echo_Context) : option UUID := contextKeyUserID c.

Definition reqctx_SetToken (c : echo_Context) (token : string) : echo_Context :=
  mkEchoContext (Header_Authorization c) (PathParams c) (Request_Context c) (contextKeyUserID c)
    (Some token) (contextKeyLogger c).

Definition reqctx_GetToken (c : echo_Context) : option string := contextKeyToken c.

Definition reqctx_SetLogger (c : echo_Context) (l : zerolog_Logger) : echo_Context :=
  mkEchoContext (Header_Authorization c) (PathParams c) (Request_Context c) (contextKeyUserID c)
    (contextKeyToken c) (Some l).

(** [reqctx.Logger]: [None] stands for [nil]. *)
Definition reqctx_Logger (c : echo_Context) : option zerolog_Logger := contextKeyLogger c.

(** [c.SetRequest(c.Request().WithContext(ctx))] *)
Definition SetRequest_WithContext (c : echo_Context) (ctx : RequestContext) : echo_Context :=
  mkEchoContext (Header_Authorization c) (PathParams c) ctx (contextKeyUserID c)
    (contextKeyToken c) (contextKeyLogger c).

(** [setAuthContext] *)
Definition setAuthContext (c : echo_Context) (userID : UUID) (token : string)
    : echo_Context :=
  let c := reqctx_SetUserID c userID in
  let c := reqctx_SetToken c token in
  let userIDStr := UUID_String userID in
  match reqctx_Logger c with
  | Some reqLogger =>
      let enrichedLogger := zerolog_With_Str reqLogger "user_id" userIDStr in
      let c := reqctx_SetLogger c enrichedLogger in
      let ctx := Request_Context c in
      let ctx := logger_WithContext ctx enrichedLogger in
      let ctx := logger_WithUserID ctx userIDStr in
      SetRequest_WithContext c ctx
  | None => c
  end.

(** [AuthMiddleware(sessionService)(next)] *)
Definition AuthMiddleware {A} (sessionService : SessionService)
    (next : echo_Context -> M A) (c : echo_Context) : M A :=
  let authHeader := Header_Authorization c in
  if String.eqb authHeader ""
  then fail ErrMissingAuthHeader
  else
    let parts := strings_Split authHeader " "%char in
    if negb (Nat.eqb (List.length parts) 2) || negb (String.eqb (nth 0 parts "") "Bearer")
    then fail ErrInvalidAuthFormat
    else
      let token := nth 1 parts "" in
      authToken <- SessionService_ValidateToken sessionService
                     (RequestContext_ids (Request_Context c)) token ;;
      let c := setAuthContext c (AuthToken_UserID authToken) token in
      next c.


(* --------------------------------------------------------------------- *)
(** *** support/http: the error handler *)

(** What a handler hands to echo: an error of the application, or an
    [*echo.HTTPError] of the framework, whose [Message] is a string or
    some other value. *)
Inductive handler_error : Type :=
| GoError (err : error)
| echo_HTTPError (Code : Z) (Message : option string).

(** [errors.Is(err)] of support/errors: a type assertion on the error
    value itself, which an error wrapped by eris does not pass. *)
Definition errors_Is (err : handler_error) : option (string * string * Z) :=
  match err with
  | GoError (AppError code message statusCode) => Some (code, message, statusCode)
  | _ => None
  end.

(** [ErrorResponse].  The application errors of this development carry
    no details, so [Details] is always the nil map. *)
Record ErrorResponse := mkErrorResponse {
  ErrorResponse_Code : string;
  ErrorResponse_Message : string;
  ErrorResponse_Details : list (string * any)
}.

(** [responses.UserResponse] *)
Record UserResponse := mkUserResponse {
  UserResponse_ID : UUID;
  UserResponse_Name : string;
  UserResponse_Email : string;
  UserResponse_EmailVerified : bool;
  UserResponse_DeletionScheduledAt : option Time
}.

(** What [c.JSON] and [c.NoContent] put in the body of a response. *)
Inductive ResponseBody : Type :=
| BodyError (r : ErrorResponse)
| BodyUser (r : UserResponse)
| BodyMap (kv : list (string * string))    (* map[string]string *)
| BodyEmpty.                               (* c.NoContent *)

Definition StatusInternalServerError : Z := 500.

(** One request being answered: what the handlers read from the request,
    the response echo holds, and the reports that went to Sentry, each
    with its extras. *)
Record Exchange := mkExchange {
  Exchange_RequestID : string;            (* reqctx.GetRequestID(c) *)
  Request_Method : string;
  Request_Path : string;                  (* c.Path() *)
  Request_RequestURI : string;
  Response_Committed : bool;
  Response_Status : Z;
  Response_Body : option ResponseBody;
  Sentry_reports : list (handler_error * list (string * string))
}.

Definition write_response (x : Exchange) (code : Z) (body : ResponseBody) : Exchange :=
  mkExchange (Exchange_RequestID x) (Request_Method x) (Request_Path x)
    (Request_RequestURI x) true code (Some body) (Sentry_reports x).

(** [c.JSON(code, body)] for the three kinds of bodies, and
    [c.NoContent(code)]. *)
Definition echo_JSON_error (x : Exchange) (code : Z) (body : ErrorResponse) : Exchange :=
  write_response x code (BodyError body).

(** [sentry.CaptureError(err, extras)] *)
Definition sentry_CaptureError_extras (x : Exchange) (err : handler_error)
    (extras : list (string * string)) : Exchange :=
  mkExchange (Exchange_RequestID x) (Request_Method x) (Request_Path x)
    (Request_RequestURI x) (Response_Committed x) (Response_Status x) (Response_Body x)
    ((err, extras) :: Sentry_reports x).

(** The extras [ErrorHandler] sends along. *)
Definition error_extras (x : Exchange) : list (string * string) :=
  [("request_id", Exchange_RequestID x);
   ("method", Request_Method x);
   ("path", Request_Path x);
   ("uri", Request_RequestURI x)].

(** [ErrorHandler(err, c)] *)
Definition ErrorHandler (err : handler_error) (x : Exchange) : Exchange :=
  if Response_Committed x
  then x
  else
    let '(statusCode, response) :=
      match errors_Is err with
      | Some (code, message, status) => (status, mkErrorResponse code message [])
      | None =>
          match err with
          | echo_HTTPError code message =>
              let msg := match message with
                         | Some m => m
                         | None => "internal server error"
                         end in
              (code, mkErrorResponse "INTERNAL_ERROR" msg [])
          | _ =>
              (StatusInternalServerError,
               mkErrorResponse "INTERNAL_ERROR" "internal server error" [])
          end
      end in
    (* Capture 5xx errors to Sentry *)
    let x :=
      if 500 <=? statusCode
      then sentry_CaptureError_extras x err (error_extras x)
      else x in
    echo_JSON_error x statusCode response.

(* --------------------------------------------------------------------- *)
(** *** support/http/bind and api/handlers

    A handler reads the request from the [echo.Context], acts through
    its services, and either returns an error or writes the response and
    returns nil; the value it yields here is the exchange with the
    response written. *)










(* --------------------------------------------------------------------- *)
(** *** api/routes.go and the dispatch of echo *)







End Http.

(* ===================================================================== *)
(** ** A concrete scenario *)

Module Example.

(** Stand-ins for the libraries, good enough to run the services: the
    digest is the text itself, the password hash is the password behind a
    prefix. *)
#[local] Instance toy : Libraries := {|
  sha256_Sum256 := fun s => list_byte_of_string s;
  bcrypt_hash := fun pw cost salt =>
    if (72 <? Z.of_nat (String.length pw))%Z
    then inl (BcryptError "bcrypt: password length exceeds 72 bytes")
    else inr ("$2a$" ++ pw)%string;
  bcrypt_matches := fun h pw => String.eqb h ("$2a$" ++ pw)%string;
  url_QueryEscape := fun s => s;
  Time_Format := fun _ => "01/01/2027"%string
|}.

Definition cfg : Config :=
  mkConfig (mkAuthConfig "secret" 0 Hour (24 * Hour) (720 * Hour) 12)
           (mkWorkerConfig 5 (30 * Second) (24 * Hour))
           (mkAppConfig "http://localhost:3000").

Definition ctx : Context := mkContext "req-1" "".

Definition alice : User :=
  mkUser 1%nat "Alice" "alice@example.com" "$2a$secret123" None None 0 0.

(** Bob asked for his account to be deleted at instant 5000. *)
Definition bob : User :=
  mkUser 2%nat "Bob" "bob@example.com" "$2a$hunter2" None (Some 5000) 0 700.

Definition live_session : AuthToken :=
  mkAuthToken 20%nat 1%nat (HashToken "live") 9000 None 10.
Definition old_session : AuthToken :=
  mkAuthToken 21%nat 1%nat (HashToken "old") 500 None 10.
Definition revoked_session : AuthToken :=
  mkAuthToken 22%nat 2%nat (HashToken "gone") 9000 (Some 900) 10.

Definition reset1 : PasswordReset :=
  mkPasswordReset 30%nat 1%nat (HashToken "reset-token") 5000 None 800.
Definition reset2 : PasswordReset :=
  mkPasswordReset 31%nat 1%nat (HashToken "other-token") 5000 None 900.

Definition verification1 : EmailVerification :=
  mkEmailVerification 40%nat 2%nat (HashToken "verify") 100 None 50.

Definition rows : DB :=
  mkDB [alice; bob] [live_session; old_session; revoked_session] [reset1; reset2]
       [verification1].

(** The clock reads 1000; every reading is followed by 10 ns; nothing fails. *)
Definition world : World :=
  mkWorld rows [] 0%nat 1000 [10; 10; 10; 10; 10; 10; 10; 10] 100%nat [] [] [] [].

(** The same world, with the entropy source failing at its first read. *)
Definition world_no_entropy : World :=
  with_entropy world [inl (EntropyError "unexpected EOF")].

(** The same world, with the clock at the day of Bob's deletion. *)
Definition world_later : World := with_clock world 5000 [].

(** What [Load] yields when neither a file nor the environment sets a key. *)
Definition default_cfg : Config :=
  mkConfig (mkAuthConfig "dev-secret-change-in-production" 0 Hour (24 * Hour) (720 * Hour) 12)
           (mkWorkerConfig 5 (30 * Second) (24 * Hour))
           (mkAppConfig "http://localhost:3000").

(** Alice resets her password with the token she was sent. *)
Definition reset_run : outcome unit * World :=
  Eval vm_compute in
    PasswordResetService_Execute (ProvidePasswordResetService cfg) ctx
      "reset-token" "newpass" world.

(** A closure that panics after its first statement, and the worlds
    after [BeginTx] and after the panic. *)
Definition panicking (tx : Tx) : M unit :=
  bind (UserRepository_UpdatePassword (mkUserRepository (InTx tx)) 1%nat "$2a$x")
       (fun _ => panic "boom").

Definition after_begin : World := Eval vm_compute in snd (BeginTx world).
Definition after_panic : World := Eval vm_compute in snd (panicking 0%nat after_begin).


Definition request_known : outcome unit * World :=
  Eval vm_compute in
    PasswordResetService_Create (ProvidePasswordResetService cfg) ctx
      "alice@example.com" world.

(** Alice schedules the deletion of her account. *)
Definition schedule_run : outcome unit * World :=
  Eval vm_compute in
    UserService_ScheduleDeletion (ProvideUserService cfg) ctx 1%nat world.

(** Bob logs in; the token he gets is the hex form of 32 zero bytes. *)
Definition login_run : outcome (User * string) * World :=
  Eval vm_compute in
    SessionService_Create (ProvideSessionService cfg) ctx "bob@example.com" "hunter2" world.

Definition bob_token : string :=
  "0000000000000000000000000000000000000000000000000000000000000000".

(** The same login with the entropy source down, and the error that
    [generateToken] returns then. *)
Definition failed_login : outcome (User * string) * World :=
  Eval vm_compute in
    SessionService_Create (ProvideSessionService cfg) ctx "bob@example.com" "hunter2"
      world_no_entropy.

Definition entropy_failure : error :=
  Wrapped (Wrapped (EntropyError "unexpected EOF") "failed to generate secure token")
          "failed to generate secure token".

(** A session token issued under the default configuration. *)
Definition issue_run : outcome string * World :=
  Eval vm_compute in
    SessionService_generateToken (ProvideSessionService default_cfg) 1%nat world.

(** The cleanup task on the day of Bob's deletion. *)
Definition cleanup_run : outcome (Z * Z * Z * Z) * World :=
  Eval vm_compute in CleanupTask_Handle ProvideCleanupTask ctx world_later.

(** *** The scenario, continued *)

(** The text of an identifier: one mark for each unit. *)
#[local] Instance marks : Formatting := {|
  UUID_String := fun id => ("user-" ++ string_of_list_ascii (repeat "I"%char id))%string
|}.

(** Alice's session, issued for her account directly. *)
Definition session_run : outcome string * World :=
  Eval vm_compute in
    SessionService_CreateForUser (ProvideSessionService cfg) ctx 1%nat world.

(** Alice logs out of her live session. *)
Definition logout_run : outcome unit * World :=
  Eval vm_compute in SessionService_Delete (ProvideSessionService cfg) ctx "live" world.

(** A reset attempted with a token nobody was sent. *)
Definition bad_reset_run : outcome unit * World :=
  Eval vm_compute in
    PasswordResetService_Execute (ProvidePasswordResetService cfg) ctx "nope" "newpass" world.

(** Carol registers; somebody else tries Alice's address. *)
Definition register_run : outcome User * World :=
  Eval vm_compute in
    UserService_Create (ProvideUserService cfg) ctx "Carol" "carol@example.com"
      "correct horse" world.

Definition carol : User :=
  mkUser 100%nat "Carol" "carol@example.com" "$2a$correct horse" None None 1000 1000.

Definition taken_run : outcome User * World :=
  Eval vm_compute in
    UserService_Create (ProvideUserService cfg) ctx "Mallory" "alice@example.com"
      "correct horse" world.

(** Carol logs in right after. *)
Definition first_login_run : outcome (User * string) * World :=
  Eval vm_compute in
    SessionService_Create (ProvideSessionService cfg) ctx "carol@example.com"
      "correct horse" (snd register_run).

(** Bob has two verification links pending, and the clock reads 60. *)
Definition verification2 : EmailVerification :=
  mkEmailVerification 41%nat 2%nat (HashToken "verify-2") 200 None 55.

Definition world_early : World :=
  mkWorld (mkDB [alice; bob] [live_session; old_session; revoked_session] [reset1; reset2]
             [verification1; verification2])
          [] 0%nat 60 [10; 10; 10; 10; 10; 10] 100%nat [] [] [] [].

Definition verify_run : outcome unit * World :=
  Eval vm_compute in
    EmailVerificationService_Verify (ProvideEmailVerificationService cfg) ctx "verify"
      world_early.

(** The same link followed when the clock reads 1000. *)
Definition late_verify_run : outcome unit * World :=
  Eval vm_compute in
    EmailVerificationService_Verify (ProvideEmailVerificationService cfg) ctx "verify" world.

(** A verification email for Bob, for nobody, and for Bob with the
    server failing at the insertion of the new row. *)
Definition send_run : outcome unit * World :=
  Eval vm_compute in
    EmailVerificationService_Send (ProvideEmailVerificationService cfg) ctx 2%nat world_early.

Definition send_nobody_run : outcome unit * World :=
  Eval vm_compute in
    EmailVerificationService_Send (ProvideEmailVerificationService cfg) ctx 9%nat world.

Definition world_insert_fails : World :=
  with_faults world_early [None; None; Some (DriverError "connection reset")].

Definition send_failed_run : outcome unit * World :=
  Eval vm_compute in
    EmailVerificationService_Send (ProvideEmailVerificationService cfg) ctx 2%nat
      world_insert_fails.

(** The closure of [Execute] for Alice's reset, run inside the
    transaction that [after_begin] holds open, and its working copy. *)
Definition closure_run : outcome unit * World :=
  Eval vm_compute in Execute_tx cfg reset1 "$2a$newpass" 0%nat after_begin.

Definition closure_rows : DB :=
  Eval vm_compute in
    match tx_lookup 0%nat (txns (snd closure_run)) with
    | Some d => d
    | None => rows
    end.

Definition closure_commit : outcome unit * World :=
  Eval vm_compute in RunInTx (Execute_tx cfg reset1 "$2a$newpass") world.

(** Requests: one with Alice's live session, one to the verification
    route with Bob's link, and the exchange they start from. *)
Definition request_live : echo_Context :=
  mkEchoContext "Bearer live" [] (mkRequestContext ctx (Some [("request_id", "req-1")]))
    None None (Some [("request_id", "req-1")]).


Definition exchange : Exchange :=
  mkExchange "req-1" "GET" "/users/me" "/users/me" false 0 None [].



(** A handler that answers with the user it finds in the context. *)
Definition whoami (c : echo_Context) : M (option UUID) := ret (reqctx_GetUserID c).

Definition guarded_run : outcome (option UUID) * World :=
  Eval vm_compute in AuthMiddleware (ProvideSessionService cfg) whoami request_live world.




End Example.

(* ===================================================================== *)
(** ** Properties *)

Section Properties.

Context {libs : Libraries}.

(** *** Basic facts about the primitives *)

Arguments exec : simpl never.
Arguments next_fault : simpl never.
Arguments time_Now : simpl never.
Arguments uuid_New : simpl never.
Arguments rand_Read : simpl never.
Arguments BeginTx : simpl never.
Arguments Tx_Commit : simpl never.
Arguments Tx_Rollback : simpl never.

Lemma next_fault_store w : store (snd (next_fault w)) = store w.
Proof. unfold next_fault. destruct (faults w); reflexivity. Qed.

Lemma next_fault_clock w : clock (snd (next_fault w)) = clock w.
Proof. unfold next_fault. destruct (faults w); reflexivity. Qed.

Lemma next_fault_ticks w : ticks (snd (next_fault w)) = ticks w.
Proof. unfold next_fault. destruct (faults w); reflexivity. Qed.

Lemma next_fault_log w : log (snd (next_fault w)) = log w.
Proof. unfold next_fault. destruct (faults w); reflexivity. Qed.

(** A query on the pool that the server answers. *)
Lemma exec_Pool_answered {A} (name : string) (q : Stmt A) w :
  answered w ->
  exec Pool name q w =
    (of_sum (fst (q (store w))),
     emit (EvQuery Pool name) (with_store (snd (next_fault w)) (snd (q (store w))))).
Proof.
  unfold answered, exec. intros H.
  destruct (next_fault w) as [f w1] eqn:E. simpl in H. subst f.
  replace (store w1) with (store w)
    by (rewrite <- (next_fault_store w), E; reflexivity).
  simpl. destruct (q (store w)); reflexivity.
Qed.

(** A query on the pool that the driver fails. *)
Lemma exec_Pool_fault {A} (name : string) (q : Stmt A) w e :
  fst (next_fault w) = Some e ->
  exec Pool name q w = (Fail e, emit (EvFault name e) (snd (next_fault w))).
Proof.
  unfold exec. intros H.
  destruct (next_fault w) as [f w1]. simpl in H. subst f. reflexivity.
Qed.

(** *** Inversion of runs *)

Lemma bind_Ret_inv {A B} (m : M A) (k : A -> M B) w b w' :
  bind m k w = (Ret b, w') ->
  exists a w1, m w = (Ret a, w1) /\ k a w1 = (Ret b, w').
Proof.
  unfold bind. destruct (m w) as [[a|e|v] w1]; intros H; try discriminate.
  exists a, w1. auto.
Qed.

Lemma try_Ret_inv {A} (m : M A) w r w' :
  try m w = (Ret r, w') ->
  (exists a, r = inr a /\ m w = (Ret a, w')) \/
  (exists e, r = inl e /\ m w = (Fail e, w')).
Proof.
  unfold try. destruct (m w) as [[a|e|v] w1]; intros H; inversion H; subst; eauto.
Qed.

Lemma wrapping_Ret_inv {A} msg (m : M A) w a w' :
  wrapping msg m w = (Ret a, w') -> m w = (Ret a, w').
Proof.
  unfold wrapping. destruct (m w) as [[a1|e|v] w1]; intros H; inversion H; reflexivity.
Qed.

Lemma ret_inv {A} (a b : A) w w' : ret a w = (Ret b, w') -> a = b /\ w = w'.
Proof. unfold ret. intros H. inversion H. auto. Qed.

Lemma ret_inv' {A} (a : A) w o w' : ret a w = (o, w') -> o = Ret a /\ w = w'.
Proof. unfold ret. intros H. inversion H. auto. Qed.

Lemma bind_inv {A B} (m : M A) (k : A -> M B) w o w' :
  bind m k w = (o, w') ->
  (exists a w1, m w = (Ret a, w1) /\ k a w1 = (o, w')) \/
  ((forall b, o <> Ret b) /\ exists o1, m w = (o1, w') /\ forall a, o1 <> Ret a).
Proof.
  unfold bind. destruct (m w) as [[a|e|v] w1]; intros H.
  - left. exists a, w1. auto.
  - right. inversion H. subst. split; [discriminate|].
    exists (Fail e). split; [reflexivity | discriminate].
  - right. inversion H. subst. split; [discriminate|].
    exists (Panic v). split; [reflexivity | discriminate].
Qed.

(** A failure of the first call is the outcome of the sequence. *)
Lemma bind_stop {A B} (m : M A) (k : A -> M B) w e w1 :
  m w = (Fail e, w1) -> bind m k w = (Fail e, w1).
Proof. unfold bind. intros ->. reflexivity. Qed.

Lemma wrapping_inv {A} msg (m : M A) w o w' :
  wrapping msg m w = (o, w') ->
  exists o0, m w = (o0, w') /\ (forall a, o = Ret a <-> o0 = Ret a).
Proof.
  unfold wrapping. destruct (m w) as [[a|e|v] w1]; intros H; inversion H; subst.
  - exists (Ret a). split; [reflexivity|]. intros; split; auto.
  - exists (Fail e). split; [reflexivity|]. intros; split; discriminate.
  - exists (Panic v). split; [reflexivity|]. intros; split; auto.
Qed.

(** What a clock reading, a fresh UUID and a read of the entropy source
    leave untouched. *)
Lemma time_Now_inv w o w' :
  time_Now w = (o, w') ->
  o = Ret (clock w) /\ store w' = store w /\ txns w' = txns w /\ log w' = log w
  /\ clock w <= clock w'.
Proof.
  unfold time_Now. destruct (ticks w); intros H; inversion H; subst; simpl;
    repeat split; lia.
Qed.

Lemma uuid_New_inv w o w' :
  uuid_New w = (o, w') ->
  o = Ret (next_uuid w) /\ store w' = store w /\ txns w' = txns w /\ log w' = log w
  /\ clock w' = clock w.
Proof. unfold uuid_New. intros H. inversion H. subst. simpl. auto. Qed.

Lemma rand_Read_inv n w o w' :
  rand_Read n w = (o, w') ->
  store w' = store w /\ txns w' = txns w /\ log w' = log w /\ clock w' = clock w.
Proof.
  unfold rand_Read. destruct (entropy w) as [|[e|bs] es]; intros H; inversion H;
    subst; simpl; auto.
Qed.

Lemma next_fault_inv w f w1 :
  next_fault w = (f, w1) ->
  store w1 = store w /\ txns w1 = txns w /\ log w1 = log w /\ clock w1 = clock w
  /\ next_tx w1 = next_tx w.
Proof.
  unfold next_fault. destruct (faults w); intros H; inversion H; subst; simpl; auto.
Qed.

(** A statement on the pool. *)
Lemma exec_Pool_inv {A} name (q : Stmt A) w o w' :
  exec Pool name q w = (o, w') ->
  txns w' = txns w /\ clock w' = clock w /\
  ((exists e, o = Fail e /\ store w' = store w /\ log w' = EvFault name e :: log w
              /\ fst (next_fault w) = Some e) \/
   (o = of_sum (fst (q (store w))) /\ store w' = snd (q (store w))
    /\ log w' = EvQuery Pool name :: log w /\ fst (next_fault w) = None)).
Proof.
  unfold exec. destruct (next_fault w) as [[e|] w1] eqn:E;
    destruct (next_fault_inv _ _ _ E) as (Hs & Ht & Hl & Hc & _).
  - intros H. inversion H. subst. simpl. repeat split; auto.
    left. exists e. repeat split; congruence.
  - rewrite Hs. destruct (q (store w)) as [r d']. intros H. inversion H. subst. simpl.
    repeat split; auto. right. repeat split; congruence.
Qed.

(** A statement inside a transaction touches its working copy only. *)
Lemma exec_InTx_inv {A} tx name (q : Stmt A) w o w' :
  exec (InTx tx) name q w = (o, w') ->
  store w' = store w /\ clock w' = clock w /\
  ((o = Fail sql_ErrTxDone /\ tx_lookup tx (txns w) = None /\ w' = w) \/
   (exists d e, tx_lookup tx (txns w) = Some d /\ o = Fail e /\ txns w' = txns w
                /\ log w' = EvFault name e :: log w) \/
   (exists d, tx_lookup tx (txns w) = Some d /\ o = of_sum (fst (q d))
              /\ txns w' = tx_update tx (snd (q d)) (txns w)
              /\ log w' = EvQuery (InTx tx) name :: log w)).
Proof.
  unfold exec. destruct (tx_lookup tx (txns w)) as [d|] eqn:El.
  - destruct (next_fault w) as [[e|] w1] eqn:E;
      destruct (next_fault_inv _ _ _ E) as (Hs & Ht & Hl & Hc & _).
    + intros H. inversion H. subst. simpl. repeat split; auto.
      right. left. exists d, e. repeat split; congruence.
    + destruct (q d) as [r d'] eqn:Eq. intros H. inversion H. subst. simpl.
      repeat split; auto. right. right. exists d. rewrite Ht, Hl, Eq. auto.
  - intros H. inversion H. subst.
    split; [reflexivity|]. split; [reflexivity|]. left. auto.
Qed.

(** Database calls hand nothing to the broker. *)
Lemma dispatched_same_log w w' : log w' = log w -> dispatched w' = dispatched w.
Proof. unfold dispatched. intros ->. reflexivity. Qed.

Lemma dispatched_cons w w' ev :
  log w' = ev :: log w -> is_dispatch ev = false -> dispatched w' = dispatched w.
Proof. unfold dispatched. intros -> H. simpl. rewrite H. reflexivity. Qed.

Lemma exec_dispatched {A} h name (q : Stmt A) w o w' :
  exec h name q w = (o, w') -> dispatched w' = dispatched w.
Proof.
  destruct h as [|tx]; intros H.
  - destruct (exec_Pool_inv _ _ _ _ _ H) as (_ & _ & [(e & _ & _ & Hl & _)|(_ & _ & Hl & _)]);
      eapply dispatched_cons; eauto.
  - destruct (exec_InTx_inv _ _ _ _ _ _ H) as (_ & _ & [C|[C|C]]).
    + destruct C as (_ & _ & ->). reflexivity.
    + destruct C as (d & e & _ & _ & _ & Hl). eapply dispatched_cons; eauto.
    + destruct C as (d & _ & _ & _ & Hl). eapply dispatched_cons; eauto.
Qed.

Lemma BeginTx_inv w o w' :
  BeginTx w = (o, w') ->
  store w' = store w /\ clock w' = clock w /\
  ((exists e, o = Fail e /\ txns w' = txns w /\ log w' = EvFault "begin" e :: log w) \/
   (o = Ret (next_tx w) /\ txns w' = (next_tx w, store w) :: txns w
    /\ log w' = EvBegin (next_tx w) :: log w)).
Proof.
  unfold BeginTx. destruct (next_fault w) as [[e|] w1] eqn:E;
    destruct (next_fault_inv _ _ _ E) as (Hs & Ht & Hl & Hc & Hn);
    intros H; inversion H; subst; simpl; repeat split; auto.
  - left. exists e. repeat split; congruence.
  - right. rewrite Hn, Hs, Ht, Hl. auto.
Qed.

Lemma Tx_Commit_inv tx w o w' :
  Tx_Commit tx w = (o, w') ->
  clock w' = clock w /\
  ((o = Fail sql_ErrTxDone /\ tx_lookup tx (txns w) = None /\ w' = w) \/
   (exists d e, tx_lookup tx (txns w) = Some d /\ o = Fail e /\ store w' = store w
                /\ txns w' = tx_remove tx (txns w)
                /\ log w' = EvFault "commit" e :: log w) \/
   (exists d, tx_lookup tx (txns w) = Some d /\ o = Ret tt /\ store w' = d
              /\ txns w' = tx_remove tx (txns w)
              /\ log w' = EvCommit tx :: log w)).
Proof.
  unfold Tx_Commit. destruct (tx_lookup tx (txns w)) as [d|] eqn:El.
  - destruct (next_fault w) as [[e|] w1] eqn:E;
      destruct (next_fault_inv _ _ _ E) as (Hs & Ht & Hl & Hc & _);
      intros H; inversion H; subst; simpl; (split; [assumption|]); right.
    + left. exists d, e. rewrite Ht, Hl. auto.
    + right. exists d. rewrite Ht, Hl. auto.
  - intros H. inversion H. subst. split; [reflexivity|]. left. auto.
Qed.

Lemma Tx_Rollback_inv tx w o w' :
  Tx_Rollback tx w = (o, w') ->
  store w' = store w /\ clock w' = clock w /\
  ((o = Fail sql_ErrTxDone /\ tx_lookup tx (txns w) = None /\ w' = w) \/
   (exists e, tx_lookup tx (txns w) <> None /\ o = Fail e
              /\ txns w' = tx_remove tx (txns w)
              /\ log w' = EvFault "rollback" e :: log w) \/
   (tx_lookup tx (txns w) <> None /\ o = Ret tt
    /\ txns w' = tx_remove tx (txns w)
    /\ log w' = EvRollback tx :: log w)).
Proof.
  unfold Tx_Rollback. destruct (tx_lookup tx (txns w)) as [d|] eqn:El.
  - destruct (next_fault w) as [[e|] w1] eqn:E;
      destruct (next_fault_inv _ _ _ E) as (Hs & Ht & Hl & Hc & _);
      intros H; inversion H; subst; simpl;
      (split; [assumption|]); (split; [assumption|]); right.
    + left. exists e. rewrite Ht, Hl. repeat split; congruence.
    + right. rewrite Ht, Hl. repeat split; congruence.
  - intros H. inversion H. subst.
    split; [reflexivity|]. split; [reflexivity|]. left. auto.
Qed.

Lemma BeginTx_dispatched w o w' : BeginTx w = (o, w') -> dispatched w' = dispatched w.
Proof.
  intros H. destruct (BeginTx_inv _ _ _ H) as (_ & _ & [(e & _ & _ & Hl)|(_ & _ & Hl)]);
    eapply dispatched_cons; eauto.
Qed.

Lemma Tx_Commit_dispatched tx w o w' :
  Tx_Commit tx w = (o, w') -> dispatched w' = dispatched w.
Proof.
  intros H. destruct (Tx_Commit_inv _ _ _ _ H) as (_ & [C|[C|C]]).
  - destruct C as (_ & _ & ->). reflexivity.
  - destruct C as (d & e & _ & _ & _ & _ & Hl). eapply dispatched_cons; eauto.
  - destruct C as (d & _ & _ & _ & _ & Hl). eapply dispatched_cons; eauto.
Qed.

Lemma Tx_Rollback_dispatched tx w o w' :
  Tx_Rollback tx w = (o, w') -> dispatched w' = dispatched w.
Proof.
  intros H. destruct (Tx_Rollback_inv _ _ _ _ H) as (_ & _ & [C|[C|C]]).
  - destruct C as (_ & _ & ->). reflexivity.
  - destruct C as (e & _ & _ & _ & Hl). eapply dispatched_cons; eauto.
  - destruct C as (_ & _ & _ & Hl). eapply dispatched_cons; eauto.
Qed.

(** *** Runs without infrastructure failures *)

Lemma next_fault_calm w : calm w -> next_fault w = (None, w).
Proof. unfold calm, next_fault. intros ->. reflexivity. Qed.

Lemma time_Now_calm w o w' : time_Now w = (o, w') -> calm w -> calm w'.
Proof.
  unfold time_Now, calm. destruct (ticks w); intros H; inversion H; subst; simpl; auto.
Qed.

Lemma exec_calm {A} h name (q : Stmt A) w o w' :
  exec h name q w = (o, w') -> calm w ->
  calm w' /\
  match h with
  | Pool => o = of_sum (fst (q (store w)))
  | InTx tx => forall d, tx_lookup tx (txns w) = Some d -> o = of_sum (fst (q d))
  end.
Proof.
  unfold exec. intros H Hc. rewrite (next_fault_calm _ Hc) in H. unfold calm in *.
  destruct h as [|tx].
  - destruct (q (store w)) as [r d'] eqn:Eq. inversion H. subst. simpl. auto.
  - destruct (tx_lookup tx (txns w)) as [d|].
    + destruct (q d) as [r d'] eqn:Eq. inversion H. subst. simpl. split; [assumption|].
      intros d0 Hd. inversion Hd. subst. rewrite Eq. reflexivity.
    + inversion H. subst. split; [assumption|]. intros d Hd. discriminate.
Qed.

Lemma BeginTx_calm w o w' : BeginTx w = (o, w') -> calm w -> calm w' /\ o = Ret (next_tx w).
Proof.
  unfold BeginTx. intros H Hc. rewrite (next_fault_calm _ Hc) in H. unfold calm in *.
  inversion H. subst. simpl. auto.
Qed.

Lemma Tx_Commit_calm tx w o w' :
  Tx_Commit tx w = (o, w') -> calm w -> tx_lookup tx (txns w) <> None ->
  calm w' /\ o = Ret tt.
Proof.
  unfold Tx_Commit. intros H Hc Hl. rewrite (next_fault_calm _ Hc) in H. unfold calm in *.
  destruct (tx_lookup tx (txns w)); [|congruence]. inversion H. subst. simpl. auto.
Qed.

Lemma Tx_Rollback_calm tx w o w' :
  Tx_Rollback tx w = (o, w') -> calm w -> tx_lookup tx (txns w) <> None ->
  calm w' /\ o = Ret tt.
Proof.
  unfold Tx_Rollback. intros H Hc Hl. rewrite (next_fault_calm _ Hc) in H. unfold calm in *.
  destruct (tx_lookup tx (txns w)); [|congruence]. inversion H. subst. simpl. auto.
Qed.

(** *** TxManager.RunInTx *)

(** Every run of [RunInTx] is one of: [BeginTx] failed; [fn] panicked and
    the panic left [RunInTx] at once; [fn] failed and [Rollback] was
    called; [fn] returned and [Commit] was called. *)
Lemma RunInTx_inv {A} (fn : Tx -> M A) w o w' :
  RunInTx fn w = (o, w') ->
  (exists e, BeginTx w = (Fail e, w')
             /\ o = Fail (eris_Wrap e "failed to begin transaction")) \/
  (exists tx w1, BeginTx w = (Ret tx, w1) /\
     ((exists v, fn tx w1 = (Panic v, w') /\ o = Panic v) \/
      (exists e w2, fn tx w1 = (Fail e, w2) /\
         ((Tx_Rollback tx w2 = (Ret tt, w') /\ o = Fail e) \/
          (exists rbErr, Tx_Rollback tx w2 = (Fail rbErr, w')
                         /\ o = Fail (eris_Wrapf_rollback e rbErr)))) \/
      (exists a w2, fn tx w1 = (Ret a, w2) /\
         ((Tx_Commit tx w2 = (Ret tt, w') /\ o = Ret a) \/
          (exists e, Tx_Commit tx w2 = (Fail e, w')
                     /\ o = Fail (eris_Wrap e "failed to commit transaction")))))).
Proof.
  unfold RunInTx, bind, try, wrapping, fail, ret.
  destruct (BeginTx w) as [[tx|e|v] w1] eqn:Eb.
  - intros H. right. exists tx, w1. split; [reflexivity|].
    destruct (fn tx w1) as [[a|e|v] w2] eqn:Ef.
    + right. right. exists a, w2. split; [reflexivity|].
      destruct (Tx_Commit tx w2) as [[[]|e|v] w3] eqn:Ec.
      * left. inversion H. auto.
      * right. exists e. inversion H. auto.
      * exfalso. destruct (Tx_Commit_inv _ _ _ _ Ec) as (_ & [C|[C|C]]).
        -- destruct C as (C & _). discriminate.
        -- destruct C as (d & e & _ & C & _). discriminate.
        -- destruct C as (d & _ & C & _). discriminate.
    + right. left. exists e, w2. split; [reflexivity|].
      destruct (Tx_Rollback tx w2) as [[[]|rbErr|v] w3] eqn:Er.
      * left. inversion H. auto.
      * right. exists rbErr. inversion H. auto.
      * exfalso. destruct (Tx_Rollback_inv _ _ _ _ Er) as (_ & _ & [C|[C|C]]).
        -- destruct C as (C & _). discriminate.
        -- destruct C as (e' & _ & C & _). discriminate.
        -- destruct C as (_ & C & _). discriminate.
    + left. exists v. inversion H. auto.
  - intros H. left. exists e. inversion H. auto.
  - exfalso. destruct (BeginTx_inv _ _ _ Eb) as (_ & _ & [C|C]).
    + destruct C as (e & C & _). discriminate.
    + destruct C as (C & _). discriminate.
Qed.

(** *** SessionService.ValidateToken *)

Lemma ValidateToken_answered cfg ctx token w :
  answered w ->
  fst (SessionService_ValidateToken (ProvideSessionService cfg) ctx token w)
  = validate_result (stored_auth_token w token) (clock w).
Proof.
  intros H.
  unfold SessionService_ValidateToken, AuthTokenRepository_GetByHash, bind, try, wrapping.
  simpl. rewrite (exec_Pool_answered _ _ _ H).
  unfold sqlcgen.GetAuthTokenByHash, stored_auth_token, validate_result. simpl.
  destruct (find _ (auth_tokens (store w))) as [t|]; simpl; [|reflexivity].
  destruct (is_null (AuthToken_RevokedAt t)); simpl; [|reflexivity].
  unfold time_Now. simpl. rewrite next_fault_ticks, next_fault_clock.
  destruct (ticks w); simpl;
    destruct (Time_After (clock w) (AuthToken_ExpiresAt t)); reflexivity.
Qed.

Lemma is_null_true {A} (o : option A) : is_null o = true <-> o = None.
Proof. destruct o; simpl; split; intros; congruence. Qed.

Lemma stored_auth_token_None w token :
  stored_auth_token w token = None <->
  ~ exists t, In t (auth_tokens (store w)) /\ AuthToken_TokenHash t = HashToken token.
Proof.
  unfold stored_auth_token. split.
  - intros H [t [Hin Hh]].
    pose proof (find_none _ _ H t Hin) as Hf. simpl in Hf.
    apply String.eqb_neq in Hf. contradiction.
  - intros H. destruct (find _ _) as [t|] eqn:E; [|reflexivity].
    exfalso. apply H. exists t. apply find_some in E. destruct E as [Hin Hh].
    split; [assumption|]. apply String.eqb_eq. exact Hh.
Qed.

(** A lookup the driver fails comes back wrapped, as an infrastructure
    error. *)
Lemma ValidateToken_fault cfg ctx token w e :
  fst (next_fault w) = Some e ->
  eris_Is e sql_ErrNoRows = false ->
  fst (SessionService_ValidateToken (ProvideSessionService cfg) ctx token w)
  = Fail (eris_Wrap (eris_Wrap e "failed to get auth token by hash")
            "failed to get auth token").
Proof.
  intros H He.
  unfold SessionService_ValidateToken, AuthTokenRepository_GetByHash, bind, try, wrapping.
  simpl. rewrite (exec_Pool_fault _ _ _ _ H). simpl.
  change (eris_Is (eris_Wrap e "failed to get auth token by hash") sql_ErrNoRows)
    with (false || eris_Is e sql_ErrNoRows).
  rewrite He. reflexivity.
Qed.

(** C3. With the lookup answered by the server, [ValidateToken] fails
    with [ErrInvalidToken] exactly when no auth token carries the hash
    of the raw token, with [ErrTokenRevoked] exactly when the stored token
    has [revoked_at] set, with [ErrTokenExpired] exactly when the stored
    token is not revoked and its [expires_at] is before the clock reading,
    and returns the stored row in every other case. *)
Theorem C3_ValidateToken_outcomes cfg ctx token w :
  answered w ->
  let res := fst (SessionService_ValidateToken (ProvideSessionService cfg) ctx token w) in
  (res = Fail ErrInvalidToken <->
     ~ exists t, In t (auth_tokens (store w))
                 /\ AuthToken_TokenHash t = HashToken token) /\
  (res = Fail ErrTokenRevoked <->
     exists t, stored_auth_token w token = Some t /\ AuthToken_RevokedAt t <> None) /\
  (res = Fail ErrTokenExpired <->
     exists t, stored_auth_token w token = Some t /\ AuthToken_RevokedAt t = None
               /\ AuthToken_ExpiresAt t < clock w) /\
  (forall t, stored_auth_token w token = Some t -> AuthToken_RevokedAt t = None ->
             clock w <= AuthToken_ExpiresAt t -> res = Ret t).
Proof.
  intros H res. subst res. rewrite (ValidateToken_answered cfg ctx token w H).
  rewrite <- stored_auth_token_None.
  unfold validate_result, Time_After.
  destruct (stored_auth_token w token) as [t|].
  2:{ split; [split; intros _; reflexivity |].
      split; [split; [discriminate | intros [t [Ht _]]; discriminate] |].
      split; [split; [discriminate | intros [t [Ht _]]; discriminate] |].
      intros t Ht. discriminate. }
  destruct (AuthToken_RevokedAt t) as [r|] eqn:Er; simpl.
  { split; [split; discriminate |].
    split; [split; [intros _; exists t; split; [reflexivity | congruence] | intros _; reflexivity] |].
    split; [split; [discriminate |] |].
    - intros [t' [Ht' [Hr _]]]. inversion Ht'. subst t'. congruence.
    - intros t' Ht' Hr. inversion Ht'. subst t'. congruence. }
  destruct (Z.ltb_spec (AuthToken_ExpiresAt t) (clock w)) as [Hlt|Hge].
  { split; [split; discriminate |].
    split; [split; [discriminate |] |].
    { intros [t' [Ht' Hr]]. inversion Ht'. subst t'. congruence. }
    split; [split; [intros _; exists t; auto | intros _; reflexivity] |].
    intros t' Ht' _ Hle. inversion Ht'. subst t'. lia. }
  split; [split; discriminate |].
  split; [split; [discriminate |] |].
  { intros [t' [Ht' Hr]]. inversion Ht'. subst t'. congruence. }
  split; [split; [discriminate |] |].
  { intros [t' [Ht' [_ Hr]]]. inversion Ht'. subst t'. lia. }
  intros t' Ht' _ _. inversion Ht'. reflexivity.
Qed.

(** *** SessionService.Create: the two refusals *)

Lemma stored_user_None w email :
  stored_user w email = None <->
  ~ exists u, In u (users (store w)) /\ User_Email u = email.
Proof.
  unfold stored_user. split.
  - intros H [u [Hin Hu]].
    pose proof (find_none _ _ H u Hin) as Hf. simpl in Hf.
    apply String.eqb_neq in Hf. contradiction.
  - intros H. destruct (find _ _) as [u|] eqn:E; [|reflexivity].
    exfalso. apply H. exists u. apply find_some in E. destruct E as [Hin Hu].
    split; [assumption|]. apply String.eqb_eq. exact Hu.
Qed.

Lemma Create_unknown_email cfg ctx email password w :
  answered w ->
  stored_user w email = None ->
  fst (SessionService_Create (ProvideSessionService cfg) ctx email password w)
  = Fail ErrInvalidCredentials.
Proof.
  intros H Hu.
  unfold SessionService_Create, UserRepository_GetByEmail, bind, try, wrapping.
  simpl. rewrite (exec_Pool_answered _ _ _ H).
  unfold sqlcgen.GetUserByEmail. unfold stored_user in Hu. simpl. rewrite Hu.
  reflexivity.
Qed.

Lemma Create_wrong_password cfg ctx email password w u :
  answered w ->
  stored_user w email = Some u ->
  bcrypt_matches (User_PasswordHash u) password = false ->
  fst (SessionService_Create (ProvideSessionService cfg) ctx email password w)
  = Fail ErrInvalidCredentials.
Proof.
  intros H Hu Hp.
  unfold SessionService_Create, UserRepository_GetByEmail, bind, try, wrapping.
  simpl. rewrite (exec_Pool_answered _ _ _ H).
  unfold sqlcgen.GetUserByEmail. unfold stored_user in Hu. simpl. rewrite Hu.
  simpl. rewrite Hp. reflexivity.
Qed.

(** C5. A login for an email no user has and a login with a password
    that does not match the stored hash both fail with the one error value
    [ErrInvalidCredentials] (the lookups being answered by the server). *)
Theorem C5_login_refusals_coincide cfg ctx w1 email1 password1 w2 email2 password2 u :
  answered w1 ->
  answered w2 ->
  (~ exists u1, In u1 (users (store w1)) /\ User_Email u1 = email1) ->
  stored_user w2 email2 = Some u ->
  bcrypt_matches (User_PasswordHash u) password2 = false ->
  fst (SessionService_Create (ProvideSessionService cfg) ctx email1 password1 w1)
    = Fail ErrInvalidCredentials /\
  fst (SessionService_Create (ProvideSessionService cfg) ctx email2 password2 w2)
    = Fail ErrInvalidCredentials.
Proof.
  intros H1 H2 Hnone Hsome Hpw. split.
  - apply Create_unknown_email; [assumption|]. apply stored_user_None. exact Hnone.
  - apply Create_wrong_password with (u := u); assumption.
Qed.

(** *** Statements run through a transaction-bound repository *)

Lemma tx_lookup_update tx d' ts :
  tx_lookup tx ts <> None ->
  tx_lookup tx (tx_update tx d' ts) = Some d'.
Proof.
  induction ts as [|[n d] r IH]; simpl; intros H; [congruence|].
  destruct (Nat.eqb n tx) eqn:E; simpl; rewrite E; auto.
Qed.

(** A repository method of the shape
    [now := time.Now(); err := queries.Stmt(now, ...); wrap] on a
    transaction: the committed rows stay as they are; when it returns, the
    statement ran at the clock reading on the working copy. *)
Lemma tx_method_inv {A} msg name (q : Time -> Stmt A) tx w o w' :
  (now <- time_Now ;; wrapping msg (exec (InTx tx) name (q now))) w = (o, w') ->
  store w' = store w /\ clock w <= clock w' /\ dispatched w' = dispatched w /\
  (forall a, o = Ret a ->
     exists d t, tx_lookup tx (txns w) = Some d /\ clock w <= t /\ t <= clock w'
                 /\ fst (q t d) = inr a
                 /\ tx_lookup tx (txns w') = Some (snd (q t d))
                 /\ log w' = EvQuery (InTx tx) name :: log w).
Proof.
  unfold bind. destruct (time_Now w) as [o1 w1] eqn:En.
  destruct (time_Now_inv _ _ _ En) as (-> & Hs1 & Ht1 & Hl1 & Hc1).
  unfold wrapping.
  destruct (exec (InTx tx) name (q (clock w)) w1) as [o2 w2] eqn:Ee.
  destruct (exec_InTx_inv _ _ _ _ _ _ Ee) as (Hs2 & Hc2 & Hcase).
  intros H.
  assert (Hw : w' = w2) by (destruct o2; inversion H; reflexivity). subst w'.
  split; [congruence|]. split; [lia|].
  split; [rewrite (exec_dispatched _ _ _ _ _ _ Ee); apply dispatched_same_log; exact Hl1|].
  intros a Ha. subst o.
  destruct Hcase as [C|[C|C]].
  - destruct C as (-> & _). discriminate.
  - destruct C as (d & e & _ & -> & _). discriminate.
  - destruct C as (d & Hl & -> & Htx & Hlog).
    exists d, (clock w). rewrite Ht1 in Hl, Htx. rewrite Hl1 in Hlog.
    split; [assumption|]. split; [lia|]. split; [lia|].
    destruct (fst (q (clock w) d)) as [e|a'] eqn:Eq; simpl in H; [discriminate|].
    inversion H. subst a'. split; [reflexivity|].
    split; [|assumption].
    rewrite Htx. apply tx_lookup_update. congruence.
Qed.

(** *** TxManager.RunInTx and panics *)

Lemma error_eqb_refl e : error_eqb e e = true.
Proof.
  induction e; simpl; rewrite ?String.eqb_refl, ?Z.eqb_refl; auto.
  rewrite IHe. reflexivity.
Qed.

Lemma eris_Is_refl e : eris_Is e e = true.
Proof.
  destruct e; unfold eris_Is, error_is; rewrite error_eqb_refl; reflexivity.
Qed.

(** Wrapping keeps the original error in the chain. *)
Lemma eris_Is_Wrapped e msg : eris_Is (Wrapped e msg) e = true.
Proof.
  change (eris_Is (Wrapped e msg) e)
    with (error_is (Wrapped e msg) e || eris_Is e e).
  rewrite eris_Is_refl. apply orb_true_r.
Qed.

(** C2, where the code departs from it.  When [fn] panics, [RunInTx]
    ends there: the world it leaves is the world [fn] left, so no
    [Rollback] was issued and the transaction is neither rolled back nor
    committed. *)
Theorem C2_RunInTx_panic_skips_rollback {A} (fn : Tx -> M A) w tx w1 v w2 :
  BeginTx w = (Ret tx, w1) ->
  fn tx w1 = (Panic v, w2) ->
  RunInTx fn w = (Panic v, w2).
Proof.
  intros Hb Hf. unfold RunInTx, bind, try, wrapping. rewrite Hb, Hf. reflexivity.
Qed.

(** The parts of C2 the code does implement: an error of [fn] is followed
    by [Rollback] and comes back to the caller, alone or wrapped with the
    rollback failure; a success of [fn] is followed by [Commit]. *)
Lemma RunInTx_error_rolls_back {A} (fn : Tx -> M A) w tx w1 e w2 :
  BeginTx w = (Ret tx, w1) ->
  fn tx w1 = (Fail e, w2) ->
  exists w',
    (Tx_Rollback tx w2 = (Ret tt, w') /\ RunInTx fn w = (Fail e, w')) \/
    (exists rbErr, Tx_Rollback tx w2 = (Fail rbErr, w')
                   /\ RunInTx fn w = (Fail (eris_Wrapf_rollback e rbErr), w')
                   /\ eris_Is (eris_Wrapf_rollback e rbErr) e = true).
Proof.
  intros Hb Hf. unfold RunInTx, bind, try, wrapping. rewrite Hb, Hf. simpl.
  destruct (Tx_Rollback tx w2) as [[[]|rbErr|v] w3] eqn:Er.
  - exists w3. left. auto.
  - exists w3. right. exists rbErr. repeat split.
    apply eris_Is_Wrapped.
  - exfalso. destruct (Tx_Rollback_inv _ _ _ _ Er) as (_ & _ & [C|[C|C]]).
    + destruct C as (C & _). discriminate.
    + destruct C as (e' & _ & C & _). discriminate.
    + destruct C as (_ & C & _). discriminate.
Qed.

Lemma RunInTx_success_commits {A} (fn : Tx -> M A) w tx w1 a w2 :
  BeginTx w = (Ret tx, w1) ->
  fn tx w1 = (Ret a, w2) ->
  RunInTx fn w = (wrapping "failed to commit transaction" (Tx_Commit tx) ;;; ret a) w2.
Proof.
  intros Hb Hf. unfold RunInTx at 1. unfold bind at 1 2. unfold try, wrapping at 1.
  rewrite Hb, Hf. reflexivity.
Qed.

(** *** PasswordResetService.Execute *)

(** One wrapped repository method on a transaction, followed by the rest
    of the closure. *)
Lemma tx_step_inv {A B} msg msg' name (q : Time -> Stmt A) tx (k : A -> M B) w o w' :
  (x <- wrapping msg' (now <- time_Now ;; wrapping msg (exec (InTx tx) name (q now))) ;;
   k x) w = (o, w') ->
  (exists a w1 d t,
      store w1 = store w /\ clock w <= clock w1
      /\ tx_lookup tx (txns w) = Some d /\ clock w <= t /\ t <= clock w1
      /\ fst (q t d) = inr a
      /\ tx_lookup tx (txns w1) = Some (snd (q t d))
      /\ log w1 = EvQuery (InTx tx) name :: log w
      /\ k a w1 = (o, w')) \/
  ((forall b, o <> Ret b) /\ store w' = store w /\ dispatched w' = dispatched w).
Proof.
  intros H. apply bind_inv in H. destruct H as [(a & w1 & Hm & Hk)|(Hno & o1 & Hm & _)].
  - left. apply wrapping_inv in Hm. destruct Hm as (o0 & Hm & Hret).
    destruct (tx_method_inv _ _ _ _ _ _ _ Hm) as (Hs & Hc & _ & Hok).
    destruct (Hok a (proj1 (Hret a) eq_refl)) as (d & t & H1 & H2 & H3 & H4 & H5 & H6).
    exists a, w1, d, t. repeat split; assumption.
  - right. split; [assumption|].
    apply wrapping_inv in Hm. destruct Hm as (o0 & Hm & _).
    destruct (tx_method_inv _ _ _ _ _ _ _ Hm) as (Hs & _ & Hd & _). auto.
Qed.

Lemma Execute_tx_inv cfg reset passwordHash tx w o w' :
  Execute_tx cfg reset passwordHash tx w = (o, w') ->
  store w' = store w /\
  (o = Ret tt ->
   exists d t1 t2 t3 t4,
     tx_lookup tx (txns w) = Some d
     /\ tx_lookup tx (txns w') = Some (reset_rows reset passwordHash t1 t2 t3 t4 d)
     /\ log w' = EvQuery (InTx tx) "RevokeAllAuthTokensForUser"
                 :: EvQuery (InTx tx) "InvalidateAllPasswordResetsForUser"
                 :: EvQuery (InTx tx) "MarkPasswordResetUsed"
                 :: EvQuery (InTx tx) "UpdateUserPassword" :: log w).
Proof.
  unfold Execute_tx, UserRepository_UpdatePassword, PasswordResetRepository_MarkUsed,
    PasswordResetRepository_InvalidateAllForUser, AuthTokenRepository_RevokeAllForUser.
  simpl. intros H.
  apply (tx_step_inv _ _ _ (fun now => sqlcgen.UpdateUserPassword passwordHash now _)) in H.
  destruct H as [(a1 & w1 & d & t1 & Hs1 & _ & Hl0 & _ & _ & _ & Hl1 & Hlog1 & H)|(Hno & Hs & _)];
    [|split; [exact Hs | intros ->; exfalso; apply (Hno tt); reflexivity]].
  apply (tx_step_inv _ _ _ (fun now => sqlcgen.MarkPasswordResetUsed (Some now) _)) in H.
  destruct H as [(a2 & w2 & d1 & t2 & Hs2 & _ & Hl1' & _ & _ & _ & Hl2 & Hlog2 & H)|(Hno & Hs & _)];
    [|split; [congruence | intros ->; exfalso; apply (Hno tt); reflexivity]].
  apply (tx_step_inv _ _ _
           (fun now => sqlcgen.InvalidateAllPasswordResetsForUser (Some now) _)) in H.
  destruct H as [(a3 & w3 & d2 & t3 & Hs3 & _ & Hl2' & _ & _ & _ & Hl3 & Hlog3 & H)|(Hno & Hs & _)];
    [|split; [congruence | intros ->; exfalso; apply (Hno tt); reflexivity]].
  apply (tx_step_inv _ _ _ (fun now => sqlcgen.RevokeAllAuthTokensForUser (Some now) _)) in H.
  destruct H as [(a4 & w4 & d3 & t4 & Hs4 & _ & Hl3' & _ & _ & _ & Hl4 & Hlog4 & H)|(Hno & Hs & _)];
    [|split; [congruence | intros ->; exfalso; apply (Hno tt); reflexivity]].
  apply ret_inv' in H. destruct H as (_ & <-).
  split; [congruence|]. intros _.
  rewrite Hl1 in Hl1'. inversion Hl1'. subst d1.
  rewrite Hl2 in Hl2'. inversion Hl2'. subst d2.
  rewrite Hl3 in Hl3'. inversion Hl3'. subst d3.
  exists d, t1, t2, t3, t4. split; [assumption|]. split; [exact Hl4|].
  rewrite Hlog4, Hlog3, Hlog2, Hlog1. reflexivity.
Qed.

(** What the four statements leave in the tables. *)
Lemma reset_rows_password reset h t1 t2 t3 t4 d u :
  In u (users (reset_rows reset h t1 t2 t3 t4 d)) ->
  User_ID u = PasswordReset_UserID reset ->
  User_PasswordHash u = h.
Proof.
  unfold reset_rows. simpl. intros Hin Hid.
  apply in_map_iff in Hin. destruct Hin as (u0 & Hu & _).
  destruct (Nat.eqb (User_ID u0) (PasswordReset_UserID reset)) eqn:E.
  - subst u. reflexivity.
  - subst u. apply Nat.eqb_neq in E. contradiction.
Qed.

Lemma reset_rows_resets_of_user reset h t1 t2 t3 t4 d r :
  In r (password_resets (reset_rows reset h t1 t2 t3 t4 d)) ->
  PasswordReset_UserID r = PasswordReset_UserID reset ->
  PasswordReset_UsedAt r <> None.
Proof.
  unfold reset_rows. simpl. intros Hin Hid.
  apply in_map_iff in Hin. destruct Hin as (r0 & Hr & _).
  destruct (Nat.eqb (PasswordReset_UserID r0) (PasswordReset_UserID reset)) eqn:E.
  - destruct (PasswordReset_UsedAt r0) eqn:Eu; simpl in Hr; subst r; simpl; congruence.
  - simpl in Hr. subst r. apply Nat.eqb_neq in E. contradiction.
Qed.

Lemma reset_rows_this_reset reset h t1 t2 t3 t4 d r :
  In r (password_resets (reset_rows reset h t1 t2 t3 t4 d)) ->
  PasswordReset_ID r = PasswordReset_ID reset ->
  PasswordReset_UsedAt r <> None.
Proof.
  unfold reset_rows. simpl. intros Hin Hid.
  apply in_map_iff in Hin. destruct Hin as (r1 & Hr & Hin).
  apply in_map_iff in Hin. destruct Hin as (r0 & Hr1 & _).
  destruct (Nat.eqb (PasswordReset_ID r0) (PasswordReset_ID reset)) eqn:E.
  - subst r1. simpl in Hr. rewrite andb_false_r in Hr. subst r. simpl. congruence.
  - subst r1. apply Nat.eqb_neq in E.
    destruct (Nat.eqb (PasswordReset_UserID r0) (PasswordReset_UserID reset)
              && is_null (PasswordReset_UsedAt r0)); subst r; simpl in Hid; contradiction.
Qed.

Lemma reset_rows_keeps_reset reset h t1 t2 t3 t4 d :
  In reset (password_resets d) ->
  exists r, In r (password_resets (reset_rows reset h t1 t2 t3 t4 d))
            /\ PasswordReset_ID r = PasswordReset_ID reset
            /\ PasswordReset_TokenHash r = PasswordReset_TokenHash reset.
Proof.
  unfold reset_rows. simpl. intros Hin.
  eexists. split.
  - apply in_map. apply in_map. exact Hin.
  - rewrite Nat.eqb_refl. simpl. rewrite Nat.eqb_refl. simpl. auto.
Qed.

Lemma reset_rows_sessions reset h t1 t2 t3 t4 d t :
  In t (auth_tokens (reset_rows reset h t1 t2 t3 t4 d)) ->
  AuthToken_UserID t = PasswordReset_UserID reset ->
  AuthToken_RevokedAt t <> None.
Proof.
  unfold reset_rows. simpl. intros Hin Hid.
  apply in_map_iff in Hin. destruct Hin as (t0 & Ht & _).
  destruct (Nat.eqb (AuthToken_UserID t0) (PasswordReset_UserID reset)) eqn:E.
  - destruct (AuthToken_RevokedAt t0) eqn:Eu; simpl in Ht; subst t; simpl; congruence.
  - simpl in Ht. subst t. apply Nat.eqb_neq in E. contradiction.
Qed.

Lemma Execute_unfold cfg ctx token newPassword :
  PasswordResetService_Execute (ProvidePasswordResetService cfg) ctx token newPassword
  = (r <- try (PasswordResetRepository_GetByTokenHash NewPasswordResetRepository
                 (HashToken token)) ;;
     match r with
     | inl err =>
         if eris_Is err sql_ErrNoRows
         then fail ErrInvalidResetToken
         else fail (eris_Wrap err "failed to get password reset by token hash")
     | inr reset =>
         if negb (is_null (PasswordReset_UsedAt reset))
         then fail ErrTokenAlreadyUsed
         else
           now <- time_Now ;;
           if Time_After now (PasswordReset_ExpiresAt reset)
           then fail ErrTokenExpired
           else
             passwordHash <-
               wrapping "failed to hash password"
                 (bcrypt_GenerateFromPassword newPassword (BcryptCost (Auth cfg))) ;;
             RunInTx (Execute_tx cfg reset passwordHash)
     end).
Proof. reflexivity. Qed.

(** The lookup of a reset token on the pool reads and changes nothing. *)
Lemma GetByTokenHash_inv token w o w' :
  PasswordResetRepository_GetByTokenHash NewPasswordResetRepository (HashToken token) w
    = (o, w') ->
  store w' = store w /\ txns w' = txns w /\ clock w' = clock w /\
  ((exists e, o = Fail (eris_Wrap e "failed to get password reset by token hash")
              /\ log w' = EvFault "GetPasswordResetByTokenHash" e :: log w) \/
   (o = match stored_reset w token with
        | Some r => Ret r
        | None => Fail (eris_Wrap sql_ErrNoRows "failed to get password reset by token hash")
        end
    /\ log w' = EvQuery Pool "GetPasswordResetByTokenHash" :: log w)).
Proof.
  unfold PasswordResetRepository_GetByTokenHash. simpl. intros H.
  unfold wrapping in H.
  destruct (exec Pool _ _ w) as [o1 w1] eqn:E.
  destruct (exec_Pool_inv _ _ _ _ _ E) as (Ht & Hc & Hcase).
  assert (w1 = w') by (destruct o1; inversion H; reflexivity). subst w1.
  destruct Hcase as [(e & -> & Hs & Hl & _)|(-> & Hs & Hl & _)].
  - inversion H. subst. repeat split; auto. left. eexists. split; [reflexivity|]. exact Hl.
  - simpl in Hs. repeat split; auto. right.
    unfold sqlcgen.GetPasswordResetByTokenHash in H. simpl in H.
    unfold stored_reset. split; [|exact Hl].
    destruct (find _ _); simpl in *; inversion H; reflexivity.
Qed.

Lemma bcrypt_GenerateFromPassword_inv password cost w o w' :
  bcrypt_GenerateFromPassword password cost w = (o, w') ->
  store w' = store w /\ txns w' = txns w /\ log w' = log w /\ clock w' = clock w /\
  (forall h, o = Ret h -> exists salt, bcrypt_hash password cost salt = inr h).
Proof.
  unfold bcrypt_GenerateFromPassword, bind. destruct (rand_Read 16 w) as [o1 w1] eqn:E.
  destruct (rand_Read_inv _ _ _ _ E) as (Hs & Ht & Hl & Hc).
  destruct o1 as [salt|e|v]; intros H.
  - destruct (bcrypt_hash password cost salt) as [e|h0] eqn:Eh;
      inversion H; subst; repeat split; auto; try discriminate.
    intros h Hh. inversion Hh. subst. exists salt. exact Eh.
  - inversion H. subst. repeat split; auto. discriminate.
  - inversion H. subst. repeat split; auto. discriminate.
Qed.

(** C1. For the reset row stored under the raw token: when [Execute]
    returns nil, the row was unused and unexpired and, in one transaction
    that was committed, the password hash of its user became the bcrypt
    hash of the new password, the row itself is marked used, no reset row
    of that user is left unused, and every auth token of that user is
    revoked; when [Execute] returns anything else, the committed rows are
    what they were before the call. *)
Theorem C1_Execute_atomic cfg ctx token newPassword w reset o w' :
  stored_reset w token = Some reset ->
  PasswordResetService_Execute (ProvidePasswordResetService cfg) ctx token newPassword w
    = (o, w') ->
  (o = Ret tt ->
     PasswordReset_UsedAt reset = None /\
     clock w <= PasswordReset_ExpiresAt reset /\
     exists tx h,
       (exists salt, bcrypt_hash newPassword (BcryptCost (Auth cfg)) salt = inr h) /\
       (forall u, In u (users (store w')) ->
                  User_ID u = PasswordReset_UserID reset -> User_PasswordHash u = h) /\
       (exists r, In r (password_resets (store w'))
                  /\ PasswordReset_ID r = PasswordReset_ID reset
                  /\ PasswordReset_UsedAt r <> None) /\
       (forall r, In r (password_resets (store w')) ->
                  PasswordReset_UserID r = PasswordReset_UserID reset ->
                  PasswordReset_UsedAt r <> None) /\
       (forall t, In t (auth_tokens (store w')) ->
                  AuthToken_UserID t = PasswordReset_UserID reset ->
                  AuthToken_RevokedAt t <> None) /\
       log w' = EvCommit tx
                :: EvQuery (InTx tx) "RevokeAllAuthTokensForUser"
                :: EvQuery (InTx tx) "InvalidateAllPasswordResetsForUser"
                :: EvQuery (InTx tx) "MarkPasswordResetUsed"
                :: EvQuery (InTx tx) "UpdateUserPassword"
                :: EvBegin tx
                :: EvQuery Pool "GetPasswordResetByTokenHash" :: log w) /\
  (o <> Ret tt -> store w' = store w).
Proof.
  intros Hstored H. rewrite Execute_unfold in H.
  apply bind_inv in H. destruct H as [(x & w1 & Hget & H)|(_ & o1 & Hget & Hn)].
  2:{ exfalso. unfold try in Hget.
      destruct (PasswordResetRepository_GetByTokenHash _ _ w) as [[a|e|v] w2] eqn:E;
        inversion Hget; subst; try (eapply Hn; reflexivity).
      destruct (GetByTokenHash_inv _ _ _ _ E) as (_ & _ & _ & [(e & C & _)|(C & _)]).
      - discriminate.
      - rewrite Hstored in C. discriminate. }
  apply try_Ret_inv in Hget.
  destruct Hget as [(a & -> & Hget)|(e & -> & Hget)];
    destruct (GetByTokenHash_inv _ _ _ _ Hget) as (Hs1 & Ht1 & Hc1 & Hcase).
  2:{ assert (Ho : forall b, o <> Ret b).
      { destruct (eris_Is e sql_ErrNoRows); inversion H; discriminate. }
      assert (w' = w1) by (destruct (eris_Is e sql_ErrNoRows); inversion H; reflexivity).
      subst w'. split; [intros ->; exfalso; apply (Ho tt); reflexivity | intros _; exact Hs1]. }
  destruct Hcase as [(e & C & _)|(C & Hlog1)]; [discriminate|].
  rewrite Hstored in C. inversion C. subst a. clear C.
  destruct (is_null (PasswordReset_UsedAt reset)) eqn:Eused; simpl in H.
  2:{ inversion H. subst. split; [discriminate | intros _; exact Hs1]. }
  apply is_null_true in Eused.
  apply bind_inv in H. destruct H as [(now & w2 & Hnow & H)|(_ & o1 & Hnow & Hn)].
  2:{ exfalso. destruct (time_Now_inv _ _ _ Hnow) as (-> & _). apply (Hn (clock w1)).
      reflexivity. }
  destruct (time_Now_inv _ _ _ Hnow) as (Hn & Hs2 & Ht2 & Hl2 & Hc2).
  inversion Hn. subst now. clear Hn.
  unfold Time_After in H.
  destruct (Z.ltb_spec (PasswordReset_ExpiresAt reset) (clock w1)) as [Hexp|Hexp].
  { inversion H. subst. split; [discriminate | intros _; congruence]. }
  apply bind_inv in H. destruct H as [(h & w3 & Hh & H)|(Hno & o1 & Hh & _)].
  2:{ apply wrapping_inv in Hh. destruct Hh as (o0 & Hh & _).
      destruct (bcrypt_GenerateFromPassword_inv _ _ _ _ _ Hh) as (Hs3 & _).
      split; [intros ->; exfalso; apply (Hno tt); reflexivity | intros _; congruence]. }
  apply wrapping_Ret_inv in Hh.
  destruct (bcrypt_GenerateFromPassword_inv _ _ _ _ _ Hh) as (Hs3 & Ht3 & Hl3 & Hc3 & Hsalt).
  destruct (Hsalt h eq_refl) as (salt & Hhash).
  assert (Hs03 : store w3 = store w) by congruence.
  assert (Hl03 : log w3 = EvQuery Pool "GetPasswordResetByTokenHash" :: log w) by congruence.
  clear Hs1 Hs2 Hs3 Hl2 Hl3 Hlog1 Hget Hnow Hh Hsalt.
  apply RunInTx_inv in H.
  destruct H as [(e & Hb & ->)|(tx & w4 & Hb & H)].
  { destruct (BeginTx_inv _ _ _ Hb) as (Hs4 & _).
    split; [discriminate | intros _; congruence]. }
  destruct (BeginTx_inv _ _ _ Hb) as (Hs4 & _ & [(e & C & _)|(Htx & Ht4 & Hl4)]);
    [discriminate|].
  inversion Htx. subst tx. clear Htx.
  destruct H as [(v & Hf & ->)|[(e & w5 & Hf & H)|(a & w5 & Hf & H)]];
    destruct (Execute_tx_inv _ _ _ _ _ _ _ Hf) as (Hs5 & Hok).
  - split; [discriminate | intros _; congruence].
  - destruct H as [(Hr & ->)|(rbErr & Hr & ->)];
      destruct (Tx_Rollback_inv _ _ _ _ Hr) as (Hs6 & _);
      (split; [discriminate | intros _; congruence]).
  - destruct a.
    destruct (Hok eq_refl) as (d & t1 & t2 & t3 & t4 & Hd & Hd' & Hl5).
    rewrite Ht4 in Hd. simpl in Hd. rewrite Nat.eqb_refl in Hd. inversion Hd. subst d.
    destruct H as [(Hc & ->)|(e & Hc & ->)].
    + destruct (Tx_Commit_inv _ _ _ _ Hc) as (_ & [C|[C|C]]).
      * destruct C as (C & _). discriminate.
      * destruct C as (d & e & _ & C & _). discriminate.
      * destruct C as (d & Hd6 & _ & Hs6 & _ & Hl6).
        rewrite Hd' in Hd6. injection Hd6 as Hd6. rewrite <- Hd6 in Hs6. clear Hd6.
        split; [|intros C; exfalso; apply C; reflexivity].
        intros _. split; [assumption|]. split; [lia|].
        exists (next_tx w3), h. rewrite Hs6, Hs03.
        split; [exists salt; exact Hhash|].
        split; [intros u; apply reset_rows_password|].
        split.
        { destruct (reset_rows_keeps_reset reset h t1 t2 t3 t4 (store w)) as (r & Hin & Hid & _).
          - unfold stored_reset in Hstored. apply find_some in Hstored. tauto.
          - exists r. split; [assumption|]. split; [assumption|].
            apply (reset_rows_this_reset _ _ _ _ _ _ _ _ Hin Hid). }
        split; [intros r; apply reset_rows_resets_of_user|].
        split; [intros t; apply reset_rows_sessions|].
        rewrite Hl6, Hl5, Hl4, Hl03. reflexivity.
    + destruct (Tx_Commit_inv _ _ _ _ Hc) as (_ & [C|[C|C]]).
      * destruct C as (_ & _ & ->). split; [discriminate | intros _; congruence].
      * destruct C as (d & e' & _ & _ & Hs6 & _).
        split; [discriminate | intros _; congruence].
      * destruct C as (d & _ & C & _). discriminate.
Qed.

(** *** UserService.ScheduleDeletion *)

Lemma ScheduleDeletion_unfold cfg ctx userID :
  UserService_ScheduleDeletion (ProvideUserService cfg) ctx userID
  = (now <- time_Now ;;
     info <- RunInTx (ScheduleDeletion_tx cfg userID
                        (Time_Add now (AccountDeletionDelay (Auth cfg)))) ;;
     let (userEmail, userName) := info in
     EnqueueCtx ctx TypeEmail
       (deletion_notice cfg (Time_Add now (AccountDeletionDelay (Auth cfg)))
          userEmail userName)
       (EmailTaskOptions cfg) ;;;
     ret tt).
Proof. reflexivity. Qed.

Lemma tx_lookup_update_open tx d' ts :
  tx_lookup tx ts <> None -> tx_lookup tx (tx_update tx d' ts) <> None.
Proof. intros H. rewrite (tx_lookup_update _ _ _ H). discriminate. Qed.

(** A statement leaves its transaction open. *)
Lemma exec_InTx_open {A} tx name (q : Stmt A) w o w' :
  exec (InTx tx) name q w = (o, w') ->
  tx_lookup tx (txns w) <> None -> tx_lookup tx (txns w') <> None.
Proof.
  intros H Ho. destruct (exec_InTx_inv _ _ _ _ _ _ H) as (_ & _ & [C|[C|C]]).
  - destruct C as (_ & _ & ->). exact Ho.
  - destruct C as (d & e & _ & _ & -> & _). exact Ho.
  - destruct C as (d & _ & _ & -> & _). apply tx_lookup_update_open. exact Ho.
Qed.

(** Without failures, a repository method on an open transaction runs
    its statement on the working copy at the clock reading. *)
Lemma tx_method_calm {A} msg name (q : Time -> Stmt A) tx w o w' d :
  (now <- time_Now ;; wrapping msg (exec (InTx tx) name (q now))) w = (o, w') ->
  calm w -> tx_lookup tx (txns w) = Some d ->
  calm w' /\ tx_lookup tx (txns w') <> None /\
  o = match fst (q (clock w) d) with
      | inr a => Ret a
      | inl e => Fail (eris_Wrap e msg)
      end.
Proof.
  unfold bind. destruct (time_Now w) as [o1 w1] eqn:En. intros H Hc Hd.
  pose proof (time_Now_calm _ _ _ En Hc) as Hc1.
  destruct (time_Now_inv _ _ _ En) as (-> & _ & Ht1 & _).
  unfold wrapping in H.
  destruct (exec (InTx tx) name (q (clock w)) w1) as [o2 w2] eqn:Ee.
  destruct (exec_calm _ _ _ _ _ _ Ee Hc1) as (Hc2 & Ho2).
  rewrite Ht1 in Ho2. rewrite (Ho2 d Hd) in H.
  assert (Hopen : tx_lookup tx (txns w2) <> None).
  { apply (exec_InTx_open _ _ _ _ _ _ Ee). rewrite Ht1, Hd. discriminate. }
  destruct (fst (q (clock w) d)); simpl in H; inversion H; subst; auto.
Qed.

Lemma ScheduleDeletion_tx_inv cfg userID scheduledAt tx w o w' :
  ScheduleDeletion_tx cfg userID scheduledAt tx w = (o, w') ->
  store w' = store w /\ dispatched w' = dispatched w /\
  (forall a, o = Ret a ->
     exists d u t1 t2,
       tx_lookup tx (txns w) = Some d
       /\ user_by_id d userID = Some u
       /\ User_DeletionScheduledAt u = None
       /\ a = (User_Email u, User_Name u)
       /\ tx_lookup tx (txns w') = Some (schedule_rows userID scheduledAt t1 t2 d)
       /\ log w' = EvQuery (InTx tx) "RevokeAllAuthTokensForUser"
                   :: EvQuery (InTx tx) "ScheduleUserDeletion"
                   :: EvQuery (InTx tx) "GetUserByID" :: log w).
Proof.
  unfold ScheduleDeletion_tx, UserRepository_GetByID, UserRepository_ScheduleDeletion,
    AuthTokenRepository_RevokeAllForUser. simpl. intros H.
  unfold bind at 1 in H. unfold try, wrapping at 1 in H.
  destruct (exec (InTx tx) "GetUserByID" (sqlcgen.GetUserByID userID) w)
    as [o1 w1] eqn:Ee.
  pose proof (exec_dispatched _ _ _ _ _ _ Ee) as Hd1.
  destruct (exec_InTx_inv _ _ _ _ _ _ Ee) as (Hs1 & _ & Hcase).
  destruct o1 as [user|e|v].
  2:{ assert (Hw : w' = w1 /\ forall a, o <> Ret a).
      { destruct (eris_Is _ _); inversion H; split; auto; discriminate. }
      destruct Hw as (-> & Hno). repeat split; auto.
      intros a Ha. exfalso. apply (Hno a Ha). }
  2:{ inversion H. subst. repeat split; auto. discriminate. }
  destruct Hcase as [C|[C|C]].
  { destruct C as (C & _). discriminate. }
  { destruct C as (d & e & _ & C & _). discriminate. }
  destruct C as (d & Hd & Ho & Htx & Hlog).
  unfold sqlcgen.GetUserByID in Ho, Htx. simpl in Ho, Htx.
  assert (Hu : user_by_id d userID = Some user).
  { unfold user_by_id. destruct (find _ (users d)); simpl in Ho; inversion Ho. reflexivity. }
  assert (Hd1' : tx_lookup tx (txns w1) = Some d).
  { rewrite Htx. apply tx_lookup_update. congruence. }
  destruct (is_null (User_DeletionScheduledAt user)) eqn:Enull; simpl in H.
  2:{ inversion H. subst. repeat split; auto. discriminate. }
  apply is_null_true in Enull.
  apply (tx_step_inv _ _ _ (fun now => sqlcgen.ScheduleUserDeletion (Some scheduledAt) now _))
    in H.
  destruct H as [(a1 & w2 & d1 & t1 & Hs2 & _ & Hl1 & _ & _ & _ & Hl2 & Hlog2 & H)
                |(Hno & Hs & Hdis)].
  2:{ split; [congruence|]. split; [congruence|].
      intros a Ha. exfalso. apply (Hno a Ha). }
  rewrite Hd1' in Hl1. injection Hl1 as <-.
  apply (tx_step_inv _ _ _ (fun now => sqlcgen.RevokeAllAuthTokensForUser (Some now) _)) in H.
  destruct H as [(a2 & w3 & d2 & t2 & Hs3 & _ & Hl2' & _ & _ & _ & Hl3 & Hlog3 & H)
                |(Hno & Hs & Hdis)].
  2:{ split; [congruence|]. split.
      { rewrite Hdis. rewrite (dispatched_cons _ _ _ Hlog2 eq_refl). exact Hd1. }
      intros a Ha. exfalso. apply (Hno a Ha). }
  rewrite Hl2 in Hl2'. injection Hl2' as <-.
  apply ret_inv' in H. destruct H as (-> & <-).
  split; [congruence|]. split.
  { rewrite (dispatched_cons _ _ _ Hlog3 eq_refl), (dispatched_cons _ _ _ Hlog2 eq_refl).
    exact Hd1. }
  intros a Ha. injection Ha as <-.
  exists d, user, t1, t2. repeat split; auto.
  rewrite Hlog3, Hlog2, Hlog. reflexivity.
Qed.

Lemma ScheduleDeletion_tx_calm cfg userID scheduledAt tx w o w' d :
  ScheduleDeletion_tx cfg userID scheduledAt tx w = (o, w') ->
  calm w -> tx_lookup tx (txns w) = Some d ->
  calm w' /\ tx_lookup tx (txns w') <> None /\
  match user_by_id d userID with
  | None => o = Fail ErrUserNotFound
  | Some u =>
      if is_null (User_DeletionScheduledAt u)
      then o = Ret (User_Email u, User_Name u)
      else o = Fail ErrDeletionAlreadyScheduled
  end.
Proof.
  unfold ScheduleDeletion_tx, UserRepository_GetByID, UserRepository_ScheduleDeletion,
    AuthTokenRepository_RevokeAllForUser. simpl. intros H Hc Hd.
  unfold bind at 1 in H. unfold try, wrapping at 1 in H.
  destruct (exec (InTx tx) "GetUserByID" (sqlcgen.GetUserByID userID) w)
    as [o1 w1] eqn:Ee.
  destruct (exec_calm _ _ _ _ _ _ Ee Hc) as (Hc1 & Ho1). simpl in Ho1.
  specialize (Ho1 d Hd). unfold sqlcgen.GetUserByID in Ho1. simpl in Ho1.
  assert (Hopen1 : tx_lookup tx (txns w1) <> None).
  { apply (exec_InTx_open _ _ _ _ _ _ Ee). congruence. }
  unfold user_by_id. destruct (find _ (users d)) as [u|]; simpl in Ho1; subst o1.
  2:{ simpl in H. inversion H. subst. auto. }
  destruct (is_null (User_DeletionScheduledAt u)) eqn:Enull; simpl in H.
  2:{ inversion H. subst. auto. }
  destruct (tx_lookup tx (txns w1)) as [d1|] eqn:Ed1; [|congruence].
  unfold bind at 1 in H. unfold wrapping at 1 in H.
  match type of H with
  | context [bind time_Now ?k w1] => destruct (bind time_Now k w1) as [o2 w2] eqn:E2
  end.
  destruct (tx_method_calm _ _
              (fun now => sqlcgen.ScheduleUserDeletion (Some scheduledAt) now userID)
              _ _ _ _ _ E2 Hc1 Ed1) as (Hc2 & Hopen2 & ->).
  simpl in H.
  destruct (tx_lookup tx (txns w2)) as [d2|] eqn:Ed2; [|congruence].
  unfold bind at 1 in H. unfold wrapping at 1 in H.
  match type of H with
  | context [bind time_Now ?k w2] => destruct (bind time_Now k w2) as [o3 w3] eqn:E3
  end.
  destruct (tx_method_calm _ _
              (fun now => sqlcgen.RevokeAllAuthTokensForUser (Some now) userID)
              _ _ _ _ _ E3 Hc2 Ed2) as (Hc3 & Hopen3 & ->).
  simpl in H. inversion H. subst. auto.
Qed.

(** [EnqueueCtx] returns nothing and touches no row: the task reaches the
    broker, or the failure goes to Sentry. *)
Lemma EnqueueCtx_inv ctx taskType payload opts w o w' :
  EnqueueCtx ctx taskType payload opts w = (o, w') ->
  o = Ret tt /\ store w' = store w /\
  ((exists jobID,
      log w' = EvEnqueue taskType
                 (mkTaskEnvelope
                    (mkTaskMetadata jobID (RequestIDFromContext ctx) (UserIDFromContext ctx))
                    payload) opts :: log w) \/
   (exists e, log w' = EvCapture e :: log w)).
Proof.
  unfold EnqueueCtx, EnqueueWithMeta, bind, try, wrapping, uuid_New, asynq_Enqueue,
    sentry_CaptureError, ret. simpl.
  destruct (broker w) as [|[e|] bs]; intros H; inversion H; subst; simpl;
    repeat split; eauto.
Qed.

Lemma schedule_rows_user userID scheduledAt t1 t2 d u :
  In u (users (schedule_rows userID scheduledAt t1 t2 d)) ->
  User_ID u = userID ->
  User_DeletionScheduledAt u = Some scheduledAt.
Proof.
  unfold schedule_rows. simpl. intros Hin Hid.
  apply in_map_iff in Hin. destruct Hin as (u0 & Hu & _).
  destruct (Nat.eqb (User_ID u0) userID) eqn:E.
  - subst u. reflexivity.
  - subst u. apply Nat.eqb_neq in E. contradiction.
Qed.

Lemma schedule_rows_sessions userID scheduledAt t1 t2 d t :
  In t (auth_tokens (schedule_rows userID scheduledAt t1 t2 d)) ->
  AuthToken_UserID t = userID ->
  AuthToken_RevokedAt t <> None.
Proof.
  unfold schedule_rows. simpl. intros Hin Hid.
  apply in_map_iff in Hin. destruct Hin as (t0 & Ht & _).
  destruct (Nat.eqb (AuthToken_UserID t0) userID) eqn:E.
  - destruct (AuthToken_RevokedAt t0) eqn:Eu; simpl in Ht; subst t; simpl; congruence.
  - simpl in Ht. subst t. apply Nat.eqb_neq in E. contradiction.
Qed.

Lemma schedule_rows_keeps_user userID scheduledAt t1 t2 d u :
  user_by_id d userID = Some u ->
  exists u', In u' (users (schedule_rows userID scheduledAt t1 t2 d))
             /\ User_ID u' = userID /\ User_Email u' = User_Email u.
Proof.
  unfold user_by_id, schedule_rows. simpl. intros H. apply find_some in H.
  destruct H as (Hin & Hid). eexists. split.
  - apply in_map. exact Hin.
  - rewrite Hid. simpl. apply Nat.eqb_eq in Hid. auto.
Qed.

Lemma RunInTx_ScheduleDeletion_inv cfg userID scheduledAt w o w' :
  RunInTx (ScheduleDeletion_tx cfg userID scheduledAt) w = (o, w') ->
  (forall a, o = Ret a ->
     exists u tx t1 t2,
       user_by_id (store w) userID = Some u
       /\ User_DeletionScheduledAt u = None
       /\ a = (User_Email u, User_Name u)
       /\ store w' = schedule_rows userID scheduledAt t1 t2 (store w)
       /\ log w' = EvCommit tx
                   :: EvQuery (InTx tx) "RevokeAllAuthTokensForUser"
                   :: EvQuery (InTx tx) "ScheduleUserDeletion"
                   :: EvQuery (InTx tx) "GetUserByID"
                   :: EvBegin tx :: log w) /\
  ((forall a, o <> Ret a) -> store w' = store w /\ dispatched w' = dispatched w) /\
  (calm w ->
     match user_by_id (store w) userID with
     | None => o = Fail ErrUserNotFound
     | Some u =>
         if is_null (User_DeletionScheduledAt u)
         then o = Ret (User_Email u, User_Name u)
         else o = Fail ErrDeletionAlreadyScheduled
     end).
Proof.
  intros H. apply RunInTx_inv in H.
  destruct H as [(e & Hb & ->)|(tx & w1 & Hb & H)].
  { pose proof (BeginTx_dispatched _ _ _ Hb) as Hd.
    destruct (BeginTx_inv _ _ _ Hb) as (Hs & _).
    split; [intros a Ha; discriminate|]. split; [auto|].
    intros Hc. destruct (BeginTx_calm _ _ _ Hb Hc) as (_ & C). discriminate. }
  pose proof (BeginTx_dispatched _ _ _ Hb) as Hd1.
  destruct (BeginTx_inv _ _ _ Hb) as (Hs1 & _ & [(e & C & _)|(Htx & Ht1 & Hl1)]);
    [discriminate|].
  injection Htx as Htx. subst tx.
  assert (Hopen : tx_lookup (next_tx w) (txns w1) = Some (store w)).
  { rewrite Ht1. simpl. rewrite Nat.eqb_refl. reflexivity. }
  assert (Hcalm1 : calm w -> calm w1).
  { intros Hc. apply (BeginTx_calm _ _ _ Hb Hc). }
  destruct H as [(v & Hf & ->)|[(e & w2 & Hf & H)|(a & w2 & Hf & H)]];
    destruct (ScheduleDeletion_tx_inv _ _ _ _ _ _ _ Hf) as (Hs2 & Hd2 & Hok).
  - split; [intros a Ha; discriminate|].
    split; [intros _; split; congruence|].
    intros Hc. destruct (ScheduleDeletion_tx_calm _ _ _ _ _ _ _ _ Hf (Hcalm1 Hc) Hopen)
      as (_ & _ & Hres).
    destruct (user_by_id (store w) userID) as [u|];
      [destruct (is_null (User_DeletionScheduledAt u))|]; discriminate.
  - assert (Hrb : store w' = store w /\ dispatched w' = dispatched w).
    { destruct H as [(Hr & _)|(rbErr & Hr & _)];
        pose proof (Tx_Rollback_dispatched _ _ _ _ Hr) as Hd3;
        destruct (Tx_Rollback_inv _ _ _ _ Hr) as (Hs3 & _); split; congruence. }
    split.
    { intros a Ha. destruct H as [(_ & ->)|(rbErr & _ & ->)]; discriminate. }
    split; [intros _; exact Hrb|].
    intros Hc. destruct (ScheduleDeletion_tx_calm _ _ _ _ _ _ _ _ Hf (Hcalm1 Hc) Hopen)
      as (Hc2 & Hopen2 & Hres).
    destruct H as [(Hr & ->)|(rbErr & Hr & ->)].
    + exact Hres.
    + destruct (Tx_Rollback_calm _ _ _ _ Hr Hc2 Hopen2) as (_ & C). discriminate.
  - destruct (Hok a eq_refl) as (d & u & t1 & t2 & Hd & Hu & Hnull & Ha & Hd' & Hl2).
    rewrite Hopen in Hd. injection Hd as <-.
    destruct H as [(Hc & ->)|(e & Hc & ->)].
    + destruct (Tx_Commit_inv _ _ _ _ Hc) as (_ & [C|[C|C]]).
      * destruct C as (C & _). discriminate.
      * destruct C as (d & e & _ & C & _). discriminate.
      * destruct C as (d & Hd3 & _ & Hs3 & _ & Hl3).
        rewrite Hd' in Hd3. injection Hd3 as Hd3. rewrite <- Hd3 in Hs3.
        split.
        { intros a' Ha'. injection Ha' as <-.
          exists u, (next_tx w), t1, t2. repeat split; auto.
          rewrite Hl3, Hl2, Hl1. reflexivity. }
        split; [intros Hno; exfalso; apply (Hno a); reflexivity|].
        intros Hcalm. rewrite Hu. rewrite (proj2 (is_null_true _) Hnull). congruence.
    + pose proof (Tx_Commit_dispatched _ _ _ _ Hc) as Hd3.
      split; [intros a' Ha'; discriminate|].
      split.
      { intros _. destruct (Tx_Commit_inv _ _ _ _ Hc) as (_ & [C|[C|C]]).
        - destruct C as (_ & _ & ->). split; congruence.
        - destruct C as (d & e' & _ & _ & Hs3 & _). split; congruence.
        - destruct C as (d & _ & C & _). discriminate. }
      intros Hcalm.
      destruct (ScheduleDeletion_tx_calm _ _ _ _ _ _ _ _ Hf (Hcalm1 Hcalm) Hopen)
        as (Hc2 & Hopen2 & _).
      destruct (Tx_Commit_calm _ _ _ _ Hc Hc2 Hopen2) as (_ & C). discriminate.
Qed.

(** C6. Every run of [ScheduleDeletion] is one transaction around the
    read of the user.  When it returns nil, the user was there with no
    deletion scheduled, [deletion_scheduled_at] is the clock reading of the
    call plus the configured delay, every auth token of the user is
    revoked, and the notice reached the broker (or Sentry) after the
    commit.  When it returns anything else, the committed rows are
    untouched and nothing was dispatched.  Without infrastructure
    failures the outcome is [ErrUserNotFound] for an absent user,
    [ErrDeletionAlreadyScheduled] for a user with a schedule, nil
    otherwise. *)
Theorem C6_ScheduleDeletion cfg ctx userID w o w' :
  UserService_ScheduleDeletion (ProvideUserService cfg) ctx userID w = (o, w') ->
  let scheduledAt := Time_Add (clock w) (AccountDeletionDelay (Auth cfg)) in
  (o = Ret tt ->
     exists u tx ev,
       user_by_id (store w) userID = Some u
       /\ User_DeletionScheduledAt u = None
       /\ (forall u', In u' (users (store w')) -> User_ID u' = userID ->
                      User_DeletionScheduledAt u' = Some scheduledAt)
       /\ (exists u', In u' (users (store w')) /\ User_ID u' = userID)
       /\ (forall t, In t (auth_tokens (store w')) -> AuthToken_UserID t = userID ->
                     AuthToken_RevokedAt t <> None)
       /\ log w' = ev
                   :: EvCommit tx
                   :: EvQuery (InTx tx) "RevokeAllAuthTokensForUser"
                   :: EvQuery (InTx tx) "ScheduleUserDeletion"
                   :: EvQuery (InTx tx) "GetUserByID"
                   :: EvBegin tx :: log w
       /\ ((exists jobID,
               ev = EvEnqueue TypeEmail
                      (mkTaskEnvelope
                         (mkTaskMetadata jobID (RequestIDFromContext ctx)
                            (UserIDFromContext ctx))
                         (deletion_notice cfg scheduledAt (User_Email u) (User_Name u)))
                      (EmailTaskOptions cfg))
            \/ (exists e, ev = EvCapture e))) /\
  (o <> Ret tt -> store w' = store w /\ dispatched w' = dispatched w) /\
  (calm w ->
     match user_by_id (store w) userID with
     | None => o = Fail ErrUserNotFound
     | Some u =>
         if is_null (User_DeletionScheduledAt u)
         then o = Ret tt
         else o = Fail ErrDeletionAlreadyScheduled
     end).
Proof.
  intros H scheduledAt. rewrite ScheduleDeletion_unfold in H.
  apply bind_inv in H. destruct H as [(now & w1 & Hnow & H)|(_ & o1 & Hnow & Hn)].
  2:{ exfalso. destruct (time_Now_inv _ _ _ Hnow) as (-> & _). apply (Hn (clock w)).
      reflexivity. }
  pose proof (time_Now_calm _ _ _ Hnow) as Hcalm1.
  destruct (time_Now_inv _ _ _ Hnow) as (Hn & Hs1 & Ht1 & Hl1 & _).
  injection Hn as Hn. subst now. fold scheduledAt in H.
  pose proof H as H0.
  apply bind_inv in H. destruct H as [(info & w2 & Hrun & H)|(Hno & o1 & Hrun & Hn)].
  - destruct (RunInTx_ScheduleDeletion_inv _ _ _ _ _ _ Hrun) as (Hok & _ & Hc).
    destruct (Hok info eq_refl) as (u & tx & t1 & t2 & Hu & Hnull & -> & Hs2 & Hl2).
    apply bind_inv in H. destruct H as [(x & w3 & Henq & H)|(_ & o1 & Henq & Hn)].
    2:{ exfalso. destruct (EnqueueCtx_inv _ _ _ _ _ _ _ Henq) as (-> & _).
        apply (Hn tt). reflexivity. }
    apply ret_inv' in H. destruct H as (-> & <-).
    destruct (EnqueueCtx_inv _ _ _ _ _ _ _ Henq) as (_ & Hs3 & Hev).
    rewrite Hs1 in Hu, Hs2.
    split.
    + intros _.
      assert (Hev' : exists ev, log w3 = ev :: log w2 /\
                ((exists jobID,
                    ev = EvEnqueue TypeEmail
                           (mkTaskEnvelope
                              (mkTaskMetadata jobID (RequestIDFromContext ctx)
                                 (UserIDFromContext ctx))
                              (deletion_notice cfg scheduledAt (User_Email u) (User_Name u)))
                           (EmailTaskOptions cfg))
                 \/ (exists e, ev = EvCapture e))).
      { destruct Hev as [(jobID & Hl3)|(e & Hl3)]; eexists; split; eauto. }
      destruct Hev' as (ev & Hl3 & Hev').
      exists u, tx, ev. rewrite Hs3, Hs2.
      split; [assumption|]. split; [assumption|].
      split; [intros u'; apply schedule_rows_user|].
      split.
      { destruct (schedule_rows_keeps_user userID scheduledAt t1 t2 _ _ Hu)
          as (u' & Hin & Hid & _). exists u'. auto. }
      split; [intros t; apply schedule_rows_sessions|].
      split; [|assumption].
      rewrite Hl3, Hl2, Hl1. reflexivity.
    + split; [intros C; exfalso; apply C; reflexivity|].
      intros Hcalm. specialize (Hc (Hcalm1 Hcalm)). rewrite Hs1 in Hc. rewrite Hu in *.
      rewrite (proj2 (is_null_true _) Hnull). reflexivity.
  - destruct (RunInTx_ScheduleDeletion_inv _ _ _ _ _ _ Hrun) as (_ & Hfail & Hc).
    destruct (Hfail Hn) as (Hs2 & Hd2).
    split; [intros ->; exfalso; apply (Hno tt); reflexivity|].
    split.
    + intros _. split; [congruence|].
      rewrite Hd2. apply dispatched_same_log. exact Hl1.
    + intros Hcalm. specialize (Hc (Hcalm1 Hcalm)). rewrite Hs1 in Hc.
      destruct (user_by_id (store w) userID) as [u|].
      * destruct (is_null (User_DeletionScheduledAt u)).
        -- exfalso. eapply Hn. exact Hc.
        -- subst o1. rewrite (bind_stop _ _ _ _ _ Hrun) in H0. congruence.
      * subst o1. rewrite (bind_stop _ _ _ _ _ Hrun) in H0. congruence.
Qed.

(** *** SessionService.Create with a pending deletion *)

(** A repository method of the shape [now := time.Now(); queries.Stmt]
    on the pool. *)
Lemma pool_method_inv {A} msg name (q : Time -> Stmt A) w o w' :
  (now <- time_Now ;; wrapping msg (exec Pool name (q now))) w = (o, w') ->
  txns w' = txns w /\
  ((exists e, o = Fail (eris_Wrap e msg) /\ store w' = store w
              /\ log w' = EvFault name e :: log w) \/
   (store w' = snd (q (clock w) (store w))
    /\ log w' = EvQuery Pool name :: log w
    /\ o = match fst (q (clock w) (store w)) with
           | inr a => Ret a
           | inl e => Fail (eris_Wrap e msg)
           end)).
Proof.
  unfold bind. destruct (time_Now w) as [o1 w1] eqn:En.
  destruct (time_Now_inv _ _ _ En) as (-> & Hs1 & Ht1 & Hl1 & _).
  unfold wrapping.
  destruct (exec Pool name (q (clock w)) w1) as [o2 w2] eqn:Ee.
  destruct (exec_Pool_inv _ _ _ _ _ Ee) as (Ht2 & _ & Hcase).
  intros H.
  assert (Hw : w' = w2) by (destruct o2; inversion H; reflexivity). subst w'.
  split; [congruence|].
  destruct Hcase as [(e & -> & Hs2 & Hl2 & _)|(-> & Hs2 & Hl2 & _)].
  - left. exists e. inversion H. subst. repeat split; congruence.
  - right. rewrite Hs1 in Hs2, H. rewrite Hl1 in Hl2.
    split; [assumption|]. split; [assumption|].
    destruct (fst (q (clock w) (store w))); simpl in H; inversion H; reflexivity.
Qed.

Lemma GenerateSecureToken_inv n w o w' :
  GenerateSecureToken n w = (o, w') ->
  store w' = store w /\ txns w' = txns w /\ log w' = log w /\ clock w' = clock w.
Proof.
  unfold GenerateSecureToken. intros H.
  apply bind_inv in H. destruct H as [(bs & w1 & Hr & H)|(_ & o1 & Hr & _)];
    apply wrapping_inv in Hr; destruct Hr as (o0 & Hr & _);
    destruct (rand_Read_inv _ _ _ _ Hr) as (Hs & Ht & Hl & Hc).
  - apply ret_inv' in H. destruct H as (_ & <-). auto.
  - auto.
Qed.

Lemma CreateAuthToken_users id userID tokenHash expiresAt createdAt d :
  users (snd (sqlcgen.CreateAuthToken id userID tokenHash expiresAt createdAt d)) = users d.
Proof.
  unfold sqlcgen.CreateAuthToken.
  repeat match goal with |- context [if ?b then _ else _] => destruct b end; reflexivity.
Qed.

Lemma AuthTokenRepository_Create_inv userID tokenHash expiresAt w o w' :
  AuthTokenRepository_Create NewAuthTokenRepository userID tokenHash expiresAt w = (o, w') ->
  users (store w') = users (store w) /\ txns w' = txns w /\
  (log w' = EvQuery Pool "CreateAuthToken" :: log w \/
   exists e, log w' = EvFault "CreateAuthToken" e :: log w).
Proof.
  unfold AuthTokenRepository_Create. simpl. intros H.
  apply bind_inv in H. destruct H as [(id & w1 & Hid & H)|(_ & o1 & Hid & Hn)].
  2:{ exfalso. destruct (uuid_New_inv _ _ _ Hid) as (-> & _). eapply Hn. reflexivity. }
  destruct (uuid_New_inv _ _ _ Hid) as (_ & Hs1 & Ht1 & Hl1 & _).
  apply bind_inv in H. destruct H as [(now & w2 & Hnow & H)|(_ & o1 & Hnow & Hn)].
  2:{ exfalso. destruct (time_Now_inv _ _ _ Hnow) as (-> & _). eapply Hn. reflexivity. }
  destruct (time_Now_inv _ _ _ Hnow) as (_ & Hs2 & Ht2 & Hl2 & _).
  assert (Hex : exists o3 w3,
             exec Pool "CreateAuthToken"
               (sqlcgen.CreateAuthToken id userID tokenHash expiresAt now) w2 = (o3, w3)
             /\ store w' = store w3 /\ txns w' = txns w3 /\ log w' = log w3).
  { apply bind_inv in H. destruct H as [(x & w3 & He & H)|(_ & o1 & He & _)];
      apply wrapping_inv in He; destruct He as (o0 & He & _).
    - apply ret_inv' in H. destruct H as (_ & <-). exists o0, w3. auto.
    - exists o0, w'. auto. }
  destruct Hex as (o3 & w3 & He & Hs3 & Ht3 & Hl3).
  destruct (exec_Pool_inv _ _ _ _ _ He) as (Ht4 & _ & Hcase).
  split.
  - destruct Hcase as [(e & _ & Hs4 & _)|(_ & Hs4 & _)].
    + congruence.
    + rewrite Hs3, Hs4, CreateAuthToken_users. congruence.
  - split; [congruence|].
    destruct Hcase as [(e & _ & _ & Hl4 & _)|(_ & _ & Hl4 & _)].
    + right. exists e. congruence.
    + left. congruence.
Qed.

(** Issuing a session token opens no transaction and writes to
    [auth_tokens] only. *)
Lemma generateToken_inv cfg userID w o w' :
  SessionService_generateToken (ProvideSessionService cfg) userID w = (o, w') ->
  users (store w') = users (store w) /\ txns w' = txns w /\
  (log w' = log w \/
   log w' = EvQuery Pool "CreateAuthToken" :: log w \/
   exists e, log w' = EvFault "CreateAuthToken" e :: log w).
Proof.
  unfold SessionService_generateToken. simpl. intros H.
  apply bind_inv in H. destruct H as [(token & w1 & Hg & H)|(_ & o1 & Hg & _)];
    apply wrapping_inv in Hg; destruct Hg as (o0 & Hg & _);
    destruct (GenerateSecureToken_inv _ _ _ _ Hg) as (Hs1 & Ht1 & Hl1 & _).
  2:{ rewrite Hs1. auto. }
  apply bind_inv in H. destruct H as [(now & w2 & Hnow & H)|(_ & o1 & Hnow & Hn)].
  2:{ exfalso. destruct (time_Now_inv _ _ _ Hnow) as (-> & _). eapply Hn. reflexivity. }
  destruct (time_Now_inv _ _ _ Hnow) as (_ & Hs2 & Ht2 & Hl2 & _).
  assert (Hex : exists o3 w3,
             AuthTokenRepository_Create NewAuthTokenRepository userID (HashToken token)
               (Time_Add now
                  (if AuthTokenTTL (Auth cfg) =? 0
                   then DefaultAuthTokenTTL else AuthTokenTTL (Auth cfg))) w2 = (o3, w3)
             /\ w' = w3).
  { apply bind_inv in H. destruct H as [(x & w3 & He & H)|(_ & o1 & He & _)];
      apply wrapping_inv in He; destruct He as (o3 & He & _).
    - apply ret_inv' in H. destruct H as (_ & <-). exists o3, w3. auto.
    - exists o3, w'. auto. }
  destruct Hex as (o3 & w3 & He & ->).
  destruct (AuthTokenRepository_Create_inv _ _ _ _ _ _ He) as (Hu & Ht3 & Hl3).
  split; [congruence|]. split; [congruence|].
  right. destruct Hl3 as [Hl3|(e & Hl3)]; [left | right; exists e]; congruence.
Qed.

Lemma GetByEmail_inv email w o w' :
  UserRepository_GetByEmail NewUserRepository email w = (o, w') ->
  store w' = store w /\ txns w' = txns w /\ clock w' = clock w /\
  ((exists e, o = Fail (eris_Wrap e "failed to get user by email")
              /\ log w' = EvFault "GetUserByEmail" e :: log w) \/
   (o = match stored_user w email with
        | Some u => Ret u
        | None => Fail (eris_Wrap sql_ErrNoRows "failed to get user by email")
        end
    /\ log w' = EvQuery Pool "GetUserByEmail" :: log w)).
Proof.
  unfold UserRepository_GetByEmail. simpl. intros H.
  unfold wrapping in H.
  destruct (exec Pool _ _ w) as [o1 w1] eqn:E.
  destruct (exec_Pool_inv _ _ _ _ _ E) as (Ht & Hc & Hcase).
  assert (w1 = w') by (destruct o1; inversion H; reflexivity). subst w1.
  destruct Hcase as [(e & -> & Hs & Hl & _)|(-> & Hs & Hl & _)].
  - inversion H. subst. repeat split; auto. left. eexists. split; [reflexivity|]. exact Hl.
  - simpl in Hs. repeat split; auto. right.
    unfold sqlcgen.GetUserByEmail in H. simpl in H.
    unfold stored_user. split; [|exact Hl].
    destruct (find _ _); simpl in *; inversion H; reflexivity.
Qed.

Lemma cancel_rows_user t userID d u :
  In u (users (cancel_rows t userID d)) -> User_ID u = userID ->
  User_DeletionScheduledAt u = None.
Proof.
  unfold cancel_rows. simpl. intros Hin Hid.
  apply in_map_iff in Hin. destruct Hin as (u0 & Hu & _).
  destruct (Nat.eqb (User_ID u0) userID) eqn:E.
  - subst u. reflexivity.
  - subst u. apply Nat.eqb_neq in E. contradiction.
Qed.

(** The runs of a login for a stored user with a deletion scheduled. *)
Lemma Create_pending_inv cfg ctx email password w u at_ o w' :
  stored_user w email = Some u ->
  User_DeletionScheduledAt u = Some at_ ->
  SessionService_Create (ProvideSessionService cfg) ctx email password w = (o, w') ->
  (exists e, o = Fail (eris_Wrap (eris_Wrap e "failed to get user by email")
                         "failed to get user by email")
             /\ store w' = store w) \/
  (o = Fail ErrInvalidCredentials /\ store w' = store w) \/
  (bcrypt_matches (User_PasswordHash u) password = true /\
   ((exists e, o = Fail (eris_Wrap (eris_Wrap e "failed to cancel user deletion")
                           "failed to cancel deletion")
               /\ store w' = store w) \/
    (exists t l,
        users (store w') = users (cancel_rows t (User_ID u) (store w))
        /\ txns w' = txns w
        /\ log w' = (l ++ EvQuery Pool "CancelUserDeletion"
                        :: EvQuery Pool "GetUserByEmail" :: log w)%list
        /\ (l = [] \/ l = [EvQuery Pool "CreateAuthToken"]
            \/ exists e, l = [EvFault "CreateAuthToken" e])
        /\ ((exists token, o = Ret (clear_deletion u, token)) \/
            (exists e, o = Fail (eris_Wrap e "failed to generate token")) \/
            (exists v, o = Panic v))))).
Proof.
  intros Hu Hat H. unfold SessionService_Create in H. simpl in H.
  apply bind_inv in H. destruct H as [(x & w1 & Hget & H)|(_ & o1 & Hget & Hn)].
  2:{ exfalso. unfold try in Hget.
      destruct (UserRepository_GetByEmail _ _ w) as [[a|e|v] w2] eqn:E;
        inversion Hget; subst; try (eapply Hn; reflexivity).
      destruct (GetByEmail_inv _ _ _ _ E) as (_ & _ & _ & [(e & C & _)|(C & _)]).
      - discriminate.
      - rewrite Hu in C. discriminate. }
  apply try_Ret_inv in Hget.
  destruct Hget as [(a & -> & Hget)|(e & -> & Hget)];
    destruct (GetByEmail_inv _ _ _ _ Hget) as (Hs1 & Ht1 & Hc1 & Hcase).
  2:{ destruct Hcase as [(e0 & C & _)|(C & _)].
      - injection C as ->.
        destruct (eris_Is (eris_Wrap e0 "failed to get user by email") sql_ErrNoRows);
          inversion H; subst; [right; left; auto | left; eauto].
      - rewrite Hu in C. discriminate. }
  destruct Hcase as [(e & C & _)|(C & Hl1)]; [discriminate|].
  rewrite Hu in C. injection C as C. subst a.
  destruct (bcrypt_matches (User_PasswordHash u) password) eqn:Epw; simpl in H.
  2:{ right. left. inversion H. subst. auto. }
  right. right. split; [reflexivity|].
  rewrite Hat in H. simpl in H. pose proof H as H0.
  apply bind_inv in H. destruct H as [(user & w2 & Hcancel & H)|(_ & o1 & Hcancel & Hn)].
  - apply bind_inv in Hcancel.
    destruct Hcancel as [(x & w3 & Hc & Hret)|(C & _)];
      [|exfalso; eapply C; reflexivity].
    apply ret_inv' in Hret. destruct Hret as (Hret & <-). injection Hret as Hret.
    subst user.
    apply wrapping_Ret_inv in Hc. unfold UserRepository_CancelDeletion in Hc. simpl in Hc.
    destruct (pool_method_inv _ _ (fun now => sqlcgen.CancelUserDeletion now (User_ID u))
                _ _ _ Hc) as (Ht2 & [(e & C & _)|(Hs2 & Hl2 & _)]); [discriminate|].
    right. exists (clock w1).
    simpl in H. unfold bind, wrapping in H.
    destruct (SessionService_generateToken (ProvideSessionService cfg) (User_ID u) w3)
      as [o3 w4] eqn:Eg.
    destruct (generateToken_inv _ _ _ _ _ Eg) as (Hu3 & Ht3 & Hl3).
    assert (Hw : w' = w4) by (destruct o3; inversion H; reflexivity). subst w4.
    assert (Hlog : exists l,
               log w' = (l ++ EvQuery Pool "CancelUserDeletion"
                           :: EvQuery Pool "GetUserByEmail" :: log w)%list
               /\ (l = [] \/ l = [EvQuery Pool "CreateAuthToken"]
                   \/ exists e, l = [EvFault "CreateAuthToken" e])).
    { destruct Hl3 as [Hl3|[Hl3|(e & Hl3)]].
      - exists []. split; [simpl; congruence | auto].
      - exists [EvQuery Pool "CreateAuthToken"]. split; [simpl; congruence | auto].
      - exists [EvFault "CreateAuthToken" e]. split; [simpl; congruence | eauto]. }
    destruct Hlog as (l & Hlog & Hl).
    exists l. split.
    { rewrite Hu3, Hs2, Hs1. reflexivity. }
    split; [congruence|]. split; [exact Hlog|]. split; [exact Hl|].
    destruct o3 as [token|e|v]; inversion H; subst; eauto.
  - left. pose proof Hcancel as Hcancel0. pose proof Hcancel as Hcancel1.
    apply bind_inv in Hcancel.
    destruct Hcancel as [(x & w3 & Hc & Hret)|(_ & o2 & Hc & _)].
    { exfalso. apply ret_inv' in Hret. destruct Hret as (-> & _). eapply Hn. reflexivity. }
    pose proof Hc as Hc0.
    apply wrapping_inv in Hc. destruct Hc as (o3 & Hc & _).
    unfold UserRepository_CancelDeletion in Hc. simpl in Hc.
    unfold wrapping in Hc0.
    unfold UserRepository_CancelDeletion in Hc0. simpl in Hc0. rewrite Hc in Hc0.
    destruct (pool_method_inv _ _ (fun now => sqlcgen.CancelUserDeletion now (User_ID u))
                _ _ _ Hc) as (Ht2 & [(e & -> & Hs2 & _)|(_ & _ & Ho3)]).
    + exists e. injection Hc0 as <-.
      unfold UserRepository_CancelDeletion in Hcancel0. simpl in Hcancel0.
      unfold bind at 1 in Hcancel0. unfold wrapping at 1 in Hcancel0.
      rewrite Hc in Hcancel0. injection Hcancel0 as <-.
      rewrite (bind_stop _ _ _ _ _ Hcancel1) in H0.
      injection H0 as <-. split; [reflexivity | congruence].
    + exfalso. simpl in Ho3. subst o3. injection Hc0 as <-. eapply Hn.
      unfold UserRepository_CancelDeletion in Hcancel0. simpl in Hcancel0.
      unfold bind at 1 in Hcancel0. unfold wrapping at 1 in Hcancel0.
      rewrite Hc in Hcancel0. injection Hcancel0 as <-. reflexivity.
Qed.

Lemma cancel_rows_keeps_user t w email u :
  stored_user w email = Some u ->
  exists u', In u' (users (cancel_rows t (User_ID u) (store w)))
             /\ User_ID u' = User_ID u.
Proof.
  unfold stored_user, cancel_rows. simpl. intros H. apply find_some in H.
  destruct H as (Hin & _). eexists. split.
  - apply in_map. exact Hin.
  - rewrite Nat.eqb_refl. reflexivity.
Qed.

(** C7. A login that succeeds for a user whose deletion is scheduled
    had the right password, returns the user record with the schedule
    cleared, and leaves [deletion_scheduled_at] null in the stored row. *)
Theorem C7_login_cancels_deletion cfg ctx email password w u at_ user token w' :
  stored_user w email = Some u ->
  User_DeletionScheduledAt u = Some at_ ->
  SessionService_Create (ProvideSessionService cfg) ctx email password w
    = (Ret (user, token), w') ->
  bcrypt_matches (User_PasswordHash u) password = true /\
  user = clear_deletion u /\
  User_DeletionScheduledAt user = None /\
  (forall u', In u' (users (store w')) -> User_ID u' = User_ID u ->
              User_DeletionScheduledAt u' = None) /\
  (exists u', In u' (users (store w')) /\ User_ID u' = User_ID u).
Proof.
  intros Hu Hat H.
  destruct (Create_pending_inv _ _ _ _ _ _ _ _ _ Hu Hat H)
    as [(e & C & _)|[(C & _)|(Hpw & [(e & C & _)|(t & l & Hus & _ & _ & _ & Ho)])]];
    try discriminate.
  split; [assumption|].
  assert (Huser : user = clear_deletion u).
  { destruct Ho as [(tok & Ho)|[(e & Ho)|(v & Ho)]]; try discriminate.
    injection Ho as -> _. reflexivity. }
  split; [assumption|]. split; [subst user; reflexivity|].
  rewrite Hus. split.
  - intros u'. apply cancel_rows_user.
  - apply cancel_rows_keeps_user with (email := email). assumption.
Qed.

(** C10. When a login for a user whose deletion is scheduled fails at
    issuing the session token, the password was right and the
    cancellation had already run on the pool, outside any transaction and
    before the insert of the token: the stored row has
    [deletion_scheduled_at] null although [Create] returns an error. *)
Theorem C10_cancellation_outlives_token_failure cfg ctx email password w u at_ e w' :
  stored_user w email = Some u ->
  User_DeletionScheduledAt u = Some at_ ->
  SessionService_Create (ProvideSessionService cfg) ctx email password w
    = (Fail (eris_Wrap e "failed to generate token"), w') ->
  bcrypt_matches (User_PasswordHash u) password = true /\
  (forall u', In u' (users (store w')) -> User_ID u' = User_ID u ->
              User_DeletionScheduledAt u' = None) /\
  (exists u', In u' (users (store w')) /\ User_ID u' = User_ID u) /\
  txns w' = txns w /\
  exists l,
    log w' = (l ++ EvQuery Pool "CancelUserDeletion"
                :: EvQuery Pool "GetUserByEmail" :: log w)%list
    /\ (l = [] \/ l = [EvQuery Pool "CreateAuthToken"]
        \/ exists e', l = [EvFault "CreateAuthToken" e']).
Proof.
  intros Hu Hat H.
  destruct (Create_pending_inv _ _ _ _ _ _ _ _ _ Hu Hat H)
    as [(e0 & C & _)|[(C & _)|(Hpw & [(e0 & C & _)|(t & l & Hus & Ht & Hl & Hl' & _)])]];
    try discriminate.
  split; [assumption|]. rewrite Hus.
  split; [intros u'; apply cancel_rows_user|].
  split; [apply cancel_rows_keeps_user with (email := email); assumption|].
  split; [assumption|].
  exists l. auto.
Qed.

(** *** PasswordResetService.Create *)


Lemma rand_Read_outcome n w o w' :
  rand_Read n w = (o, w') -> (exists bs, o = Ret bs) \/ (exists e, o = Fail e).
Proof.
  unfold rand_Read. destruct (entropy w) as [|[e|bs] es]; intros H; inversion H; eauto.
Qed.

Lemma exec_Pool_outcome {A} name (q : Stmt A) w o w' :
  exec Pool name q w = (o, w') -> (exists a, o = Ret a) \/ (exists e, o = Fail e).
Proof.
  intros H. destruct (exec_Pool_inv _ _ _ _ _ H) as (_ & _ & [(e & -> & _)|(-> & _)]).
  - eauto.
  - destruct (fst (q (store w))); simpl; eauto.
Qed.



(** *** CleanupTask.Handle *)

(** One wrapped repository method on the pool, followed by the rest of
    the function: the driver failed, the server refused the statement, or
    the statement ran at the clock reading and the rest follows. *)
Lemma pool_step_inv {A B} msg' msg name (q : Time -> Stmt A) (k : A -> M B) w o w' :
  (x <- wrapping msg' (now <- time_Now ;; wrapping msg (exec Pool name (q now))) ;; k x) w
    = (o, w') ->
  (exists e, o = Fail (eris_Wrap (eris_Wrap e msg) msg') /\ store w' = store w
             /\ log w' = EvFault name e :: log w) \/
  (exists e, fst (q (clock w) (store w)) = inl e
             /\ o = Fail (eris_Wrap (eris_Wrap e msg) msg')) \/
  (exists a w1, fst (q (clock w) (store w)) = inr a
                /\ store w1 = snd (q (clock w) (store w))
                /\ log w1 = EvQuery Pool name :: log w
                /\ clock w <= clock w1
                /\ k a w1 = (o, w')).
Proof.
  unfold bind at 1. unfold wrapping at 1.
  destruct ((now <- time_Now ;; wrapping msg (exec Pool name (q now))) w)
    as [o1 w1] eqn:Em.
  pose proof Em as Em0.
  destruct (pool_method_inv _ _ _ _ _ _ Em) as (_ & [(e & -> & Hs & Hl)|(Hs & Hl & ->)]).
  - intros H. inversion H. subst. left. exists e. auto.
  - destruct (fst (q (clock w) (store w))) as [e|a] eqn:Eq.
    + intros H. inversion H. subst. right. left. exists e. auto.
    + intros H. right. right. exists a, w1. repeat split; auto.
      unfold bind in Em0. destruct (time_Now w) as [o2 w2] eqn:En.
      destruct (time_Now_inv _ _ _ En) as (-> & _ & _ & _ & Hc).
      unfold wrapping in Em0.
      destruct (exec Pool name (q (clock w)) w2) as [o3 w3] eqn:Ee.
      destruct (exec_Pool_inv _ _ _ _ _ Ee) as (_ & Hc3 & _).
      assert (w1 = w3) by (destruct o3; inversion Em0; reflexivity). subst w3. lia.
Qed.


(** What the purges keep. *)
Lemma purge_auth_tokens_spec now d t :
  In t (auth_tokens (purge_auth_tokens now d)) <->
  In t (auth_tokens d) /\ now <= AuthToken_ExpiresAt t /\ AuthToken_RevokedAt t = None.
Proof.
  unfold purge_auth_tokens. simpl. rewrite filter_In.
  unfold sqlcgen.auth_token_stale.
  destruct (AuthToken_RevokedAt t); simpl;
    destruct (Z.ltb_spec (AuthToken_ExpiresAt t) now); simpl;
    split; intros (H1 & H2); split; try assumption; try discriminate;
    try (destruct H2; discriminate); try (split; [lia | reflexivity]); try reflexivity;
    destruct H2; lia.
Qed.

Lemma purge_password_resets_spec now d r :
  In r (password_resets (purge_password_resets now d)) <->
  In r (password_resets d) /\ now <= PasswordReset_ExpiresAt r
  /\ PasswordReset_UsedAt r = None.
Proof.
  unfold purge_password_resets. simpl. rewrite filter_In.
  unfold sqlcgen.password_reset_stale.
  destruct (PasswordReset_UsedAt r); simpl;
    destruct (Z.ltb_spec (PasswordReset_ExpiresAt r) now); simpl;
    split; intros (H1 & H2); split; try assumption; try discriminate;
    try (destruct H2; discriminate); try (split; [lia | reflexivity]); try reflexivity;
    destruct H2; lia.
Qed.

Lemma purge_email_verifications_spec now d v :
  In v (email_verifications (purge_email_verifications now d)) <->
  In v (email_verifications d) /\ now <= EmailVerification_ExpiresAt v
  /\ EmailVerification_UsedAt v = None.
Proof.
  unfold purge_email_verifications. simpl. rewrite filter_In.
  unfold sqlcgen.email_verification_stale.
  destruct (EmailVerification_UsedAt v); simpl;
    destruct (Z.ltb_spec (EmailVerification_ExpiresAt v) now); simpl;
    split; intros (H1 & H2); split; try assumption; try discriminate;
    try (destruct H2; discriminate); try (split; [lia | reflexivity]); try reflexivity;
    destruct H2; lia.
Qed.

Lemma purge_users_spec now d u :
  In u (users (purge_users now d)) <->
  In u (users d) /\ (forall at_, User_DeletionScheduledAt u = Some at_ -> now < at_).
Proof.
  unfold purge_users. simpl. rewrite filter_In. unfold sqlcgen.deletion_due.
  destruct (User_DeletionScheduledAt u) as [a|]; simpl.
  - destruct (Z.leb_spec a now); simpl; split; intros (H1 & H2); split;
      try assumption; try discriminate; try reflexivity.
    + specialize (H2 a eq_refl). lia.
    + intros at_ Hat. injection Hat as <-. lia.
  - split; intros (H1 & H2); split; try assumption; try reflexivity.
    intros at_ Hat. discriminate.
Qed.

(** *** Token lifetimes *)

Lemma CreateAuthToken_ok id userID tokenHash expiresAt createdAt d :
  fst (sqlcgen.CreateAuthToken id userID tokenHash expiresAt createdAt d) = inr tt ->
  auth_tokens (snd (sqlcgen.CreateAuthToken id userID tokenHash expiresAt createdAt d))
  = (auth_tokens d ++ [mkAuthToken id userID tokenHash expiresAt None createdAt])%list.
Proof.
  unfold sqlcgen.CreateAuthToken.
  repeat match goal with |- context [if ?b then _ else _] => destruct b end;
    simpl; intros H; try discriminate; reflexivity.
Qed.

(** A session token that was issued is stored with the expiry
    [now + ttl], where an unset (zero) [AuthTokenTTL] stands for
    [DefaultAuthTokenTTL]. *)
Lemma generateToken_Ret_inv cfg userID w token w' :
  SessionService_generateToken (ProvideSessionService cfg) userID w = (Ret token, w') ->
  exists id createdAt,
    auth_tokens (store w')
    = (auth_tokens (store w)
       ++ [mkAuthToken id userID (HashToken token)
             (Time_Add (clock w)
                (if AuthTokenTTL (Auth cfg) =? 0
                 then DefaultAuthTokenTTL else AuthTokenTTL (Auth cfg)))
             None createdAt])%list.
Proof.
  unfold SessionService_generateToken. simpl. intros H.
  apply bind_Ret_inv in H. destruct H as (tok & w1 & Hg & H).
  apply wrapping_Ret_inv in Hg.
  destruct (GenerateSecureToken_inv _ _ _ _ Hg) as (Hs1 & _ & _ & Hc1).
  apply bind_Ret_inv in H. destruct H as (now & w2 & Hnow & H).
  destruct (time_Now_inv _ _ _ Hnow) as (Hn & Hs2 & _).
  injection Hn as Hn. subst now.
  apply bind_Ret_inv in H. destruct H as (x & w3 & Hc & H).
  apply ret_inv in H. destruct H as (-> & ->).
  apply wrapping_Ret_inv in Hc.
  unfold AuthTokenRepository_Create in Hc. simpl in Hc.
  apply bind_Ret_inv in Hc. destruct Hc as (id & w4 & Hid & Hc).
  destruct (uuid_New_inv _ _ _ Hid) as (_ & Hs4 & _).
  apply bind_Ret_inv in Hc. destruct Hc as (createdAt & w5 & Hnow5 & Hc).
  destruct (time_Now_inv _ _ _ Hnow5) as (_ & Hs5 & _).
  apply bind_Ret_inv in Hc. destruct Hc as (y & w6 & He & Hc).
  apply ret_inv in Hc. destruct Hc as (_ & ->).
  apply wrapping_Ret_inv in He.
  destruct (exec_Pool_inv _ _ _ _ _ He) as (_ & _ & [(e & C & _)|(Ho & Hs6 & _)]);
    [discriminate|].
  match type of Ho with
  | _ = of_sum (fst ?q) => destruct (fst q) as [e|[]] eqn:Eq; simpl in Ho; [discriminate|]
  end.
  exists id, createdAt. rewrite Hs6, (CreateAuthToken_ok _ _ _ _ _ _ Eq).
  assert (Hst : store w5 = store w) by congruence.
  rewrite Hst, Hc1. reflexivity.
Qed.

(** What [Load] puts in the configuration for the keys that neither the
    file nor the environment sets. *)
Lemma Load_defaults settings cfg :
  Load settings = Some cfg ->
  (lookup_key "auth.auth_token_ttl" settings = None -> AuthTokenTTL (Auth cfg) = 0) /\
  (lookup_key "auth.password_reset_token_ttl" settings = None ->
   PasswordResetTokenTTL (Auth cfg) = 1 * Hour) /\
  (lookup_key "auth.email_confirmation_token_ttl" settings = None ->
   EmailConfirmationTokenTTL (Auth cfg) = 24 * Hour).
Proof.
  unfold Load. destruct (Unmarshal settings) as [c|] eqn:E; [|discriminate].
  destruct (Validate c); [|discriminate]. intros H. injection H as ->.
  unfold Unmarshal, opt_bind in E.
  destruct (as_string (viper_Get settings "auth.secret")); [|discriminate].
  destruct (as_duration (viper_Get settings "auth.auth_token_ttl")) as [a|] eqn:E1;
    [|discriminate].
  destruct (as_duration (viper_Get settings "auth.password_reset_token_ttl"))
    as [r|] eqn:E2; [|discriminate].
  destruct (as_duration (viper_Get settings "auth.email_confirmation_token_ttl"))
    as [v|] eqn:E3; [|discriminate].
  destruct (as_duration (viper_Get settings "auth.account_deletion_delay"));
    [|discriminate].
  destruct (as_int (viper_Get settings "auth.bcrypt_cost")); [|discriminate].
  destruct (as_int (viper_Get settings "worker.email_max_retry")); [|discriminate].
  destruct (as_duration (viper_Get settings "worker.email_timeout")); [|discriminate].
  destruct (as_duration (viper_Get settings "worker.email_retention")); [|discriminate].
  destruct (as_string (viper_Get settings "app.base_url")); [|discriminate].
  injection E as <-. simpl.
  unfold viper_Get in E1, E2, E3.
  split; [|split]; intros Hnone.
  - rewrite Hnone in E1. vm_compute in E1. congruence.
  - rewrite Hnone in E2. vm_compute in E2. injection E2 as <-. reflexivity.
  - rewrite Hnone in E3. vm_compute in E3. injection E3 as <-. reflexivity.
Qed.

(** C8, as the code has it.  With the three time-to-live keys unset,
    [Load] yields one hour for password-reset tokens, twenty-four hours
    for email-verification tokens and zero for auth tokens; a session token
    issued under that configuration is stored with [expires_at] one year
    ([365 * 24] hours) after the clock reading, not without expiry. *)
Theorem C8_default_token_lifetimes settings cfg userID w token w' :
  Load settings = Some cfg ->
  lookup_key "auth.auth_token_ttl" settings = None ->
  lookup_key "auth.password_reset_token_ttl" settings = None ->
  lookup_key "auth.email_confirmation_token_ttl" settings = None ->
  SessionService_generateToken (ProvideSessionService cfg) userID w = (Ret token, w') ->
  PasswordResetTokenTTL (Auth cfg) = 1 * Hour /\
  EmailConfirmationTokenTTL (Auth cfg) = 24 * Hour /\
  AuthTokenTTL (Auth cfg) = 0 /\
  exists id createdAt,
    auth_tokens (store w')
    = (auth_tokens (store w)
       ++ [mkAuthToken id userID (HashToken token) (clock w + 365 * 24 * Hour)
             None createdAt])%list.
Proof.
  intros HL H1 H2 H3 Hg.
  destruct (Load_defaults _ _ HL) as (Ha & Hr & Hv).
  split; [auto|]. split; [auto|]. split; [auto|].
  destruct (generateToken_Ret_inv _ _ _ _ _ Hg) as (id & createdAt & Hrow).
  exists id, createdAt. rewrite Hrow, (Ha H1). reflexivity.
Qed.

(* ===================================================================== *)
(** ** Further properties of the code *)

(** *** The token codec *)

Lemma hex_digit_hex k : is_hex_char (hex_digit k) = true.
Proof.
  unfold is_hex_char, hex_digit. apply existsb_exists.
  destruct (nth_in_or_default (N.to_nat k) hextable "0"%char) as [Hin|Hd].
  - eexists. split; [exact Hin | apply Ascii.eqb_refl].
  - rewrite Hd. exists "0"%char. split; [left; reflexivity | reflexivity].
Qed.

Lemma hex_EncodeToString_length bs :
  String.length (hex_EncodeToString bs) = (2 * List.length bs)%nat.
Proof. induction bs as [|b r IH]; simpl; [reflexivity | rewrite IH; lia]. Qed.

Lemma hex_EncodeToString_alphabet bs :
  forallb is_hex_char (list_ascii_of_string (hex_EncodeToString bs)) = true.
Proof.
  induction bs as [|b r IH]; simpl; [reflexivity|].
  rewrite !hex_digit_hex, IH. reflexivity.
Qed.

Lemma fill_length n bs : List.length (fill n bs) = n.
Proof.
  unfold fill. rewrite firstn_length_le; [reflexivity|].
  rewrite length_app, repeat_length. lia.
Qed.

Lemma rand_Read_length n w bs w' :
  rand_Read n w = (Ret bs, w') -> List.length bs = n.
Proof.
  unfold rand_Read. destruct (entropy w) as [|[e|bs0] es]; intros H; inversion H;
    apply fill_length.
Qed.

Lemma GenerateSecureToken_Ret_length n w token w' :
  GenerateSecureToken n w = (Ret token, w') -> String.length token = (2 * n)%nat.
Proof.
  unfold GenerateSecureToken. intros H.
  apply bind_Ret_inv in H. destruct H as (bs & w1 & Hr & H).
  apply wrapping_Ret_inv in Hr. apply ret_inv in H. destruct H as (<- & _).
  rewrite hex_EncodeToString_length, (rand_Read_length _ _ _ _ Hr). reflexivity.
Qed.

(** X1. A token that [GenerateSecureToken(n)] returns has [2 * n]
    characters, all of them lower-case hexadecimal digits, and producing it
    touches no row. *)
Theorem X1_GenerateSecureToken_shape n w token w' :
  GenerateSecureToken n w = (Ret token, w') ->
  String.length token = (2 * n)%nat /\
  forallb is_hex_char (list_ascii_of_string token) = true /\
  store w' = store w /\ log w' = log w.
Proof.
  intros H. destruct (GenerateSecureToken_inv _ _ _ _ H) as (Hs & _ & Hl & _).
  split; [exact (GenerateSecureToken_Ret_length _ _ _ _ H)|].
  split; [|auto].
  unfold GenerateSecureToken in H.
  apply bind_Ret_inv in H. destruct H as (bs & w1 & Hr & H).
  apply ret_inv in H. destruct H as (<- & _).
  apply hex_EncodeToString_alphabet.
Qed.

(** *** Sessions: issuing, validating, logging out *)

Lemma CreateAuthToken_fresh id userID tokenHash expiresAt createdAt d :
  fst (sqlcgen.CreateAuthToken id userID tokenHash expiresAt createdAt d) = inr tt ->
  existsb (fun t => String.eqb (AuthToken_TokenHash t) tokenHash) (auth_tokens d) = false
  /\ sqlcgen.user_exists userID d = true.
Proof.
  unfold sqlcgen.CreateAuthToken.
  destruct (existsb (fun t => Nat.eqb (AuthToken_ID t) id) (auth_tokens d));
    [discriminate|].
  destruct (existsb _ (auth_tokens d)); [discriminate|].
  destruct (sqlcgen.user_exists userID d); [auto | discriminate].
Qed.

Lemma find_app_fresh {A} (p : A -> bool) l x :
  existsb p l = false -> p x = true -> find p (l ++ [x]) = Some x.
Proof.
  induction l as [|a l IH]; simpl; intros H Hx.
  - rewrite Hx. reflexivity.
  - apply orb_false_iff in H. destruct H as (Ha & Hl). rewrite Ha. auto.
Qed.

Lemma find_existsb_false {A} (p : A -> bool) l : find p l = None <-> existsb p l = false.
Proof.
  induction l as [|a l IH]; simpl; [tauto|].
  destruct (p a); simpl; [split; discriminate | exact IH].
Qed.

(** The insert behind a session token that was issued. *)
Lemma generateToken_Ret_insert cfg userID w token w' :
  SessionService_generateToken (ProvideSessionService cfg) userID w = (Ret token, w') ->
  exists id createdAt,
    let q := sqlcgen.CreateAuthToken id userID (HashToken token)
               (Time_Add (clock w) (effective_ttl cfg)) createdAt in
    fst (q (store w)) = inr tt /\ store w' = snd (q (store w)) /\ clock w <= clock w'.
Proof.
  unfold SessionService_generateToken. simpl. intros H.
  apply bind_Ret_inv in H. destruct H as (tok & w1 & Hg & H).
  apply wrapping_Ret_inv in Hg.
  destruct (GenerateSecureToken_inv _ _ _ _ Hg) as (Hs1 & _ & _ & Hc1).
  apply bind_Ret_inv in H. destruct H as (now & w2 & Hnow & H).
  destruct (time_Now_inv _ _ _ Hnow) as (Hn & Hs2 & _ & _ & Hc2).
  injection Hn as Hn. subst now.
  apply bind_Ret_inv in H. destruct H as (x & w3 & Hc & H).
  apply ret_inv in H. destruct H as (-> & ->).
  apply wrapping_Ret_inv in Hc.
  unfold AuthTokenRepository_Create in Hc. simpl in Hc.
  apply bind_Ret_inv in Hc. destruct Hc as (id & w4 & Hid & Hc).
  destruct (uuid_New_inv _ _ _ Hid) as (_ & Hs4 & _ & _ & Hc4).
  apply bind_Ret_inv in Hc. destruct Hc as (createdAt & w5 & Hnow5 & Hc).
  destruct (time_Now_inv _ _ _ Hnow5) as (_ & Hs5 & _ & _ & Hc5).
  apply bind_Ret_inv in Hc. destruct Hc as (y & w6 & He & Hc).
  apply ret_inv in Hc. destruct Hc as (_ & ->).
  apply wrapping_Ret_inv in He.
  destruct (exec_Pool_inv _ _ _ _ _ He) as (_ & Hc6 & [(e & C & _)|(Ho & Hs6 & _)]);
    [discriminate|].
  assert (Hst : store w5 = store w) by congruence.
  rewrite Hst in Ho, Hs6. rewrite Hc1 in Ho, Hs6.
  exists id, createdAt. cbv zeta. unfold effective_ttl.
  split; [|split; [exact Hs6 | lia]].
  match type of Ho with
  | _ = of_sum (fst ?q) => destruct (fst q) as [e|[]]; simpl in Ho; [discriminate|]
  end.
  reflexivity.
Qed.

(** The row a session token is stored under once it was issued. *)
Lemma generateToken_Ret_stored cfg userID w token w' :
  SessionService_generateToken (ProvideSessionService cfg) userID w = (Ret token, w') ->
  exists t,
    stored_auth_token w' token = Some t
    /\ AuthToken_UserID t = userID
    /\ AuthToken_TokenHash t = HashToken token
    /\ AuthToken_ExpiresAt t = clock w + effective_ttl cfg
    /\ AuthToken_RevokedAt t = None
    /\ stored_auth_token w token = None
    /\ sqlcgen.user_exists userID (store w) = true
    /\ users (store w') = users (store w).
Proof.
  intros H. destruct (generateToken_Ret_insert _ _ _ _ _ H) as (id & createdAt & Hok & Hs & _).
  cbv zeta in Hok, Hs.
  destruct (CreateAuthToken_fresh _ _ _ _ _ _ Hok) as (Hfresh & Huser).
  pose proof (CreateAuthToken_ok _ _ _ _ _ _ Hok) as Hrows.
  eexists. unfold stored_auth_token. rewrite Hs, Hrows.
  split; [apply find_app_fresh; [exact Hfresh | simpl; apply String.eqb_refl]|].
  simpl. repeat split; auto.
  - apply find_existsb_false. exact Hfresh.
  - apply CreateAuthToken_users.
Qed.

Lemma stored_auth_token_rows w w' token :
  auth_tokens (store w') = auth_tokens (store w) ->
  stored_auth_token w' token = stored_auth_token w token.
Proof. unfold stored_auth_token. intros ->. reflexivity. Qed.

(** X2. A session token issued by [CreateForUser] is stored under its
    hash only, for the user it was issued to, unrevoked, with the expiry
    [now + ttl]; presented in any later state of the token table in which
    the lookup is answered, it validates as that row as long as the clock
    has not passed the expiry, and is refused as expired afterwards. *)
Theorem X2_issued_token_validates cfg ctx userID w token w' w2 :
  SessionService_CreateForUser (ProvideSessionService cfg) ctx userID w = (Ret token, w') ->
  answered w2 ->
  auth_tokens (store w2) = auth_tokens (store w') ->
  exists t,
    AuthToken_UserID t = userID /\
    AuthToken_TokenHash t = HashToken token /\
    AuthToken_ExpiresAt t = clock w + effective_ttl cfg /\
    fst (SessionService_ValidateToken (ProvideSessionService cfg) ctx token w2)
    = if clock w2 <=? AuthToken_ExpiresAt t then Ret t else Fail ErrTokenExpired.
Proof.
  unfold SessionService_CreateForUser. intros H Ha Hrows.
  destruct (generateToken_Ret_stored _ _ _ _ _ H)
    as (t & Hst & Hu & Hh & He & Hr & _).
  exists t. split; [assumption|]. split; [assumption|]. split; [assumption|].
  rewrite (ValidateToken_answered cfg ctx token w2 Ha).
  rewrite (stored_auth_token_rows _ _ _ Hrows), Hst.
  unfold validate_result, Time_After. rewrite Hr. simpl.
  destruct (Z.ltb_spec (AuthToken_ExpiresAt t) (clock w2));
    destruct (Z.leb_spec (clock w2) (AuthToken_ExpiresAt t)); try reflexivity; lia.
Qed.

Lemma find_map_same {A} (p : A -> bool) (f : A -> A) l :
  (forall x, p (f x) = p x) -> find p (map f l) = option_map f (find p l).
Proof.
  intros Hp. induction l as [|a l IH]; simpl; [reflexivity|].
  rewrite Hp. destruct (p a); [reflexivity | exact IH].
Qed.

Lemma existsb_map_same {A} (p : A -> bool) (f : A -> A) l :
  (forall x, p (f x) = p x) -> existsb p (map f l) = existsb p l.
Proof.
  intros Hp. induction l as [|a l IH]; simpl; [reflexivity|].
  rewrite Hp, IH. reflexivity.
Qed.

Lemma map_unchanged {A} (f : A -> A) l : (forall x, In x l -> f x = x) -> map f l = l.
Proof.
  intros H. rewrite <- (map_id l) at 2. apply map_ext_in. exact H.
Qed.

(** The runs of [SessionService.Delete]. *)
Lemma Delete_inv cfg ctx token w o w' :
  SessionService_Delete (ProvideSessionService cfg) ctx token w = (o, w') ->
  txns w' = txns w /\
  ((exists e, o = Fail (eris_Wrap (eris_Wrap e "failed to revoke auth token by hash")
                          "failed to revoke token")
              /\ store w' = store w
              /\ log w' = EvFault "RevokeAuthTokenByHash" e :: log w) \/
   (o = Ret tt
    /\ store w' = snd (sqlcgen.RevokeAuthTokenByHash (Some (clock w)) (HashToken token)
                         (store w))
    /\ log w' = EvQuery Pool "RevokeAuthTokenByHash" :: log w)).
Proof.
  unfold SessionService_Delete, AuthTokenRepository_RevokeByHash. simpl.
  unfold wrapping at 1.
  match goal with
  | |- context [bind time_Now ?k w] => destruct (bind time_Now k w) as [o1 w1] eqn:E
  end.
  destruct (pool_method_inv _ _
              (fun now => sqlcgen.RevokeAuthTokenByHash (Some now) (HashToken token))
              _ _ _ E) as (Ht & [(e & -> & Hs & Hl)|(Hs & Hl & ->)]); intros H.
  - inversion H. subst. split; [assumption|]. left. exists e. auto.
  - simpl in H. inversion H. subst. split; [assumption|]. right. auto.
Qed.

Lemma RevokeAuthTokenByHash_stored at_ hash d token :
  find (fun t => String.eqb (AuthToken_TokenHash t) (HashToken token))
       (auth_tokens (snd (sqlcgen.RevokeAuthTokenByHash (Some at_) hash d)))
  = option_map (fun t => if String.eqb (AuthToken_TokenHash t) hash
                         then revoked_at at_ t else t)
      (find (fun t => String.eqb (AuthToken_TokenHash t) (HashToken token)) (auth_tokens d)).
Proof.
  unfold sqlcgen.RevokeAuthTokenByHash, sqlcgen.revoke_where. simpl.
  apply find_map_same. intros x.
  destruct (String.eqb (AuthToken_TokenHash x) hash); reflexivity.
Qed.

(** X3. After a logout that returned nil, the row of the token carries
    [revoked_at], set to the clock reading of the call; the token is
    refused from then on ([ErrTokenRevoked], or [ErrInvalidToken] if it
    never was stored); the sessions stored under other hashes and the users
    are what they were. *)
Theorem X3_logout_revokes cfg ctx token w w' :
  SessionService_Delete (ProvideSessionService cfg) ctx token w = (Ret tt, w') ->
  (forall t, stored_auth_token w token = Some t ->
     stored_auth_token w' token = Some (revoked_at (clock w) t)) /\
  (forall ctx2 w2, answered w2 -> auth_tokens (store w2) = auth_tokens (store w') ->
     fst (SessionService_ValidateToken (ProvideSessionService cfg) ctx2 token w2)
     = match stored_auth_token w token with
       | Some _ => Fail ErrTokenRevoked
       | None => Fail ErrInvalidToken
       end) /\
  (forall token', HashToken token' <> HashToken token ->
     stored_auth_token w' token' = stored_auth_token w token') /\
  users (store w') = users (store w).
Proof.
  intros H. destruct (Delete_inv _ _ _ _ _ _ H) as (_ & [(e & C & _)|(_ & Hs & _)]);
    [discriminate|].
  assert (Hst : forall tok,
            stored_auth_token w' tok
            = option_map (fun t => if String.eqb (AuthToken_TokenHash t) (HashToken token)
                                   then revoked_at (clock w) t else t)
                (stored_auth_token w tok)).
  { intros tok. unfold stored_auth_token. rewrite Hs.
    apply RevokeAuthTokenByHash_stored. }
  assert (Hthis : forall t, stored_auth_token w token = Some t ->
            stored_auth_token w' token = Some (revoked_at (clock w) t)).
  { intros t Ht. rewrite Hst, Ht. simpl.
    unfold stored_auth_token in Ht. apply find_some in Ht. destruct Ht as (_ & Ht).
    rewrite Ht. reflexivity. }
  split; [exact Hthis|]. split; [|split].
  - intros ctx2 w2 Ha Hrows.
    rewrite (ValidateToken_answered cfg ctx2 token w2 Ha).
    rewrite (stored_auth_token_rows _ _ _ Hrows).
    destruct (stored_auth_token w token) as [t|] eqn:Et.
    + rewrite (Hthis t eq_refl). reflexivity.
    + rewrite Hst, Et. reflexivity.
  - intros token' Hne. rewrite Hst.
    destruct (stored_auth_token w token') as [t|] eqn:Et; [|reflexivity].
    simpl. unfold stored_auth_token in Et. apply find_some in Et. destruct Et as (_ & Et).
    apply String.eqb_eq in Et.
    destruct (String.eqb_spec (AuthToken_TokenHash t) (HashToken token)) as [E|E];
      [congruence | reflexivity].
  - rewrite Hs. reflexivity.
Qed.

Lemma time_Now_answered w o w' : time_Now w = (o, w') -> answered w -> answered w'.
Proof.
  unfold time_Now, answered, next_fault. intros H Ha.
  destruct (ticks w); inversion H; subst; simpl; [exact Ha|].
  destruct (faults w); exact Ha.
Qed.

Lemma set_auth_tokens_same d : set_auth_tokens d (auth_tokens d) = d.
Proof. destruct d. reflexivity. Qed.

(** X4. A logout whose statement the server answers returns nil whatever
    the token is; when no session is stored under the hash of the token it
    changes no row. *)
Theorem X4_logout_always_succeeds cfg ctx token w :
  answered w ->
  fst (SessionService_Delete (ProvideSessionService cfg) ctx token w) = Ret tt /\
  (stored_auth_token w token = None ->
   store (snd (SessionService_Delete (ProvideSessionService cfg) ctx token w)) = store w).
Proof.
  intros Ha.
  destruct (SessionService_Delete (ProvideSessionService cfg) ctx token w) as [o w'] eqn:E.
  pose proof E as E0.
  destruct (Delete_inv _ _ _ _ _ _ E) as (_ & [(e & -> & _ & Hl)|(-> & Hs & _)]).
  - exfalso. clear E.
    unfold SessionService_Delete, AuthTokenRepository_RevokeByHash in E0. simpl in E0.
    unfold wrapping, bind in E0.
    destruct (time_Now w) as [o1 w1] eqn:En.
    pose proof (time_Now_answered _ _ _ En Ha) as Ha1.
    destruct (time_Now_inv _ _ _ En) as (-> & _).
    rewrite (exec_Pool_answered _ _ _ Ha1) in E0. simpl in E0.
    discriminate E0.
  - simpl. split; [reflexivity|]. intros Hnone. rewrite Hs.
    unfold sqlcgen.RevokeAuthTokenByHash, sqlcgen.revoke_where. simpl.
    rewrite map_unchanged; [apply set_auth_tokens_same|].
    intros x Hin. unfold stored_auth_token in Hnone.
    pose proof (find_none _ _ Hnone x Hin) as Hx. simpl in Hx. rewrite Hx. reflexivity.
Qed.

(** *** Outcomes: wrapped errors and the absence of panics *)

Lemma tame_no_panic {A} (o : outcome A) : tame o -> no_panic o.
Proof. destruct o; simpl; auto. Qed.

Lemma time_Now_no_panic w o w' : time_Now w = (o, w') -> no_panic o.
Proof. intros H. destruct (time_Now_inv _ _ _ H) as (-> & _). exact I. Qed.

Lemma uuid_New_no_panic w o w' : uuid_New w = (o, w') -> no_panic o.
Proof. intros H. destruct (uuid_New_inv _ _ _ H) as (-> & _). exact I. Qed.

Lemma rand_Read_no_panic n w o w' : rand_Read n w = (o, w') -> no_panic o.
Proof.
  intros H. destruct (rand_Read_outcome _ _ _ _ H) as [(bs & ->)|(e & ->)]; exact I.
Qed.

Lemma exec_no_panic {A} h name (q : Stmt A) w o w' : exec h name q w = (o, w') -> no_panic o.
Proof.
  destruct h as [|tx]; intros H.
  - destruct (exec_Pool_outcome _ _ _ _ _ H) as [(a & ->)|(e & ->)]; exact I.
  - destruct (exec_InTx_inv _ _ _ _ _ _ H) as (_ & _ & [C|[C|C]]).
    + destruct C as (-> & _). exact I.
    + destruct C as (d & e & _ & -> & _). exact I.
    + destruct C as (d & _ & -> & _). destruct (fst (q d)); exact I.
Qed.

(** [if err != nil { return eris.Wrap(err, msg) }] around a call that
    does not panic gives nil or a wrapped error. *)
Lemma wrapping_tame {A} msg (m : M A) w o w' :
  wrapping msg m w = (o, w') ->
  (forall o0 w0, m w = (o0, w0) -> no_panic o0) ->
  tame o.
Proof.
  unfold wrapping. intros H Hm.
  destruct (m w) as [[a|e|v] w1] eqn:E; inversion H; subst; simpl; auto.
  exact (Hm _ _ eq_refl).
Qed.

Lemma bind_tame {A B} (m : M A) (k : A -> M B) w o w' :
  bind m k w = (o, w') ->
  (forall o1 w1, m w = (o1, w1) -> tame o1) ->
  (forall a w1 o2 w2, m w = (Ret a, w1) -> k a w1 = (o2, w2) -> tame o2) ->
  tame o.
Proof.
  unfold bind. intros H Hm Hk.
  destruct (m w) as [[a|e|v] w1] eqn:E.
  - exact (Hk _ _ _ _ eq_refl H).
  - inversion H. subst. exact (Hm _ _ eq_refl).
  - inversion H. subst. exact (Hm _ _ eq_refl).
Qed.

Lemma bind_no_panic {A B} (m : M A) (k : A -> M B) w o w' :
  bind m k w = (o, w') ->
  (forall o1 w1, m w = (o1, w1) -> no_panic o1) ->
  (forall a w1 o2 w2, m w = (Ret a, w1) -> k a w1 = (o2, w2) -> no_panic o2) ->
  no_panic o.
Proof.
  unfold bind. intros H Hm Hk.
  destruct (m w) as [[a|e|v] w1] eqn:E.
  - exact (Hk _ _ _ _ eq_refl H).
  - inversion H. subst. exact I.
  - inversion H. subst. exact (Hm _ _ eq_refl).
Qed.

Lemma wrapping_no_panic {A} msg (m : M A) w o w' :
  wrapping msg m w = (o, w') ->
  (forall o0 w0, m w = (o0, w0) -> no_panic o0) ->
  no_panic o.
Proof. intros H Hm. apply tame_no_panic. eapply wrapping_tame; eauto. Qed.

Lemma ret_tame {A} (a : A) w o w' : ret a w = (o, w') -> tame o.
Proof. intros H. apply ret_inv' in H. destruct H as (-> & _). exact I. Qed.

(** A repository method [now := time.Now(); queries.Stmt; wrap] does not
    panic. *)
Lemma method_no_panic {A} msg h name (q : Time -> Stmt A) w o w' :
  (now <- time_Now ;; wrapping msg (exec h name (q now))) w = (o, w') -> no_panic o.
Proof.
  intros H. eapply bind_no_panic; [exact H | apply time_Now_no_panic |].
  intros a w1 o2 w2 _ H2. eapply wrapping_no_panic; [exact H2|].
  intros o0 w0. apply exec_no_panic.
Qed.

(** A step [if err := repo.Method(...); err != nil { return eris.Wrap }]
    of a closure. *)
Lemma step_tame {A} msg' msg h name (q : Time -> Stmt A) w o w' :
  wrapping msg' (now <- time_Now ;; wrapping msg (exec h name (q now))) w = (o, w') ->
  tame o.
Proof.
  intros H. eapply wrapping_tame; [exact H|]. intros o0 w0. apply method_no_panic.
Qed.

(** [RunInTx] around a closure that returns nil or wrapped errors returns
    nil or a wrapped error. *)
Lemma RunInTx_tame {A} (fn : Tx -> M A) w o w' :
  RunInTx fn w = (o, w') ->
  (forall tx w1 o1 w2, fn tx w1 = (o1, w2) -> tame o1) ->
  tame o.
Proof.
  intros H Hfn. apply RunInTx_inv in H.
  destruct H as [(e & _ & ->)|(tx & w1 & _ & [(v & Hf & ->)|[(e & w2 & Hf & H)|(a & w2 & Hf & H)]])].
  - reflexivity.
  - exact (Hfn _ _ _ _ Hf).
  - destruct H as [(_ & ->)|(rbErr & _ & ->)]; [exact (Hfn _ _ _ _ Hf) | reflexivity].
  - destruct H as [(_ & ->)|(e & _ & ->)]; [exact I | reflexivity].
Qed.

Lemma Execute_tx_tame cfg reset passwordHash tx w o w' :
  Execute_tx cfg reset passwordHash tx w = (o, w') -> tame o.
Proof.
  unfold Execute_tx, UserRepository_UpdatePassword, PasswordResetRepository_MarkUsed,
    PasswordResetRepository_InvalidateAllForUser, AuthTokenRepository_RevokeAllForUser.
  simpl. intros H.
  repeat (eapply bind_tame; [exact H | intros ? ?; apply step_tame |];
          clear H; intros ? ? ? ? _ H).
  eapply ret_tame. exact H.
Qed.

Lemma bcrypt_GenerateFromPassword_no_panic password cost w o w' :
  bcrypt_GenerateFromPassword password cost w = (o, w') -> no_panic o.
Proof.
  unfold bcrypt_GenerateFromPassword. intros H.
  eapply bind_no_panic; [exact H | intros ? ?; apply rand_Read_no_panic |].
  intros salt w1 o2 w2 _ H2. cbv beta in H2.
  destruct (bcrypt_hash password cost salt); inversion H2; subst; exact I.
Qed.

Lemma GenerateSecureToken_tame n w o w' : GenerateSecureToken n w = (o, w') -> tame o.
Proof.
  unfold GenerateSecureToken. intros H.
  eapply bind_tame; [exact H | |].
  - intros o1 w1 H1. eapply wrapping_tame; [exact H1|].
    intros ? ?. apply rand_Read_no_panic.
  - intros a w1 o2 w2 _ H2. eapply ret_tame. exact H2.
Qed.

(** *** PasswordResetService.Execute: refusals and single use *)

(** [Execute] up to its branch on the stored row, when the lookup is
    answered. *)
Lemma Execute_answered cfg ctx token newPassword w :
  answered w ->
  PasswordResetService_Execute (ProvidePasswordResetService cfg) ctx token newPassword w
  = match stored_reset w token with
    | None => (Fail ErrInvalidResetToken, looked_up "GetPasswordResetByTokenHash" w)
    | Some reset =>
        if negb (is_null (PasswordReset_UsedAt reset))
        then (Fail ErrTokenAlreadyUsed, looked_up "GetPasswordResetByTokenHash" w)
        else
          (now <- time_Now ;;
           if Time_After now (PasswordReset_ExpiresAt reset)
           then fail ErrTokenExpired
           else
             passwordHash <-
               wrapping "failed to hash password"
                 (bcrypt_GenerateFromPassword newPassword (BcryptCost (Auth cfg))) ;;
             RunInTx (Execute_tx cfg reset passwordHash))
            (looked_up "GetPasswordResetByTokenHash" w)
    end.
Proof.
  intros Ha. rewrite Execute_unfold.
  unfold PasswordResetRepository_GetByTokenHash. simpl.
  unfold bind at 1. unfold try, wrapping at 1.
  rewrite (exec_Pool_answered _ _ _ Ha).
  unfold sqlcgen.GetPasswordResetByTokenHash, stored_reset, looked_up. simpl.
  destruct (find _ (password_resets (store w))) as [reset|]; simpl; [|reflexivity].
  destruct (is_null (PasswordReset_UsedAt reset)); reflexivity.
Qed.

Lemma looked_up_facts name w :
  store (looked_up name w) = store w /\ txns (looked_up name w) = txns w
  /\ clock (looked_up name w) = clock w /\ ticks (looked_up name w) = ticks w
  /\ log (looked_up name w) = EvQuery Pool name :: log w.
Proof.
  unfold looked_up. simpl. rewrite next_fault_clock, next_fault_ticks, next_fault_log.
  destruct (next_fault w) as [f w1] eqn:E.
  destruct (next_fault_inv _ _ _ E) as (_ & Ht & _). simpl. auto.
Qed.

Lemma Execute_rest_tame cfg reset newPassword w o w' :
  (passwordHash <-
     wrapping "failed to hash password"
       (bcrypt_GenerateFromPassword newPassword (BcryptCost (Auth cfg))) ;;
   RunInTx (Execute_tx cfg reset passwordHash)) w = (o, w') ->
  tame o.
Proof.
  intros H. eapply bind_tame; [exact H | |].
  - intros o1 w1 H1. eapply wrapping_tame; [exact H1|].
    intros ? ?. apply bcrypt_GenerateFromPassword_no_panic.
  - intros h w1 o2 w2 _ H2. eapply RunInTx_tame; [exact H2|].
    intros tx w3 o3 w4. apply Execute_tx_tame.
Qed.

Lemma tame_not_sentinel {A} (o : outcome A) c m s : tame o -> o <> Fail (AppError c m s).
Proof. intros Ht ->. simpl in Ht. discriminate. Qed.

(** X5. With the lookup answered by the server, [Execute] fails with
    [ErrInvalidResetToken] exactly when no reset row carries the hash of
    the token, with [ErrTokenAlreadyUsed] exactly when the stored row has
    [used_at] set (expired or not), and with [ErrTokenExpired] exactly when
    the stored row is unused and its [expires_at] is before the clock
    reading; in these three cases the lookup was the only interaction: no
    row changed and no transaction was begun. *)
Theorem X5_Execute_refusals cfg ctx token newPassword w o w' :
  answered w ->
  PasswordResetService_Execute (ProvidePasswordResetService cfg) ctx token newPassword w
    = (o, w') ->
  (o = Fail ErrInvalidResetToken <-> stored_reset w token = None) /\
  (o = Fail ErrTokenAlreadyUsed <->
     exists r, stored_reset w token = Some r /\ PasswordReset_UsedAt r <> None) /\
  (o = Fail ErrTokenExpired <->
     exists r, stored_reset w token = Some r /\ PasswordReset_UsedAt r = None
               /\ PasswordReset_ExpiresAt r < clock w) /\
  (o = Fail ErrInvalidResetToken \/ o = Fail ErrTokenAlreadyUsed \/ o = Fail ErrTokenExpired ->
   store w' = store w /\ txns w' = txns w
   /\ log w' = EvQuery Pool "GetPasswordResetByTokenHash" :: log w).
Proof.
  intros Ha H. rewrite (Execute_answered _ _ _ _ _ Ha) in H.
  destruct (looked_up_facts "GetPasswordResetByTokenHash" w) as (Hs & Ht & Hc & _ & Hl).
  destruct (stored_reset w token) as [r|].
  2:{ injection H as <- <-.
      split; [split; intros _; reflexivity|].
      split; [split; [discriminate | intros (r & C & _); discriminate]|].
      split; [split; [discriminate | intros (r & C & _); discriminate]|].
      intros _. auto. }
  destruct (PasswordReset_UsedAt r) as [u|] eqn:Eu; simpl in H.
  { injection H as <- <-.
    split; [split; discriminate|].
    split; [split; [intros _; exists r; split; [reflexivity | congruence]
                   | intros _; reflexivity]|].
    split; [split; [discriminate | intros (r' & C & C' & _); congruence]|].
    intros _. auto. }
  unfold bind at 1 in H.
  destruct (time_Now (looked_up "GetPasswordResetByTokenHash" w)) as [o1 w1] eqn:En.
  destruct (time_Now_inv _ _ _ En) as (-> & Hs1 & Ht1 & Hl1 & _).
  rewrite Hc in H. unfold Time_After in H.
  destruct (Z.ltb_spec (PasswordReset_ExpiresAt r) (clock w)) as [Hlt|Hge].
  { injection H as <- <-.
    split; [split; discriminate|].
    split; [split; [discriminate | intros (r' & C & C'); congruence]|].
    split; [split; [intros _; exists r; auto | intros _; reflexivity]|].
    intros _. repeat split; congruence. }
  pose proof (Execute_rest_tame _ _ _ _ _ _ H) as Htame.
  split; [split; [intros C; exfalso; revert C; apply tame_not_sentinel; exact Htame
                 | discriminate]|].
  split; [split; [intros C; exfalso; revert C; apply tame_not_sentinel; exact Htame
                 | intros (r' & C & C'); congruence]|].
  split; [split; [intros C; exfalso; revert C; apply tame_not_sentinel; exact Htame
                 | intros (r' & C & _ & C'); injection C as <-; lia]|].
  intros [C|[C|C]]; exfalso; revert C; apply tame_not_sentinel; exact Htame.
Qed.

(** A reset that went through: the row was there, unused and unexpired,
    and the committed rows are the result of the four statements. *)
Lemma Execute_Ret_inv cfg ctx token newPassword w w' :
  PasswordResetService_Execute (ProvidePasswordResetService cfg) ctx token newPassword w
    = (Ret tt, w') ->
  exists reset h t1 t2 t3 t4,
    stored_reset w token = Some reset
    /\ PasswordReset_UsedAt reset = None
    /\ clock w <= PasswordReset_ExpiresAt reset
    /\ store w' = reset_rows reset h t1 t2 t3 t4 (store w).
Proof.
  intros H. rewrite Execute_unfold in H.
  apply bind_Ret_inv in H. destruct H as (x & w1 & Hget & H).
  apply try_Ret_inv in Hget.
  destruct Hget as [(reset & -> & Hget)|(e & -> & Hget)].
  2:{ destruct (eris_Is e sql_ErrNoRows); discriminate. }
  destruct (GetByTokenHash_inv _ _ _ _ Hget) as (Hs1 & _ & Hc1 & [(e & C & _)|(C & _)]);
    [discriminate|].
  destruct (stored_reset w token) as [r|] eqn:Est; [|discriminate].
  injection C as <-.
  destruct (is_null (PasswordReset_UsedAt reset)) eqn:Eused; simpl in H; [|discriminate].
  apply is_null_true in Eused.
  apply bind_Ret_inv in H. destruct H as (now & w2 & Hnow & H).
  destruct (time_Now_inv _ _ _ Hnow) as (Hn & Hs2 & _).
  injection Hn as Hn. subst now.
  unfold Time_After in H.
  destruct (Z.ltb_spec (PasswordReset_ExpiresAt reset) (clock w1)); [discriminate|].
  apply bind_Ret_inv in H. destruct H as (h & w3 & Hh & H).
  apply wrapping_Ret_inv in Hh.
  destruct (bcrypt_GenerateFromPassword_inv _ _ _ _ _ Hh) as (Hs3 & _).
  apply RunInTx_inv in H.
  destruct H as [(e & _ & C)|(tx & w4 & Hb & H)]; [discriminate|].
  destruct (BeginTx_inv _ _ _ Hb) as (Hs4 & _ & [(e & C & _)|(Htx & Ht4 & _)]);
    [discriminate|].
  injection Htx as Htx. subst tx.
  destruct H as [(v & _ & C)|[(e & w5 & _ & [(_ & C)|(rbErr & _ & C)])|(a & w5 & Hf & H)]];
    try discriminate.
  destruct (Execute_tx_inv _ _ _ _ _ _ _ Hf) as (_ & Hok). destruct a.
  destruct (Hok eq_refl) as (d & t1 & t2 & t3 & t4 & Hd & Hd' & _).
  rewrite Ht4 in Hd. simpl in Hd. rewrite Nat.eqb_refl in Hd. injection Hd as Hd. subst d.
  destruct H as [(Hc & _)|(e & _ & C)]; [|discriminate].
  destruct (Tx_Commit_inv _ _ _ _ Hc) as (_ & [C|[C|C]]).
  - destruct C as (C & _). discriminate.
  - destruct C as (d & e & _ & C & _). discriminate.
  - destruct C as (d & Hd6 & _ & Hs6 & _).
    rewrite Hd' in Hd6. injection Hd6 as Hd6. rewrite <- Hd6 in Hs6.
    exists reset, h, t1, t2, t3, t4.
    split; [reflexivity|]. split; [assumption|]. split; [lia|].
    rewrite Hs6. congruence.
Qed.

(** The row a used token is found under after the four statements. *)
Lemma reset_rows_stored reset h t1 t2 t3 t4 d token :
  find (fun r => String.eqb (PasswordReset_TokenHash r) (HashToken token))
       (password_resets d) = Some reset ->
  exists r,
    find (fun r => String.eqb (PasswordReset_TokenHash r) (HashToken token))
         (password_resets (reset_rows reset h t1 t2 t3 t4 d)) = Some r
    /\ PasswordReset_UsedAt r <> None.
Proof.
  intros Hf. unfold reset_rows. simpl.
  rewrite find_map_same.
  2:{ intros x. destruct (_ && _); reflexivity. }
  rewrite find_map_same.
  2:{ intros x. destruct (Nat.eqb _ _); reflexivity. }
  rewrite Hf. simpl. rewrite Nat.eqb_refl. simpl. rewrite andb_false_r.
  eexists. split; [reflexivity|]. simpl. discriminate.
Qed.

(** X6. A reset token works once: after an [Execute] that returned nil,
    any further [Execute] with the same token (the lookup being answered)
    fails with [ErrTokenAlreadyUsed] and changes no row. *)
Theorem X6_reset_token_single_use cfg ctx token newPassword w w' ctx2 newPassword2 w2 :
  PasswordResetService_Execute (ProvidePasswordResetService cfg) ctx token newPassword w
    = (Ret tt, w') ->
  answered w2 ->
  password_resets (store w2) = password_resets (store w') ->
  fst (PasswordResetService_Execute (ProvidePasswordResetService cfg) ctx2 token
         newPassword2 w2) = Fail ErrTokenAlreadyUsed /\
  store (snd (PasswordResetService_Execute (ProvidePasswordResetService cfg) ctx2 token
                newPassword2 w2)) = store w2.
Proof.
  intros H Ha Hrows.
  destruct (Execute_Ret_inv _ _ _ _ _ _ H)
    as (reset & h & t1 & t2 & t3 & t4 & Hst & _ & _ & Hs).
  destruct (reset_rows_stored reset h t1 t2 t3 t4 (store w) token Hst) as (r & Hr & Hused).
  rewrite (Execute_answered _ _ _ _ _ Ha).
  unfold stored_reset. rewrite Hrows, Hs, Hr.
  destruct (PasswordReset_UsedAt r); [|congruence]. simpl.
  split; [reflexivity|].
  apply (looked_up_facts "GetPasswordResetByTokenHash" w2).
Qed.

(** X7. A password reset logs the user out everywhere: after an [Execute]
    that returned nil, every session token that was stored for the user of
    the reset row is refused with [ErrTokenRevoked]. *)
Theorem X7_reset_revokes_sessions cfg ctx token newPassword w w' reset session t ctx2 w2 :
  PasswordResetService_Execute (ProvidePasswordResetService cfg) ctx token newPassword w
    = (Ret tt, w') ->
  stored_reset w token = Some reset ->
  stored_auth_token w session = Some t ->
  AuthToken_UserID t = PasswordReset_UserID reset ->
  answered w2 ->
  auth_tokens (store w2) = auth_tokens (store w') ->
  fst (SessionService_ValidateToken (ProvideSessionService cfg) ctx2 session w2)
  = Fail ErrTokenRevoked.
Proof.
  intros H Hreset Ht Hu Ha Hrows.
  destruct (Execute_Ret_inv _ _ _ _ _ _ H)
    as (reset' & h & t1 & t2 & t3 & t4 & Hst & _ & _ & Hs).
  rewrite Hreset in Hst. injection Hst as <-.
  rewrite (ValidateToken_answered cfg ctx2 session w2 Ha).
  unfold stored_auth_token. rewrite Hrows, Hs.
  unfold reset_rows. simpl.
  rewrite find_map_same.
  2:{ intros x. destruct (_ && _); reflexivity. }
  unfold stored_auth_token in Ht. rewrite Ht. simpl.
  rewrite Hu, Nat.eqb_refl. simpl.
  destruct (AuthToken_RevokedAt t) eqn:Er; simpl; [rewrite Er|]; reflexivity.
Qed.

(** *** PasswordResetService.Create for a known email *)

Lemma CreatePasswordReset_ok id userID tokenHash expiresAt createdAt d :
  fst (sqlcgen.CreatePasswordReset id userID tokenHash expiresAt createdAt d) = inr tt ->
  snd (sqlcgen.CreatePasswordReset id userID tokenHash expiresAt createdAt d)
  = set_password_resets d
      (password_resets d ++ [mkPasswordReset id userID tokenHash expiresAt None createdAt])
  /\ existsb (fun r => String.eqb (PasswordReset_TokenHash r) tokenHash) (password_resets d)
     = false.
Proof.
  unfold sqlcgen.CreatePasswordReset.
  destruct (existsb (fun r => Nat.eqb (PasswordReset_ID r) id) (password_resets d));
    [discriminate|].
  destruct (existsb _ (password_resets d)); [discriminate|].
  destruct (negb (sqlcgen.user_exists userID d)); [discriminate|]. auto.
Qed.

(** X8. A reset request for a stored user that returns nil (the lookup
    being answered) draws a 64-character token, appends one reset row that
    holds the hash of the token and not the token, belongs to the user, is
    unused and expires [PasswordResetTokenTTL] after the clock reading,
    and then hands the broker one email to the user's address whose link
    carries the raw token (or, if the broker fails, reports to Sentry). *)
Theorem X8_reset_request_issues_token cfg ctx email w u w' :
  answered w ->
  stored_user w email = Some u ->
  PasswordResetService_Create (ProvidePasswordResetService cfg) ctx email w = (Ret tt, w') ->
  exists token id createdAt ev,
    String.length token = 64%nat /\
    store w'
    = set_password_resets (store w)
        (password_resets (store w)
           ++ [mkPasswordReset id (User_ID u) (HashToken token)
                 (clock w + PasswordResetTokenTTL (Auth cfg)) None createdAt]) /\
    stored_reset w token = None /\
    log w' = ev :: EvQuery Pool "CreatePasswordReset"
                :: EvQuery Pool "GetUserByEmail" :: log w /\
    ((exists jobID, ev = enqueued ctx cfg jobID (reset_email cfg u token))
     \/ (exists e, ev = EvCapture e)).
Proof.
  intros Ha Hu.
  unfold PasswordResetService_Create, UserRepository_GetByEmail.
  unfold bind at 1. unfold try, wrapping at 1.
  simpl. rewrite (exec_Pool_answered _ _ _ Ha).
  unfold sqlcgen.GetUserByEmail. unfold stored_user in Hu. simpl. rewrite Hu. simpl.
  fold (looked_up "GetUserByEmail" w).
  destruct (looked_up_facts "GetUserByEmail" w) as (Hs0 & _ & Hc0 & _ & Hl0).
  intros H.
  apply bind_Ret_inv in H. destruct H as (token & w1 & Hg & H).
  apply wrapping_Ret_inv in Hg.
  pose proof (GenerateSecureToken_Ret_length _ _ _ _ Hg) as Hlen.
  destruct (GenerateSecureToken_inv _ _ _ _ Hg) as (Hs1 & _ & Hl1 & Hc1).
  apply bind_Ret_inv in H. destruct H as (now & w2 & Hnow & H).
  destruct (time_Now_inv _ _ _ Hnow) as (Hn & Hs2 & _ & Hl2 & _).
  injection Hn as Hn. subst now.
  apply bind_Ret_inv in H. destruct H as (x & w3 & Hc & H).
  apply wrapping_Ret_inv in Hc.
  unfold PasswordResetRepository_Create in Hc. simpl in Hc.
  apply bind_Ret_inv in Hc. destruct Hc as (id & w4 & Hid & Hc).
  destruct (uuid_New_inv _ _ _ Hid) as (_ & Hs4 & _ & Hl4 & _).
  apply bind_Ret_inv in Hc. destruct Hc as (createdAt & w5 & Hnow5 & Hc).
  destruct (time_Now_inv _ _ _ Hnow5) as (_ & Hs5 & _ & Hl5 & _).
  apply bind_Ret_inv in Hc. destruct Hc as (y & w6 & He & Hc).
  apply ret_inv in Hc. destruct Hc as (_ & ->).
  apply wrapping_Ret_inv in He.
  destruct (exec_Pool_inv _ _ _ _ _ He) as (_ & _ & [(e & C & _)|(Ho & Hs6 & Hl6 & _)]);
    [discriminate|].
  apply bind_Ret_inv in H. destruct H as (z & w7 & Henq & H).
  apply ret_inv in H. destruct H as (_ & ->).
  destruct (EnqueueCtx_inv _ _ _ _ _ _ _ Henq) as (_ & Hs7 & Hev).
  assert (Hst : store w5 = store w) by congruence.
  assert (Hlg : log w5 = EvQuery Pool "GetUserByEmail" :: log w) by congruence.
  rewrite Hst in Ho, Hs6. rewrite Hc1, Hc0 in Ho, Hs6.
  match type of Ho with
  | _ = of_sum (fst ?q) => destruct (fst q) as [e|[]] eqn:Eq; simpl in Ho; [discriminate|]
  end.
  destruct (CreatePasswordReset_ok _ _ _ _ _ _ Eq) as (Hrows & Hfresh).
  assert (Hev' : exists ev, log w' = ev :: log w3 /\
            ((exists jobID, ev = enqueued ctx cfg jobID (reset_email cfg u token))
             \/ (exists e, ev = EvCapture e))).
  { destruct Hev as [(jobID & Hl7)|(e & Hl7)]; eexists; split; eauto.
    left. exists jobID. reflexivity. }
  destruct Hev' as (ev & Hl7 & Hev').
  exists token, id, createdAt, ev.
  split; [exact Hlen|]. split; [rewrite Hs7, Hs6; exact Hrows|].
  split; [apply find_existsb_false; exact Hfresh|].
  split; [rewrite Hl7, Hl6, Hlg; reflexivity | exact Hev'].
Qed.

(** *** UserService.ScheduleDeletion and the sessions of the user *)

Lemma ScheduleDeletion_Ret_inv cfg ctx userID w w' :
  UserService_ScheduleDeletion (ProvideUserService cfg) ctx userID w = (Ret tt, w') ->
  exists t1 t2,
    store w'
    = schedule_rows userID (Time_Add (clock w) (AccountDeletionDelay (Auth cfg))) t1 t2
        (store w).
Proof.
  intros H. rewrite ScheduleDeletion_unfold in H.
  apply bind_Ret_inv in H. destruct H as (now & w1 & Hnow & H).
  destruct (time_Now_inv _ _ _ Hnow) as (Hn & Hs1 & _).
  injection Hn as Hn. subst now.
  apply bind_Ret_inv in H. destruct H as (info & w2 & Hrun & H).
  destruct (RunInTx_ScheduleDeletion_inv _ _ _ _ _ _ Hrun) as (Hok & _).
  destruct (Hok info eq_refl) as (u & tx & t1 & t2 & _ & _ & -> & Hs2 & _).
  apply bind_Ret_inv in H. destruct H as (x & w3 & Henq & H).
  apply ret_inv in H. destruct H as (_ & ->).
  destruct (EnqueueCtx_inv _ _ _ _ _ _ _ Henq) as (_ & Hs3 & _).
  exists t1, t2. congruence.
Qed.


(** X9. Scheduling the deletion of an account logs the user out: after a
    [ScheduleDeletion] that returned nil, every session token that was
    stored for the user is refused with [ErrTokenRevoked], while the
    sessions of other users are found as they were. *)
Theorem X9_scheduled_deletion_revokes_sessions cfg ctx userID w w' session t ctx2 w2 :
  UserService_ScheduleDeletion (ProvideUserService cfg) ctx userID w = (Ret tt, w') ->
  stored_auth_token w session = Some t ->
  answered w2 ->
  auth_tokens (store w2) = auth_tokens (store w') ->
  (AuthToken_UserID t = userID ->
   fst (SessionService_ValidateToken (ProvideSessionService cfg) ctx2 session w2)
   = Fail ErrTokenRevoked) /\
  (AuthToken_UserID t <> userID -> stored_auth_token w2 session = Some t).
Proof.
  intros H Ht Ha Hrows.
  destruct (ScheduleDeletion_Ret_inv _ _ _ _ _ H) as (t1 & t2 & Hs).
  assert (Hst : stored_auth_token w2 session
                = Some (if Nat.eqb (AuthToken_UserID t) userID
                           && is_null (AuthToken_RevokedAt t)
                        then revoked_at t2 t else t)).
  { unfold stored_auth_token. rewrite Hrows, Hs. unfold schedule_rows. simpl.
    rewrite find_map_same.
    2:{ intros x. destruct (_ && _); reflexivity. }
    unfold stored_auth_token in Ht. rewrite Ht. reflexivity. }
  split.
  - intros Hu. rewrite (ValidateToken_answered cfg ctx2 session w2 Ha), Hst.
    rewrite Hu, Nat.eqb_refl. simpl.
    destruct (AuthToken_RevokedAt t) eqn:Er; simpl; [rewrite Er|]; reflexivity.
  - intros Hu. rewrite Hst. apply Nat.eqb_neq in Hu. rewrite Hu. reflexivity.
Qed.

(** *** CleanupTask.Handle: what a run removes and what it keeps *)

Lemma Cleanup_Ret_inv ctx w counts w' :
  CleanupTask_Handle ProvideCleanupTask ctx w = (Ret counts, w') ->
  exists t2 t3 t4,
    clock w <= t2 /\ t2 <= t3 /\ t3 <= t4 /\ t4 <= clock w' /\
    let d1 := purge_auth_tokens (clock w) (store w) in
    let d2 := purge_password_resets t2 d1 in
    let d3 := purge_email_verifications t3 d2 in
    store w' = purge_users t4 d3 /\
    counts
    = (Z.of_nat (List.length (filter (sqlcgen.auth_token_stale (clock w))
                                (auth_tokens (store w)))),
       Z.of_nat (List.length (filter (sqlcgen.password_reset_stale t2)
                                (password_resets d1))),
       Z.of_nat (List.length (filter (sqlcgen.email_verification_stale t3)
                                (email_verifications d2))),
       Z.of_nat (List.length (filter (sqlcgen.deletion_due t4) (users d3)))).
Proof.
  unfold CleanupTask_Handle, AuthTokenRepository_DeleteExpiredOrRevoked,
    PasswordResetRepository_DeleteExpiredOrUsed,
    EmailVerificationRepository_DeleteExpiredOrUsed, UserRepository_DeleteScheduledUsers.
  simpl. intros H.
  apply (pool_step_inv _ _ _ sqlcgen.DeleteExpiredOrRevokedAuthTokens) in H.
  destruct H as [(e & C & _)|[(e & _ & C)|(n1 & w1 & Hq1 & Hs1 & _ & Hc1 & H)]];
    try discriminate.
  apply (pool_step_inv _ _ _ sqlcgen.DeleteExpiredOrUsedPasswordResets) in H.
  destruct H as [(e & C & _)|[(e & _ & C)|(n2 & w2 & Hq2 & Hs2 & _ & Hc2 & H)]];
    try discriminate.
  apply (pool_step_inv _ _ _ sqlcgen.DeleteExpiredOrUsedEmailVerifications) in H.
  destruct H as [(e & C & _)|[(e & _ & C)|(n3 & w3 & Hq3 & Hs3 & _ & Hc3 & H)]];
    try discriminate.
  apply (pool_step_inv _ _ _ sqlcgen.DeleteScheduledUsers) in H.
  destruct H as [(e & C & _)|[(e & _ & C)|(n4 & w4 & Hq4 & Hs4 & _ & Hc4 & H)]];
    try discriminate.
  apply ret_inv in H. destruct H as (<- & <-).
  exists (clock w1), (clock w2), (clock w3).
  repeat (split; [lia|]). cbv zeta.
  unfold purge_users, purge_email_verifications, purge_password_resets, purge_auth_tokens.
  rewrite Hs1 in Hq2, Hs2. rewrite Hs2 in Hq3, Hs3. rewrite Hs3 in Hq4, Hs4.
  split; [exact Hs4|].
  simpl in Hq1, Hq2, Hq3, Hq4.
  injection Hq1 as <-. injection Hq2 as <-. injection Hq3 as <-. injection Hq4 as <-.
  reflexivity.
Qed.

Lemma deletion_due_false now u :
  sqlcgen.deletion_due now u = false <->
  forall a, User_DeletionScheduledAt u = Some a -> now < a.
Proof.
  unfold sqlcgen.deletion_due. destruct (User_DeletionScheduledAt u) as [a|].
  - destruct (Z.leb_spec a now) as [Hle|Hlt]; split; intros Hx.
    + discriminate.
    + specialize (Hx a eq_refl). lia.
    + intros a' Ha. injection Ha as <-. lia.
    + reflexivity.
  - split; [intros _ a Ha; discriminate | reflexivity].
Qed.

(** The sessions the [ON DELETE CASCADE] of [DeleteScheduledUsers] keeps. *)
Lemma purge_users_sessions now d t :
  In t (auth_tokens (purge_users now d)) <->
  In t (auth_tokens d) /\
  forall u, In u (users d) -> User_ID u = AuthToken_UserID t ->
            sqlcgen.deletion_due now u = false.
Proof.
  unfold purge_users. simpl. rewrite filter_In. split.
  - intros (Hin & Hk). split; [assumption|]. intros u Hu Hid.
    destruct (sqlcgen.deletion_due now u) eqn:Ed; [|reflexivity].
    exfalso. apply negb_true_iff in Hk.
    assert (Hex : existsb (fun u0 => Nat.eqb (User_ID u0) (AuthToken_UserID t))
                    (filter (sqlcgen.deletion_due now) (users d)) = true).
    { apply existsb_exists. exists u. split; [apply filter_In; auto|].
      apply Nat.eqb_eq. exact Hid. }
    congruence.
  - intros (Hin & Hk). split; [assumption|]. apply negb_true_iff.
    destruct (existsb _ _) eqn:Ex; [|reflexivity].
    apply existsb_exists in Ex. destruct Ex as (u & Hu & Hid).
    apply filter_In in Hu. destruct Hu as (Hu & Hdue).
    apply Nat.eqb_eq in Hid. rewrite (Hk u Hu Hid) in Hdue. discriminate.
Qed.

(** X10. A cleanup run that returned nil deleted no user before the
    instant scheduled for the deletion and no session that was still
    usable: every user it left was there before and is not due at the
    start of the run; every user not due at the end of the run is left;
    every session it left was unrevoked and unexpired; and every
    unrevoked, unexpired session whose user is not due at the end of the
    run is left.  No session of a user who was due at the start of the run
    is left. *)
Theorem X10_cleanup_keeps_live_rows ctx w counts w' :
  CleanupTask_Handle ProvideCleanupTask ctx w = (Ret counts, w') ->
  (forall u, In u (users (store w')) ->
     In u (users (store w))
     /\ forall a, User_DeletionScheduledAt u = Some a -> clock w < a) /\
  (forall u, In u (users (store w)) ->
     (forall a, User_DeletionScheduledAt u = Some a -> clock w' < a) ->
     In u (users (store w'))) /\
  (forall t, In t (auth_tokens (store w')) ->
     In t (auth_tokens (store w)) /\ AuthToken_RevokedAt t = None
     /\ clock w <= AuthToken_ExpiresAt t
     /\ forall u a, In u (users (store w)) -> User_ID u = AuthToken_UserID t ->
                    User_DeletionScheduledAt u = Some a -> clock w < a) /\
  (forall t, In t (auth_tokens (store w)) ->
     AuthToken_RevokedAt t = None ->
     clock w <= AuthToken_ExpiresAt t ->
     (forall u a, In u (users (store w)) -> User_ID u = AuthToken_UserID t ->
                  User_DeletionScheduledAt u = Some a -> clock w' < a) ->
     In t (auth_tokens (store w'))).
Proof.
  intros H.
  destruct (Cleanup_Ret_inv _ _ _ _ H) as (t2 & t3 & t4 & H2 & H3 & H4 & H5 & Hs & _).
  cbv zeta in Hs.
  set (d1 := purge_auth_tokens (clock w) (store w)) in *.
  set (d3 := purge_email_verifications t3 (purge_password_resets t2 d1)) in *.
  assert (Hu3 : users d3 = users (store w)) by reflexivity.
  assert (Ha3 : auth_tokens d3 = auth_tokens d1) by reflexivity.
  rewrite Hs.
  split; [|split; [|split]].
  - intros u Hin. apply purge_users_spec in Hin. destruct Hin as (Hin & Hnd).
    rewrite Hu3 in Hin. split; [assumption|].
    intros a Ha. specialize (Hnd a Ha). lia.
  - intros u Hin Hnd. apply purge_users_spec. rewrite Hu3. split; [assumption|].
    intros a Ha. specialize (Hnd a Ha). lia.
  - intros t Hin. apply purge_users_sessions in Hin. destruct Hin as (Hin & Hk).
    rewrite Ha3 in Hin. apply purge_auth_tokens_spec in Hin.
    destruct Hin as (Hin & He & Hr).
    split; [assumption|]. split; [assumption|]. split; [assumption|].
    intros u a Hu Hid Ha. rewrite Hu3 in Hk.
    pose proof (proj1 (deletion_due_false t4 u) (Hk u Hu Hid) a Ha). lia.
  - intros t Hin Hr He Hk. apply purge_users_sessions. rewrite Ha3, Hu3. split.
    + apply purge_auth_tokens_spec. auto.
    + intros u Hu Hid. apply deletion_due_false. intros a Ha.
      specialize (Hk u a Hu Hid Ha). lia.
Qed.

(** X11. The four numbers a cleanup run reports are row counts of its
    [DELETE] statements: the number of users is exactly the number of rows
    the [users] table lost, and each of the three token tables lost at
    least the number reported for it (the cascade of the user deletion may
    take more). *)
Theorem X11_cleanup_counts ctx w n1 n2 n3 n4 w' :
  CleanupTask_Handle ProvideCleanupTask ctx w = (Ret (n1, n2, n3, n4), w') ->
  let size {A} (l : list A) := Z.of_nat (List.length l) in
  n4 = size (users (store w)) - size (users (store w')) /\
  0 <= n1 /\ size (auth_tokens (store w')) <= size (auth_tokens (store w)) - n1 /\
  0 <= n2 /\ size (password_resets (store w')) <= size (password_resets (store w)) - n2 /\
  0 <= n3 /\
  size (email_verifications (store w')) <= size (email_verifications (store w)) - n3.
Proof.
  intros H size.
  destruct (Cleanup_Ret_inv _ _ _ _ H) as (t2 & t3 & t4 & _ & _ & _ & _ & Hs & Hc).
  cbv zeta in Hs, Hc. injection Hc as -> -> -> ->. rewrite Hs. subst size. cbv beta.
  unfold purge_users, purge_email_verifications, purge_password_resets, purge_auth_tokens.
  simpl.
  pose proof (filter_length (sqlcgen.deletion_due t4) (users (store w))) as L4.
  pose proof (filter_length (sqlcgen.auth_token_stale (clock w)) (auth_tokens (store w)))
    as L1.
  pose proof (filter_length (sqlcgen.password_reset_stale t2) (password_resets (store w)))
    as L2.
  pose proof (filter_length (sqlcgen.email_verification_stale t3)
                (email_verifications (store w))) as L3.
  match goal with
  | |- context [filter ?p (filter (fun t => negb (sqlcgen.auth_token_stale _ t)) ?l)] =>
      pose proof (filter_length_le p (filter (fun t => negb (sqlcgen.auth_token_stale (clock w) t)) l)) as M1
  end.
  match goal with
  | |- context [filter ?p (filter (fun r => negb (sqlcgen.password_reset_stale _ r)) ?l)] =>
      pose proof (filter_length_le p (filter (fun r => negb (sqlcgen.password_reset_stale t2 r)) l)) as M2
  end.
  match goal with
  | |- context [filter ?p (filter (fun v => negb (sqlcgen.email_verification_stale _ v)) ?l)] =>
      pose proof (filter_length_le p (filter (fun v => negb (sqlcgen.email_verification_stale t3 v)) l)) as M3
  end.
  repeat split; lia.
Qed.

(** *** UserService: registration and lookups *)

Lemma CreateUser_ok id name email passwordHash createdAt updatedAt d u :
  fst (sqlcgen.CreateUser id name email passwordHash createdAt updatedAt d) = inr u ->
  u = mkUser id name email passwordHash None None createdAt updatedAt
  /\ snd (sqlcgen.CreateUser id name email passwordHash createdAt updatedAt d)
     = set_users d (users d ++ [u])
  /\ existsb (fun x => String.eqb (User_Email x) email) (users d) = false
  /\ existsb (fun x => Nat.eqb (User_ID x) id) (users d) = false.
Proof.
  unfold sqlcgen.CreateUser.
  destruct (existsb (fun x => Nat.eqb (User_ID x) id) (users d)); [discriminate|].
  destruct (existsb _ (users d)); [discriminate|].
  simpl. intros H. injection H as <-. auto.
Qed.

Lemma UserRepository_Create_no_panic name email passwordHash w o w' :
  UserRepository_Create NewUserRepository name email passwordHash w = (o, w') -> no_panic o.
Proof.
  unfold UserRepository_Create. intros H.
  eapply bind_no_panic; [exact H | intros ? ?; apply time_Now_no_panic |].
  intros now w1 o1 w2 _ H1.
  eapply bind_no_panic; [exact H1 | intros ? ?; apply uuid_New_no_panic |].
  intros id w3 o3 w4 _ H3. eapply wrapping_no_panic; [exact H3|].
  intros ? ?. apply exec_no_panic.
Qed.

Lemma UserRepository_Create_tame name email passwordHash w o w' :
  UserRepository_Create NewUserRepository name email passwordHash w = (o, w') -> tame o.
Proof.
  unfold UserRepository_Create. intros H.
  eapply bind_tame; [exact H | |].
  { intros o1 w1 H1. destruct (time_Now_inv _ _ _ H1) as (-> & _). exact I. }
  intros now w1 o1 w2 _ H1.
  eapply bind_tame; [exact H1 | |].
  { intros o2 w3 H2. destruct (uuid_New_inv _ _ _ H2) as (-> & _). exact I. }
  intros id w3 o3 w4 _ H3. eapply wrapping_tame; [exact H3|].
  intros ? ?. apply exec_no_panic.
Qed.

(** [UserService.Create] up to its branch on the answer of [EmailExists]. *)
Lemma UserService_Create_answered cfg ctx name email password w :
  answered w ->
  UserService_Create (ProvideUserService cfg) ctx name email password w
  = match stored_user w email with
    | Some _ => (Fail ErrEmailAlreadyExists, looked_up "EmailExists" w)
    | None =>
        (passwordHash <-
           wrapping "failed to generate password hash"
             (bcrypt_GenerateFromPassword password (BcryptCost (Auth cfg))) ;;
         UserRepository_Create NewUserRepository name email passwordHash)
          (looked_up "EmailExists" w)
    end.
Proof.
  intros Ha. unfold UserService_Create, UserRepository_EmailExists. simpl.
  unfold bind at 1. unfold wrapping at 1 2.
  rewrite (exec_Pool_answered _ _ _ Ha).
  unfold sqlcgen.EmailExists, stored_user, looked_up. simpl.
  destruct (find _ (users (store w))) as [u|] eqn:Ef.
  - apply find_some in Ef. destruct Ef as (Hin & Hu).
    assert (Hex : existsb (fun u0 => String.eqb (User_Email u0) email) (users (store w))
                  = true).
    { apply existsb_exists. exists u. auto. }
    rewrite Hex. reflexivity.
  - apply find_existsb_false in Ef. rewrite Ef. reflexivity.
Qed.

(** X12. With the check answered by the server, a registration fails with
    [ErrEmailAlreadyExists] exactly when a user with the email is stored,
    and then nothing was written: the check was the only interaction. *)
Theorem X12_register_existing_email cfg ctx name email password w o w' :
  answered w ->
  UserService_Create (ProvideUserService cfg) ctx name email password w = (o, w') ->
  (o = Fail ErrEmailAlreadyExists <->
     exists u, In u (users (store w)) /\ User_Email u = email) /\
  (o = Fail ErrEmailAlreadyExists ->
     store w' = store w /\ log w' = EvQuery Pool "EmailExists" :: log w).
Proof.
  intros Ha H. rewrite (UserService_Create_answered _ _ _ _ _ _ Ha) in H.
  destruct (looked_up_facts "EmailExists" w) as (Hs & _ & _ & _ & Hl).
  destruct (stored_user w email) as [u|] eqn:Eu.
  - injection H as <- <-. split; [|auto].
    split; [|reflexivity]. intros _.
    unfold stored_user in Eu. apply find_some in Eu. destruct Eu as (Hin & Hu).
    exists u. split; [assumption|]. apply String.eqb_eq. exact Hu.
  - assert (Htame : tame o).
    { eapply bind_tame; [exact H | |].
      - intros o1 w1 H1. eapply wrapping_tame; [exact H1|].
        intros ? ?. apply bcrypt_GenerateFromPassword_no_panic.
      - intros h w1 o2 w2 _ H2. eapply UserRepository_Create_tame. exact H2. }
    split.
    + split.
      * intros C. exfalso. revert C. apply tame_not_sentinel. exact Htame.
      * intros Hex. exfalso. apply stored_user_None in Eu. contradiction.
    + intros C. exfalso. revert C. apply tame_not_sentinel. exact Htame.
Qed.

(** A registration that went through. *)
Lemma UserService_Create_Ret_inv cfg ctx name email password w u w' :
  UserService_Create (ProvideUserService cfg) ctx name email password w = (Ret u, w') ->
  exists id createdAt h,
    u = mkUser id name email h None None createdAt createdAt
    /\ (exists salt, bcrypt_hash password (BcryptCost (Auth cfg)) salt = inr h)
    /\ clock w <= createdAt /\ createdAt <= clock w'
    /\ store w' = set_users (store w) (users (store w) ++ [u])
    /\ stored_user w email = None.
Proof.
  unfold UserService_Create. simpl. intros H.
  apply bind_Ret_inv in H. destruct H as (ex & w1 & Hex & H).
  apply wrapping_Ret_inv in Hex. unfold UserRepository_EmailExists in Hex. simpl in Hex.
  apply wrapping_Ret_inv in Hex.
  destruct (exec_Pool_inv _ _ _ _ _ Hex) as (_ & Hc1 & [(e & C & _)|(_ & Hs1 & _)]);
    [discriminate|].
  simpl in Hs1.
  destruct ex; [discriminate|].
  apply bind_Ret_inv in H. destruct H as (h & w2 & Hh & H).
  apply wrapping_Ret_inv in Hh.
  destruct (bcrypt_GenerateFromPassword_inv _ _ _ _ _ Hh) as (Hs2 & _ & _ & Hc2 & Hsalt).
  unfold UserRepository_Create in H. simpl in H.
  apply bind_Ret_inv in H. destruct H as (now & w3 & Hnow & H).
  destruct (time_Now_inv _ _ _ Hnow) as (Hn & Hs3 & _ & _ & Hc3).
  injection Hn as Hn. subst now.
  apply bind_Ret_inv in H. destruct H as (id & w4 & Hid & H).
  destruct (uuid_New_inv _ _ _ Hid) as (_ & Hs4 & _ & _ & Hc4).
  apply wrapping_Ret_inv in H.
  destruct (exec_Pool_inv _ _ _ _ _ H) as (_ & Hc5 & [(e & C & _)|(Ho & Hs5 & _)]);
    [discriminate|].
  assert (Hst : store w4 = store w) by congruence.
  rewrite Hst in Ho, Hs5.
  match type of Ho with
  | _ = of_sum (fst ?q) => destruct (fst q) as [e|u0] eqn:Eq; simpl in Ho; [discriminate|]
  end.
  injection Ho as <-.
  destruct (CreateUser_ok _ _ _ _ _ _ _ _ Eq) as (Hu & Hrows & Hfresh & _).
  exists id, (clock w2), h.
  split; [exact Hu|]. split; [exact (Hsalt h eq_refl)|].
  split; [lia|]. split; [lia|].
  split; [rewrite Hs5; exact Hrows|].
  apply find_existsb_false. exact Hfresh.
Qed.

(** X13. A registration that returns a user has appended exactly that
    row to [users]: it carries the given name and email, a bcrypt hash of
    the password at the configured cost in place of the password, no
    verification and no scheduled deletion, and equal creation and update
    instants read from the clock during the call; no user had the email
    before, and the other tables are untouched. *)
Theorem X13_register_appends_user cfg ctx name email password w u w' :
  UserService_Create (ProvideUserService cfg) ctx name email password w = (Ret u, w') ->
  users (store w') = (users (store w) ++ [u])%list /\
  auth_tokens (store w') = auth_tokens (store w) /\
  password_resets (store w') = password_resets (store w) /\
  email_verifications (store w') = email_verifications (store w) /\
  User_Name u = name /\ User_Email u = email /\
  (exists salt,
     bcrypt_hash password (BcryptCost (Auth cfg)) salt = inr (User_PasswordHash u)) /\
  User_EmailVerifiedAt u = None /\ User_DeletionScheduledAt u = None /\
  User_CreatedAt u = User_UpdatedAt u /\
  clock w <= User_CreatedAt u <= clock w' /\
  (~ exists u0, In u0 (users (store w)) /\ User_Email u0 = email) /\
  stored_user w' email = Some u.
Proof.
  intros H.
  destruct (UserService_Create_Ret_inv _ _ _ _ _ _ _ _ H)
    as (id & createdAt & h & Hu & Hsalt & Hc1 & Hc2 & Hs & Hnone).
  rewrite Hs. subst u. simpl. repeat split; auto.
  - apply stored_user_None. exact Hnone.
  - unfold stored_user. rewrite Hs. simpl. apply find_app_fresh.
    + apply find_existsb_false. exact Hnone.
    + simpl. apply String.eqb_refl.
Qed.

Lemma AuthTokenRepository_Create_no_panic userID tokenHash expiresAt w o w' :
  AuthTokenRepository_Create NewAuthTokenRepository userID tokenHash expiresAt w = (o, w') ->
  no_panic o.
Proof.
  unfold AuthTokenRepository_Create. intros H.
  eapply bind_no_panic; [exact H | intros ? ?; apply uuid_New_no_panic |].
  intros id w1 o1 w2 _ H1.
  eapply bind_no_panic; [exact H1 | intros ? ?; apply time_Now_no_panic |].
  intros now w3 o3 w4 _ H3.
  eapply bind_no_panic; [exact H3 | |].
  - intros o5 w5 H5. eapply wrapping_no_panic; [exact H5|].
    intros ? ?. apply exec_no_panic.
  - intros x w5 o6 w6 _ H6. apply ret_inv' in H6. destruct H6 as (-> & _). exact I.
Qed.

Lemma generateToken_tame cfg userID w o w' :
  SessionService_generateToken (ProvideSessionService cfg) userID w = (o, w') -> tame o.
Proof.
  unfold SessionService_generateToken. simpl. intros H.
  eapply bind_tame; [exact H | |].
  { intros o1 w1 H1. eapply wrapping_tame; [exact H1|].
    intros o0 w0 H0. apply tame_no_panic. eapply GenerateSecureToken_tame. exact H0. }
  intros token w1 o1 w2 _ H1.
  eapply bind_tame; [exact H1 | |].
  { intros o2 w3 H2. destruct (time_Now_inv _ _ _ H2) as (-> & _). exact I. }
  intros now w3 o3 w4 _ H3.
  eapply bind_tame; [exact H3 | |].
  { intros o5 w5 H5. eapply wrapping_tame; [exact H5|].
    intros ? ?. apply AuthTokenRepository_Create_no_panic. }
  intros x w5 o6 w6 _ H6. eapply ret_tame. exact H6.
Qed.

(** [SessionService.Create] up to the issue of the token, when the lookup
    is answered and the stored user has no deletion scheduled. *)
Lemma SessionService_Create_answered cfg ctx email password w u :
  answered w ->
  stored_user w email = Some u ->
  bcrypt_matches (User_PasswordHash u) password = true ->
  User_DeletionScheduledAt u = None ->
  SessionService_Create (ProvideSessionService cfg) ctx email password w
  = (token <- wrapping "failed to generate token"
                (SessionService_generateToken (ProvideSessionService cfg) (User_ID u)) ;;
     ret (u, token)) (looked_up "GetUserByEmail" w).
Proof.
  intros Ha Hu Hpw Hdel.
  unfold SessionService_Create, UserRepository_GetByEmail. simpl.
  unfold bind at 1. unfold try, wrapping at 1.
  rewrite (exec_Pool_answered _ _ _ Ha).
  unfold sqlcgen.GetUserByEmail. unfold stored_user in Hu. simpl. rewrite Hu. simpl.
  rewrite Hpw, Hdel. reflexivity.
Qed.

(** X14. Registration and login fit together: given that bcrypt accepts
    a password against the hashes it made of it, a user that [Create]
    registered is let in by [SessionService.Create] with the same email
    and password, in any later state of the [users] table in which the
    lookup is answered: the result is the registered user with a fresh
    token, or the wrapped failure of issuing the token, and never
    [ErrInvalidCredentials]. *)
Theorem X14_registered_user_can_log_in
    cfg ctx name email password w u w' ctx2 w2 o w3 :
  (forall salt h, bcrypt_hash password (BcryptCost (Auth cfg)) salt = inr h ->
                  bcrypt_matches h password = true) ->
  UserService_Create (ProvideUserService cfg) ctx name email password w = (Ret u, w') ->
  answered w2 ->
  users (store w2) = users (store w') ->
  SessionService_Create (ProvideSessionService cfg) ctx2 email password w2 = (o, w3) ->
  (exists token, o = Ret (u, token) /\ stored_auth_token w3 token <> None) \/
  (exists e, o = Fail (eris_Wrap e "failed to generate token")).
Proof.
  intros Hlaw Hreg Ha Hrows H.
  destruct (UserService_Create_Ret_inv _ _ _ _ _ _ _ _ Hreg)
    as (id & createdAt & h & Hu & (salt & Hsalt) & _ & _ & Hs & Hnone).
  assert (Hst : stored_user w2 email = Some u).
  { unfold stored_user. rewrite Hrows, Hs. simpl. apply find_app_fresh.
    - apply find_existsb_false. exact Hnone.
    - subst u. simpl. apply String.eqb_refl. }
  assert (Hpw : bcrypt_matches (User_PasswordHash u) password = true).
  { subst u. simpl. exact (Hlaw salt h Hsalt). }
  assert (Hdel : User_DeletionScheduledAt u = None) by (subst u; reflexivity).
  rewrite (SessionService_Create_answered _ _ _ _ _ _ Ha Hst Hpw Hdel) in H.
  unfold bind, wrapping in H.
  destruct (SessionService_generateToken (ProvideSessionService cfg) (User_ID u)
              (looked_up "GetUserByEmail" w2)) as [[token|e|v] w4] eqn:Eg.
  - left. exists token. injection H as <- <-. split; [reflexivity|].
    destruct (generateToken_Ret_stored _ _ _ _ _ Eg) as (t & Ht & _).
    rewrite Ht. discriminate.
  - right. exists e. injection H as <- _. reflexivity.
  - exfalso. apply (generateToken_tame _ _ _ _ _ Eg).
Qed.

(** X15. With the lookup answered by the server, [GetByID] and
    [GetByEmail] return the stored row, or [ErrUserNotFound] when there is
    none; with the lookup failed by the driver they return the failure
    wrapped, unless the failure itself is [sql.ErrNoRows]. *)
Theorem X15_user_lookups cfg ctx id email w :
  (answered w ->
   fst (UserService_GetByID (ProvideUserService cfg) ctx id w)
   = match user_by_id (store w) id with
     | Some u => Ret u
     | None => Fail ErrUserNotFound
     end /\
   fst (UserService_GetByEmail (ProvideUserService cfg) ctx email w)
   = match stored_user w email with
     | Some u => Ret u
     | None => Fail ErrUserNotFound
     end) /\
  (forall e, fst (next_fault w) = Some e -> eris_Is e sql_ErrNoRows = false ->
   fst (UserService_GetByID (ProvideUserService cfg) ctx id w)
   = Fail (eris_Wrap (eris_Wrap e "failed to get user by id") "failed to get user by ID") /\
   fst (UserService_GetByEmail (ProvideUserService cfg) ctx email w)
   = Fail (eris_Wrap (eris_Wrap e "failed to get user by email")
             "failed to get user by email")).
Proof.
  split.
  - intros Ha. split.
    + unfold UserService_GetByID, UserRepository_GetByID, bind, try, wrapping. simpl.
      rewrite (exec_Pool_answered _ _ _ Ha).
      unfold sqlcgen.GetUserByID, user_by_id. simpl.
      destruct (find _ (users (store w))); reflexivity.
    + unfold UserService_GetByEmail, UserRepository_GetByEmail, bind, try, wrapping. simpl.
      rewrite (exec_Pool_answered _ _ _ Ha).
      unfold sqlcgen.GetUserByEmail, stored_user. simpl.
      destruct (find _ (users (store w))); reflexivity.
  - intros e He Hno. split.
    + unfold UserService_GetByID, UserRepository_GetByID, bind, try, wrapping. simpl.
      rewrite (exec_Pool_fault _ _ _ _ He). simpl.
      change (eris_Is (eris_Wrap e "failed to get user by id") sql_ErrNoRows)
        with (false || eris_Is e sql_ErrNoRows).
      rewrite Hno. reflexivity.
    + unfold UserService_GetByEmail, UserRepository_GetByEmail, bind, try, wrapping. simpl.
      rewrite (exec_Pool_fault _ _ _ _ He). simpl.
      change (eris_Is (eris_Wrap e "failed to get user by email") sql_ErrNoRows)
        with (false || eris_Is e sql_ErrNoRows).
      rewrite Hno. reflexivity.
Qed.

(** *** EmailVerificationService.Verify *)

Lemma Verify_unfold cfg ctx token :
  EmailVerificationService_Verify (ProvideEmailVerificationService cfg) ctx token
  = (r <- try (EmailVerificationRepository_GetByTokenHash NewEmailVerificationRepository
                 (HashToken token)) ;;
     match r with
     | inl err =>
         if eris_Is err sql_ErrNoRows
         then fail ErrInvalidVerificationToken
         else fail (eris_Wrap err "failed to get email verification by token hash")
     | inr verification =>
         if negb (is_null (EmailVerification_UsedAt verification))
         then fail ErrTokenAlreadyUsed
         else
           now <- time_Now ;;
           if Time_After now (EmailVerification_ExpiresAt verification)
           then fail ErrTokenExpired
           else RunInTx (Verify_tx cfg verification)
     end).
Proof. reflexivity. Qed.

Lemma Verify_tx_inv cfg v tx w o w' :
  Verify_tx cfg v tx w = (o, w') ->
  store w' = store w /\
  (o = Ret tt ->
   exists d t1 t2 t3,
     tx_lookup tx (txns w) = Some d
     /\ clock w <= t1
     /\ tx_lookup tx (txns w') = Some (verify_rows v t1 t2 t3 d)
     /\ log w' = EvQuery (InTx tx) "InvalidateAllEmailVerificationsForUser"
                 :: EvQuery (InTx tx) "MarkEmailVerificationUsed"
                 :: EvQuery (InTx tx) "MarkUserEmailVerified" :: log w).
Proof.
  unfold Verify_tx, UserRepository_MarkEmailVerified, EmailVerificationRepository_MarkUsed,
    EmailVerificationRepository_InvalidateAllForUser.
  simpl. intros H.
  apply (tx_step_inv _ _ _ (fun now => sqlcgen.MarkUserEmailVerified (Some now) now _)) in H.
  destruct H as [(a1 & w1 & d & t1 & Hs1 & _ & Hl0 & Hc1 & _ & _ & Hl1 & Hlog1 & H)
                |(Hno & Hs & _)];
    [|split; [exact Hs | intros ->; exfalso; apply (Hno tt); reflexivity]].
  apply (tx_step_inv _ _ _ (fun now => sqlcgen.MarkEmailVerificationUsed (Some now) _)) in H.
  destruct H as [(a2 & w2 & d1 & t2 & Hs2 & _ & Hl1' & _ & _ & _ & Hl2 & Hlog2 & H)
                |(Hno & Hs & _)];
    [|split; [congruence | intros ->; exfalso; apply (Hno tt); reflexivity]].
  apply (tx_step_inv _ _ _
           (fun now => sqlcgen.InvalidateAllEmailVerificationsForUser (Some now) _)) in H.
  destruct H as [(a3 & w3 & d2 & t3 & Hs3 & _ & Hl2' & _ & _ & _ & Hl3 & Hlog3 & H)
                |(Hno & Hs & _)];
    [|split; [congruence | intros ->; exfalso; apply (Hno tt); reflexivity]].
  apply ret_inv' in H. destruct H as (_ & <-).
  split; [congruence|]. intros _.
  rewrite Hl1 in Hl1'. inversion Hl1'. subst d1.
  rewrite Hl2 in Hl2'. inversion Hl2'. subst d2.
  exists d, t1, t2, t3. split; [assumption|]. split; [assumption|]. split; [exact Hl3|].
  rewrite Hlog3, Hlog2, Hlog1. reflexivity.
Qed.

Lemma Verify_tx_tame cfg v tx w o w' : Verify_tx cfg v tx w = (o, w') -> tame o.
Proof.
  unfold Verify_tx, UserRepository_MarkEmailVerified, EmailVerificationRepository_MarkUsed,
    EmailVerificationRepository_InvalidateAllForUser.
  simpl. intros H.
  repeat (eapply bind_tame; [exact H | intros ? ?; apply step_tame |];
          clear H; intros ? ? ? ? _ H).
  eapply ret_tame. exact H.
Qed.

(** The lookup of a verification token on the pool reads and changes
    nothing. *)
Lemma Verification_GetByTokenHash_inv token w o w' :
  EmailVerificationRepository_GetByTokenHash NewEmailVerificationRepository
    (HashToken token) w = (o, w') ->
  store w' = store w /\ txns w' = txns w /\ clock w' = clock w /\
  ((exists e, o = Fail (eris_Wrap e "failed to get email verification by token hash")
              /\ log w' = EvFault "GetEmailVerificationByTokenHash" e :: log w) \/
   (o = match stored_verification w token with
        | Some v => Ret v
        | None =>
            Fail (eris_Wrap sql_ErrNoRows "failed to get email verification by token hash")
        end
    /\ log w' = EvQuery Pool "GetEmailVerificationByTokenHash" :: log w)).
Proof.
  unfold EmailVerificationRepository_GetByTokenHash. simpl. intros H.
  unfold wrapping in H.
  destruct (exec Pool _ _ w) as [o1 w1] eqn:E.
  destruct (exec_Pool_inv _ _ _ _ _ E) as (Ht & Hc & Hcase).
  assert (w1 = w') by (destruct o1; inversion H; reflexivity). subst w1.
  destruct Hcase as [(e & -> & Hs & Hl & _)|(-> & Hs & Hl & _)].
  - inversion H. subst. repeat split; auto. left. eexists. split; [reflexivity|]. exact Hl.
  - simpl in Hs. repeat split; auto. right.
    unfold sqlcgen.GetEmailVerificationByTokenHash in H. simpl in H.
    unfold stored_verification. split; [|exact Hl].
    destruct (find _ _); simpl in *; inversion H; reflexivity.
Qed.

(** The runs of [RunInTx] around the closure of [Verify]. *)
Lemma RunInTx_Verify_inv cfg v w o w' :
  RunInTx (Verify_tx cfg v) w = (o, w') ->
  (o = Ret tt ->
   exists tx t1 t2 t3,
     clock w <= t1
     /\ store w' = verify_rows v t1 t2 t3 (store w)
     /\ log w' = EvCommit tx
                 :: EvQuery (InTx tx) "InvalidateAllEmailVerificationsForUser"
                 :: EvQuery (InTx tx) "MarkEmailVerificationUsed"
                 :: EvQuery (InTx tx) "MarkUserEmailVerified"
                 :: EvBegin tx :: log w) /\
  (o <> Ret tt -> store w' = store w).
Proof.
  intros H. apply RunInTx_inv in H.
  destruct H as [(e & Hb & ->)|(tx & w1 & Hb & H)].
  { destruct (BeginTx_inv _ _ _ Hb) as (Hs & _). split; [discriminate | auto]. }
  destruct (BeginTx_inv _ _ _ Hb) as (Hs1 & Hc1 & [(e & C & _)|(Htx & Ht1 & Hl1)]);
    [discriminate|].
  injection Htx as Htx. subst tx.
  destruct H as [(x & Hf & ->)|[(e & w2 & Hf & H)|(a & w2 & Hf & H)]];
    destruct (Verify_tx_inv _ _ _ _ _ _ Hf) as (Hs2 & Hok).
  - split; [discriminate | intros _; congruence].
  - destruct H as [(Hr & ->)|(rbErr & Hr & ->)];
      destruct (Tx_Rollback_inv _ _ _ _ Hr) as (Hs3 & _);
      (split; [discriminate | intros _; congruence]).
  - destruct a.
    destruct (Hok eq_refl) as (d & t1 & t2 & t3 & Hd & Hct & Hd' & Hl2).
    rewrite Ht1 in Hd. simpl in Hd. rewrite Nat.eqb_refl in Hd. injection Hd as Hd. subst d.
    destruct H as [(Hc & ->)|(e & Hc & ->)].
    + destruct (Tx_Commit_inv _ _ _ _ Hc) as (_ & [C|[C|C]]).
      * destruct C as (C & _). discriminate.
      * destruct C as (d & e & _ & C & _). discriminate.
      * destruct C as (d & Hd3 & _ & Hs3 & _ & Hl3).
        rewrite Hd' in Hd3. injection Hd3 as Hd3. rewrite <- Hd3 in Hs3.
        split; [|intros C; exfalso; apply C; reflexivity].
        intros _. exists (next_tx w), t1, t2, t3.
        split; [lia|]. split; [exact Hs3|].
        rewrite Hl3, Hl2, Hl1. reflexivity.
    + destruct (Tx_Commit_inv _ _ _ _ Hc) as (_ & [C|[C|C]]).
      * destruct C as (_ & _ & ->). split; [discriminate | intros _; congruence].
      * destruct C as (d & e' & _ & _ & Hs3 & _).
        split; [discriminate | intros _; congruence].
      * destruct C as (d & _ & C & _). discriminate.
Qed.

(** What the three statements leave in the tables. *)
Lemma verify_rows_user v t1 t2 t3 d u :
  In u (users (verify_rows v t1 t2 t3 d)) ->
  User_ID u = EmailVerification_UserID v ->
  User_EmailVerifiedAt u = Some t1 /\ User_UpdatedAt u = t1.
Proof.
  unfold verify_rows. simpl. intros Hin Hid.
  apply in_map_iff in Hin. destruct Hin as (u0 & Hu & _).
  destruct (Nat.eqb (User_ID u0) (EmailVerification_UserID v)) eqn:E.
  - subst u. auto.
  - subst u. apply Nat.eqb_neq in E. contradiction.
Qed.

Lemma verify_rows_other_users v t1 t2 t3 d u :
  In u (users d) -> User_ID u <> EmailVerification_UserID v ->
  In u (users (verify_rows v t1 t2 t3 d)).
Proof.
  unfold verify_rows. simpl. intros Hin Hid.
  apply in_map_iff. exists u. split; [|assumption].
  apply Nat.eqb_neq in Hid. rewrite Hid. reflexivity.
Qed.

Lemma verify_rows_verifications v t1 t2 t3 d x :
  In x (email_verifications (verify_rows v t1 t2 t3 d)) ->
  EmailVerification_UserID x = EmailVerification_UserID v ->
  EmailVerification_UsedAt x <> None.
Proof.
  unfold verify_rows. simpl. intros Hin Hid.
  apply in_map_iff in Hin. destruct Hin as (x0 & Hx & _).
  destruct (Nat.eqb (EmailVerification_UserID x0) (EmailVerification_UserID v)) eqn:E.
  - destruct (EmailVerification_UsedAt x0) eqn:Eu; simpl in Hx; subst x; simpl; congruence.
  - simpl in Hx. subst x. apply Nat.eqb_neq in E. contradiction.
Qed.

(** X16. For the verification row stored under the raw token: when
    [Verify] returns nil, the row was unused and unexpired and, in one
    transaction that was committed, the user of the row got
    [email_verified_at] set to a clock reading of the call, no verification
    row of that user is left unused, and sessions and password resets are
    untouched; when [Verify] returns anything else, the committed rows are
    what they were before the call. *)
Theorem X16_Verify_atomic cfg ctx token w v o w' :
  stored_verification w token = Some v ->
  EmailVerificationService_Verify (ProvideEmailVerificationService cfg) ctx token w
    = (o, w') ->
  (o = Ret tt ->
     EmailVerification_UsedAt v = None /\
     clock w <= EmailVerification_ExpiresAt v /\
     exists tx t1,
       clock w <= t1 /\
       (forall u, In u (users (store w')) -> User_ID u = EmailVerification_UserID v ->
                  User_EmailVerifiedAt u = Some t1) /\
       (forall u, In u (users (store w)) -> User_ID u <> EmailVerification_UserID v ->
                  In u (users (store w'))) /\
       (forall x, In x (email_verifications (store w')) ->
                  EmailVerification_UserID x = EmailVerification_UserID v ->
                  EmailVerification_UsedAt x <> None) /\
       auth_tokens (store w') = auth_tokens (store w) /\
       password_resets (store w') = password_resets (store w) /\
       log w' = EvCommit tx
                :: EvQuery (InTx tx) "InvalidateAllEmailVerificationsForUser"
                :: EvQuery (InTx tx) "MarkEmailVerificationUsed"
                :: EvQuery (InTx tx) "MarkUserEmailVerified"
                :: EvBegin tx
                :: EvQuery Pool "GetEmailVerificationByTokenHash" :: log w) /\
  (o <> Ret tt -> store w' = store w).
Proof.
  intros Hstored H. rewrite Verify_unfold in H.
  apply bind_inv in H. destruct H as [(x & w1 & Hget & H)|(_ & o1 & Hget & Hn)].
  2:{ exfalso. unfold try in Hget.
      destruct (EmailVerificationRepository_GetByTokenHash _ _ w) as [[a|e|p] w2] eqn:E;
        inversion Hget; subst; try (eapply Hn; reflexivity).
      destruct (Verification_GetByTokenHash_inv _ _ _ _ E)
        as (_ & _ & _ & [(e & C & _)|(C & _)]).
      - discriminate.
      - rewrite Hstored in C. discriminate. }
  apply try_Ret_inv in Hget.
  destruct Hget as [(a & -> & Hget)|(e & -> & Hget)];
    destruct (Verification_GetByTokenHash_inv _ _ _ _ Hget) as (Hs1 & Ht1 & Hc1 & Hcase).
  2:{ assert (Ho : forall b, o <> Ret b).
      { destruct (eris_Is e sql_ErrNoRows); inversion H; discriminate. }
      assert (w' = w1) by (destruct (eris_Is e sql_ErrNoRows); inversion H; reflexivity).
      subst w'. split; [intros ->; exfalso; apply (Ho tt); reflexivity | intros _; exact Hs1]. }
  destruct Hcase as [(e & C & _)|(C & Hlog1)]; [discriminate|].
  rewrite Hstored in C. inversion C. subst a. clear C.
  destruct (is_null (EmailVerification_UsedAt v)) eqn:Eused; simpl in H.
  2:{ inversion H. subst. split; [discriminate | intros _; exact Hs1]. }
  apply is_null_true in Eused.
  apply bind_inv in H. destruct H as [(now & w2 & Hnow & H)|(_ & o1 & Hnow & Hn)].
  2:{ exfalso. destruct (time_Now_inv _ _ _ Hnow) as (-> & _). apply (Hn (clock w1)).
      reflexivity. }
  destruct (time_Now_inv _ _ _ Hnow) as (Hn & Hs2 & Ht2 & Hl2 & Hc2).
  inversion Hn. subst now. clear Hn.
  unfold Time_After in H.
  destruct (Z.ltb_spec (EmailVerification_ExpiresAt v) (clock w1)) as [Hexp|Hexp].
  { inversion H. subst. split; [discriminate | intros _; congruence]. }
  destruct (RunInTx_Verify_inv _ _ _ _ _ H) as (Hok & Hfail).
  split; [|intros Hne; rewrite (Hfail Hne); congruence].
  intros Ho. destruct (Hok Ho) as (tx & t1 & t2 & t3 & Hct & Hs3 & Hl3).
  split; [assumption|]. split; [lia|].
  exists tx, t1. rewrite Hs3, Hs2, Hs1.
  split; [lia|].
  split; [intros u Hin Hid; apply (verify_rows_user _ _ _ _ _ _ Hin Hid)|].
  split; [intros u; apply verify_rows_other_users|].
  split; [intros x; apply verify_rows_verifications|].
  split; [reflexivity|]. split; [reflexivity|].
  rewrite Hl3, Hl2, Hlog1. reflexivity.
Qed.

(** [Verify] up to its branch on the stored row, when the lookup is
    answered. *)
Lemma Verify_answered cfg ctx token w :
  answered w ->
  EmailVerificationService_Verify (ProvideEmailVerificationService cfg) ctx token w
  = match stored_verification w token with
    | None =>
        (Fail ErrInvalidVerificationToken, looked_up "GetEmailVerificationByTokenHash" w)
    | Some v =>
        if negb (is_null (EmailVerification_UsedAt v))
        then (Fail ErrTokenAlreadyUsed, looked_up "GetEmailVerificationByTokenHash" w)
        else
          (now <- time_Now ;;
           if Time_After now (EmailVerification_ExpiresAt v)
           then fail ErrTokenExpired
           else RunInTx (Verify_tx cfg v))
            (looked_up "GetEmailVerificationByTokenHash" w)
    end.
Proof.
  intros Ha. rewrite Verify_unfold.
  unfold EmailVerificationRepository_GetByTokenHash. simpl.
  unfold bind at 1. unfold try, wrapping at 1.
  rewrite (exec_Pool_answered _ _ _ Ha).
  unfold sqlcgen.GetEmailVerificationByTokenHash, stored_verification, looked_up. simpl.
  destruct (find _ (email_verifications (store w))) as [v|]; simpl; [|reflexivity].
  destruct (is_null (EmailVerification_UsedAt v)); reflexivity.
Qed.

(** X17. With the lookup answered by the server, [Verify] fails with
    [ErrInvalidVerificationToken] exactly when no verification row carries
    the hash of the token, with [ErrTokenAlreadyUsed] exactly when the
    stored row has [used_at] set, and with [ErrTokenExpired] exactly when
    the stored row is unused and its [expires_at] is before the clock
    reading; in these three cases no row changed and no transaction was
    begun. *)
Theorem X17_Verify_refusals cfg ctx token w o w' :
  answered w ->
  EmailVerificationService_Verify (ProvideEmailVerificationService cfg) ctx token w
    = (o, w') ->
  (o = Fail ErrInvalidVerificationToken <-> stored_verification w token = None) /\
  (o = Fail ErrTokenAlreadyUsed <->
     exists v, stored_verification w token = Some v /\ EmailVerification_UsedAt v <> None) /\
  (o = Fail ErrTokenExpired <->
     exists v, stored_verification w token = Some v /\ EmailVerification_UsedAt v = None
               /\ EmailVerification_ExpiresAt v < clock w) /\
  (o = Fail ErrInvalidVerificationToken \/ o = Fail ErrTokenAlreadyUsed
   \/ o = Fail ErrTokenExpired ->
   store w' = store w /\ txns w' = txns w
   /\ log w' = EvQuery Pool "GetEmailVerificationByTokenHash" :: log w).
Proof.
  intros Ha H. rewrite (Verify_answered _ _ _ _ Ha) in H.
  destruct (looked_up_facts "GetEmailVerificationByTokenHash" w)
    as (Hs & Ht & Hc & _ & Hl).
  destruct (stored_verification w token) as [v|].
  2:{ injection H as <- <-.
      split; [split; intros _; reflexivity|].
      split; [split; [discriminate | intros (v & C & _); discriminate]|].
      split; [split; [discriminate | intros (v & C & _); discriminate]|].
      intros _. auto. }
  destruct (EmailVerification_UsedAt v) as [u|] eqn:Eu; simpl in H.
  { injection H as <- <-.
    split; [split; discriminate|].
    split; [split; [intros _; exists v; split; [reflexivity | congruence]
                   | intros _; reflexivity]|].
    split; [split; [discriminate | intros (v' & C & C' & _); congruence]|].
    intros _. auto. }
  unfold bind at 1 in H.
  destruct (time_Now (looked_up "GetEmailVerificationByTokenHash" w)) as [o1 w1] eqn:En.
  destruct (time_Now_inv _ _ _ En) as (-> & Hs1 & Ht1 & Hl1 & _).
  rewrite Hc in H. unfold Time_After in H.
  destruct (Z.ltb_spec (EmailVerification_ExpiresAt v) (clock w)) as [Hlt|Hge].
  { injection H as <- <-.
    split; [split; discriminate|].
    split; [split; [discriminate | intros (v' & C & C'); congruence]|].
    split; [split; [intros _; exists v; auto | intros _; reflexivity]|].
    intros _. repeat split; congruence. }
  assert (Htame : tame o).
  { eapply RunInTx_tame; [exact H|]. intros tx w2 o2 w3. apply Verify_tx_tame. }
  split; [split; [intros C; exfalso; revert C; apply tame_not_sentinel; exact Htame
                 | discriminate]|].
  split; [split; [intros C; exfalso; revert C; apply tame_not_sentinel; exact Htame
                 | intros (v' & C & C'); congruence]|].
  split; [split; [intros C; exfalso; revert C; apply tame_not_sentinel; exact Htame
                 | intros (v' & C & _ & C'); injection C as <-; lia]|].
  intros [C|[C|C]]; exfalso; revert C; apply tame_not_sentinel; exact Htame.
Qed.

(** A verification that went through. *)
Lemma Verify_Ret_inv cfg ctx token w w' :
  EmailVerificationService_Verify (ProvideEmailVerificationService cfg) ctx token w
    = (Ret tt, w') ->
  exists v t1 t2 t3,
    stored_verification w token = Some v
    /\ store w' = verify_rows v t1 t2 t3 (store w).
Proof.
  intros H. rewrite Verify_unfold in H.
  apply bind_Ret_inv in H. destruct H as (x & w1 & Hget & H).
  apply try_Ret_inv in Hget.
  destruct Hget as [(v & -> & Hget)|(e & -> & Hget)].
  2:{ destruct (eris_Is e sql_ErrNoRows); discriminate. }
  destruct (Verification_GetByTokenHash_inv _ _ _ _ Hget)
    as (Hs1 & _ & _ & [(e & C & _)|(C & _)]); [discriminate|].
  destruct (stored_verification w token) as [v0|] eqn:Est; [|discriminate].
  injection C as <-.
  destruct (is_null (EmailVerification_UsedAt v)); simpl in H; [|discriminate].
  apply bind_Ret_inv in H. destruct H as (now & w2 & Hnow & H).
  destruct (time_Now_inv _ _ _ Hnow) as (_ & Hs2 & _).
  destruct (Time_After now (EmailVerification_ExpiresAt v)); [discriminate|].
  destruct (RunInTx_Verify_inv _ _ _ _ _ H) as (Hok & _).
  destruct (Hok eq_refl) as (tx & t1 & t2 & t3 & _ & Hs3 & _).
  exists v, t1, t2, t3. split; [reflexivity|]. congruence.
Qed.

(** X18. A verification token works once, and verifying retires every
    other link sent to the user: after a [Verify] that returned nil, a
    further [Verify] with the same token, or with any other token that was
    stored for the same user, fails with [ErrTokenAlreadyUsed] (the lookup
    being answered). *)
Theorem X18_verification_token_single_use cfg ctx token w w' v other x ctx2 w2 :
  EmailVerificationService_Verify (ProvideEmailVerificationService cfg) ctx token w
    = (Ret tt, w') ->
  stored_verification w token = Some v ->
  stored_verification w other = Some x ->
  EmailVerification_UserID x = EmailVerification_UserID v ->
  answered w2 ->
  email_verifications (store w2) = email_verifications (store w') ->
  fst (EmailVerificationService_Verify (ProvideEmailVerificationService cfg) ctx2 token w2)
    = Fail ErrTokenAlreadyUsed /\
  fst (EmailVerificationService_Verify (ProvideEmailVerificationService cfg) ctx2 other w2)
    = Fail ErrTokenAlreadyUsed.
Proof.
  intros H Hv Hx Hu Ha Hrows.
  destruct (Verify_Ret_inv _ _ _ _ _ H) as (v' & t1 & t2 & t3 & Hst & Hs).
  rewrite Hv in Hst. injection Hst as <-.
  assert (Hused : forall tok y,
            stored_verification w tok = Some y ->
            EmailVerification_UserID y = EmailVerification_UserID v ->
            exists y', stored_verification w2 tok = Some y'
                       /\ EmailVerification_UsedAt y' <> None).
  { intros tok y Hy Hid. unfold stored_verification. rewrite Hrows, Hs.
    unfold verify_rows. simpl.
    rewrite find_map_same.
    2:{ intros z. destruct (_ && _); reflexivity. }
    rewrite find_map_same.
    2:{ intros z. destruct (Nat.eqb _ _); reflexivity. }
    unfold stored_verification in Hy. rewrite Hy. simpl.
    eexists. split; [reflexivity|].
    destruct (Nat.eqb (EmailVerification_ID y) (EmailVerification_ID v)); simpl.
    - rewrite andb_false_r. simpl. discriminate.
    - rewrite Hid, Nat.eqb_refl. simpl.
      destruct (EmailVerification_UsedAt y) eqn:Ey; simpl; [rewrite Ey|]; discriminate. }
  split.
  - destruct (Hused token v Hv eq_refl) as (y' & Hy' & Hu').
    rewrite (Verify_answered _ _ _ _ Ha), Hy'.
    destruct (EmailVerification_UsedAt y'); [reflexivity | congruence].
  - destruct (Hused other x Hx Hu) as (y' & Hy' & Hu').
    rewrite (Verify_answered _ _ _ _ Ha), Hy'.
    destruct (EmailVerification_UsedAt y'); [reflexivity | congruence].
Qed.

(** *** EmailVerificationService.Send and Resend *)

Lemma CreateEmailVerification_cases id userID tokenHash expiresAt createdAt d :
  (exists e, fst (sqlcgen.CreateEmailVerification id userID tokenHash expiresAt createdAt d)
             = inl e
             /\ snd (sqlcgen.CreateEmailVerification id userID tokenHash expiresAt createdAt d)
                = d) \/
  (fst (sqlcgen.CreateEmailVerification id userID tokenHash expiresAt createdAt d) = inr tt
   /\ snd (sqlcgen.CreateEmailVerification id userID tokenHash expiresAt createdAt d)
      = set_email_verifications d
          (email_verifications d
             ++ [mkEmailVerification id userID tokenHash expiresAt None createdAt])
   /\ existsb (fun v => String.eqb (EmailVerification_TokenHash v) tokenHash)
        (email_verifications d) = false
   /\ sqlcgen.user_exists userID d = true).
Proof.
  unfold sqlcgen.CreateEmailVerification.
  destruct (existsb (fun v => Nat.eqb (EmailVerification_ID v) id) (email_verifications d));
    [left; simpl; eexists; split; reflexivity|].
  destruct (existsb (fun v => String.eqb (EmailVerification_TokenHash v) tokenHash)
              (email_verifications d));
    [left; simpl; eexists; split; reflexivity|].
  destruct (sqlcgen.user_exists userID d); simpl;
    [right; auto | left; eexists; split; reflexivity].
Qed.

(** The runs of [EmailVerificationRepository.Create] on the pool: the
    insert failed and nothing changed, or the row was appended. *)
Lemma Verification_Create_inv userID tokenHash expiresAt w o w' :
  EmailVerificationRepository_Create NewEmailVerificationRepository userID tokenHash
    expiresAt w = (o, w') ->
  txns w' = txns w /\ dispatched w' = dispatched w /\
  ((exists e, o = Fail (eris_Wrap e "failed to create email verification")
              /\ store w' = store w) \/
   (exists id createdAt,
      o = Ret (mkEmailVerification id userID tokenHash expiresAt None createdAt)
      /\ store w'
         = set_email_verifications (store w)
             (email_verifications (store w)
                ++ [mkEmailVerification id userID tokenHash expiresAt None createdAt])
      /\ existsb (fun v => String.eqb (EmailVerification_TokenHash v) tokenHash)
           (email_verifications (store w)) = false
      /\ sqlcgen.user_exists userID (store w) = true
      /\ log w' = EvQuery Pool "CreateEmailVerification" :: log w)).
Proof.
  unfold EmailVerificationRepository_Create. simpl. unfold bind at 1.
  destruct (uuid_New w) as [o1 w1] eqn:Eu.
  destruct (uuid_New_inv _ _ _ Eu) as (-> & Hs1 & Ht1 & Hl1 & _).
  unfold bind at 1.
  destruct (time_Now w1) as [o2 w2] eqn:En.
  destruct (time_Now_inv _ _ _ En) as (-> & Hs2 & Ht2 & Hl2 & _).
  unfold bind, wrapping.
  match goal with
  | |- context [exec Pool ?n ?q w2] => destruct (exec Pool n q w2) as [o3 w3] eqn:Ee
  end.
  pose proof (exec_dispatched _ _ _ _ _ _ Ee) as Hd3.
  destruct (exec_Pool_inv _ _ _ _ _ Ee) as (Ht3 & _ & Hcase).
  assert (Hd : dispatched w3 = dispatched w).
  { rewrite Hd3. unfold dispatched. congruence. }
  destruct Hcase as [(e & -> & Hs3 & _)|(-> & Hs3 & Hl3 & _)].
  - intros H. injection H as <- <-. split; [congruence|]. split; [exact Hd|].
    left. exists e. split; [reflexivity | congruence].
  - assert (Hst : store w2 = store w) by congruence. rewrite Hst in *.
    destruct (CreateEmailVerification_cases (next_uuid w) userID tokenHash expiresAt
                (clock w1) (store w)) as [(e & Hf & Hsn)|(Hf & Hsn & Hfresh & Hex)];
      rewrite Hf; simpl; intros H; injection H as <- <-;
      (split; [congruence|]); (split; [exact Hd|]).
    + left. exists e. split; [reflexivity | congruence].
    + right. exists (next_uuid w), (clock w1).
      split; [reflexivity|]. split; [congruence|]. split; [assumption|].
      split; [assumption | congruence].
Qed.

Lemma Send_unfold cfg ctx userID :
  EmailVerificationService_Send (ProvideEmailVerificationService cfg) ctx userID
  = (user <- wrapping "failed to get user by id"
               (UserRepository_GetByID NewUserRepository userID) ;;
     if negb (is_null (User_EmailVerifiedAt user))
     then fail ErrEmailAlreadyVerified
     else Send_issue cfg ctx userID user).
Proof. reflexivity. Qed.

(** The runs of [Send] after the lookup. *)
Lemma Send_issue_inv cfg ctx userID user w o w' :
  Send_issue cfg ctx userID user w = (o, w') ->
  (exists e, o = Fail (eris_Wrap e "failed to generate verification token")
             /\ store w' = store w /\ log w' = log w) \/
  (exists e, o = Fail (eris_Wrap e "failed to invalidate email verifications for user")
             /\ store w' = store w /\ dispatched w' = dispatched w) \/
  (exists e t, o = Fail (eris_Wrap e "failed to create email verification")
               /\ clock w <= t
               /\ store w' = invalidated_rows t userID (store w)
               /\ dispatched w' = dispatched w) \/
  (exists token id createdAt t ev,
     o = Ret tt
     /\ String.length token = 64%nat
     /\ clock w <= t
     /\ store w'
        = set_email_verifications (store w)
            (email_verifications (invalidated_rows t userID (store w))
               ++ [mkEmailVerification id userID (HashToken token)
                     (clock w + EmailConfirmationTokenTTL (Auth cfg)) None createdAt])
     /\ stored_verification w token = None
     /\ sqlcgen.user_exists userID (store w) = true
     /\ log w' = ev :: EvQuery Pool "CreateEmailVerification"
                    :: EvQuery Pool "InvalidateAllEmailVerificationsForUser" :: log w
     /\ ((exists jobID, ev = enqueued ctx cfg jobID (verification_email cfg user token))
         \/ (exists e, ev = EvCapture e))).
Proof.
  unfold Send_issue. simpl.
  unfold bind at 1. unfold wrapping at 1.
  destruct (GenerateSecureToken 32 w) as [[token|e|v] w1] eqn:Eg.
  2:{ intros H. injection H as <- <-.
      destruct (GenerateSecureToken_inv _ _ _ _ Eg) as (Hs & _ & Hl & _).
      left. exists e. auto. }
  2:{ exfalso. apply (GenerateSecureToken_tame _ _ _ _ Eg). }
  pose proof (GenerateSecureToken_Ret_length _ _ _ _ Eg) as Hlen.
  destruct (GenerateSecureToken_inv _ _ _ _ Eg) as (Hs1 & _ & Hl1 & Hc1).
  unfold bind at 1.
  destruct (time_Now w1) as [o2 w2] eqn:En.
  destruct (time_Now_inv _ _ _ En) as (-> & Hs2 & _ & Hl2 & Hc2).
  unfold EmailVerificationRepository_InvalidateAllForUser. simpl. intros H.
  apply (pool_step_inv _ _ _
           (fun now => sqlcgen.InvalidateAllEmailVerificationsForUser (Some now) userID))
    in H.
  assert (Hst2 : store w2 = store w) by congruence.
  assert (Hlg2 : log w2 = log w) by congruence.
  destruct H as [(e & -> & Hs3 & Hl3)|[(e & C & _)|(x & w3 & _ & Hs3 & Hl3 & Hc3 & H)]];
    [| discriminate |].
  { right. left. eexists. split; [reflexivity|]. split; [congruence|].
    rewrite (dispatched_cons _ _ _ Hl3 eq_refl). apply dispatched_same_log. exact Hlg2. }
  assert (Hd3 : dispatched w3 = dispatched w).
  { rewrite (dispatched_cons _ _ _ Hl3 eq_refl). apply dispatched_same_log. exact Hlg2. }
  rewrite Hst2 in Hs3. fold (invalidated_rows (clock w2) userID (store w)) in Hs3.
  unfold bind at 1 in H. unfold wrapping at 1 in H.
  match type of H with
  | context [EmailVerificationRepository_Create ?r ?a ?b ?c w3] =>
      destruct (EmailVerificationRepository_Create r a b c w3) as [o4 w4] eqn:Ec
  end.
  destruct (Verification_Create_inv _ _ _ _ _ _ Ec) as (_ & Hd4 & Hcase).
  destruct Hcase as [(e & -> & Hs4)|(id & createdAt & -> & Hs4 & Hfresh & Hex & Hl4)].
  { injection H as <- <-. right. right. left.
    eexists. exists (clock w2). split; [reflexivity|].
    split; [lia|]. split; [congruence | congruence]. }
  unfold bind in H.
  destruct (EnqueueCtx ctx TypeEmail (verification_email cfg user token)
              (EmailTaskOptions cfg) w4) as [o5 w5] eqn:Ee.
  destruct (EnqueueCtx_inv _ _ _ _ _ _ _ Ee) as (-> & Hs5 & Hev).
  injection H as <- <-.
  right. right. right.
  assert (Hev' : exists ev, log w5 = ev :: log w4 /\
            ((exists jobID, ev = enqueued ctx cfg jobID (verification_email cfg user token))
             \/ (exists e, ev = EvCapture e))).
  { destruct Hev as [(jobID & Hl5)|(e & Hl5)]; eexists; split; eauto.
    left. exists jobID. reflexivity. }
  destruct Hev' as (ev & Hl5 & Hev').
  exists token, id, createdAt, (clock w2), ev.
  split; [reflexivity|]. split; [exact Hlen|]. split; [lia|].
  rewrite Hs3 in Hs4, Hfresh, Hex.
  split.
  { rewrite Hs5, Hs4. rewrite Hc1. unfold Time_Add.
    unfold invalidated_rows, sqlcgen.InvalidateAllEmailVerificationsForUser,
      sqlcgen.use_verification_where, set_email_verifications. simpl. reflexivity. }
  split.
  { unfold stored_verification. apply find_existsb_false.
    unfold invalidated_rows, sqlcgen.InvalidateAllEmailVerificationsForUser,
      sqlcgen.use_verification_where in Hfresh. simpl in Hfresh.
    rewrite existsb_map_same in Hfresh; [exact Hfresh|].
    intros y. destruct (_ && _); reflexivity. }
  split; [exact Hex|].
  split; [rewrite Hl5, Hl4, Hl3, Hlg2; reflexivity | exact Hev'].
Qed.

Lemma invalidated_rows_used t userID d x :
  In x (email_verifications (invalidated_rows t userID d)) ->
  EmailVerification_UserID x = userID ->
  EmailVerification_UsedAt x <> None.
Proof.
  unfold invalidated_rows. simpl. intros Hin Hid.
  apply in_map_iff in Hin. destruct Hin as (x0 & Hx & _).
  destruct (Nat.eqb (EmailVerification_UserID x0) userID) eqn:E.
  - destruct (EmailVerification_UsedAt x0) eqn:Eu; simpl in Hx; subst x; simpl; congruence.
  - simpl in Hx. subst x. apply Nat.eqb_neq in E. contradiction.
Qed.

(** The lookup of [Send]. *)
Lemma Send_lookup_inv userID w o w' :
  wrapping "failed to get user by id" (UserRepository_GetByID NewUserRepository userID) w
    = (o, w') ->
  store w' = store w /\ clock w' = clock w /\ dispatched w' = dispatched w /\
  ((exists e, o = Fail (eris_Wrap e "failed to get user by id")) \/
   (exists u, o = Ret u /\ user_by_id (store w) userID = Some u
              /\ log w' = EvQuery Pool "GetUserByID" :: log w)).
Proof.
  unfold UserRepository_GetByID, wrapping. simpl.
  destruct (exec Pool "GetUserByID" (sqlcgen.GetUserByID userID) w) as [o1 w1] eqn:E.
  pose proof (exec_dispatched _ _ _ _ _ _ E) as Hd.
  destruct (exec_Pool_inv _ _ _ _ _ E) as (_ & Hc & Hcase). intros H.
  assert (w' = w1) by (destruct o1; inversion H; reflexivity). subst w1.
  destruct Hcase as [(e & -> & Hs & _)|(-> & Hs & Hl & _)].
  - injection H as <-. repeat split; auto. left. eauto.
  - simpl in Hs. repeat split; auto.
    unfold sqlcgen.GetUserByID in H. simpl in H. unfold user_by_id.
    destruct (find _ (users (store w))) as [u|]; simpl in H; injection H as <-.
    + right. exists u. auto.
    + left. eauto.
Qed.

(** X19. When [Send] returns nil, the user was stored and unverified
    and exactly one usable link is left: every verification row the user
    had is marked used, and one new row is appended that holds the hash of
    a fresh 64-character token, is unused and expires
    [EmailConfirmationTokenTTL] after the clock reading; the email handed
    to the broker goes to the user's address and carries the raw token. *)
Theorem X19_Send_leaves_one_usable_link cfg ctx userID w w' :
  EmailVerificationService_Send (ProvideEmailVerificationService cfg) ctx userID w
    = (Ret tt, w') ->
  exists u token new ev,
    user_by_id (store w) userID = Some u /\
    User_EmailVerifiedAt u = None /\
    String.length token = 64%nat /\
    stored_verification w' token = Some new /\
    EmailVerification_UserID new = userID /\
    EmailVerification_TokenHash new = HashToken token /\
    EmailVerification_ExpiresAt new = clock w + EmailConfirmationTokenTTL (Auth cfg) /\
    EmailVerification_UsedAt new = None /\
    (forall x, In x (email_verifications (store w')) ->
               EmailVerification_UserID x = userID ->
               EmailVerification_UsedAt x = None -> x = new) /\
    users (store w') = users (store w) /\
    log w' = ev :: EvQuery Pool "CreateEmailVerification"
                :: EvQuery Pool "InvalidateAllEmailVerificationsForUser"
                :: EvQuery Pool "GetUserByID" :: log w /\
    ((exists jobID, ev = enqueued ctx cfg jobID (verification_email cfg u token))
     \/ (exists e, ev = EvCapture e)).
Proof.
  intros H. rewrite Send_unfold in H.
  apply bind_Ret_inv in H. destruct H as (u & w1 & Hget & H).
  destruct (Send_lookup_inv _ _ _ _ Hget)
    as (Hs1 & Hc1 & _ & [(e & C)|(u' & Hu' & Hu & Hl1)]); [discriminate|].
  injection Hu' as <-.
  destruct (is_null (User_EmailVerifiedAt u)) eqn:Ever; simpl in H; [|discriminate].
  apply is_null_true in Ever.
  destruct (Send_issue_inv _ _ _ _ _ _ _ H)
    as [(e & C & _)|[(e & C & _)|[(e & t & C & _)
       |(token & id & createdAt & t & ev & _ & Hlen & Hct & Hs & Hnone & _ & Hl & Hev)]]];
    try discriminate.
  rewrite Hs1, Hc1 in Hs. rewrite Hl1 in Hl.
  exists u, token,
    (mkEmailVerification id userID (HashToken token)
       (clock w + EmailConfirmationTokenTTL (Auth cfg)) None createdAt), ev.
  split; [assumption|]. split; [assumption|]. split; [assumption|].
  split.
  { unfold stored_verification. rewrite Hs. simpl. apply find_app_fresh.
    - rewrite existsb_map_same.
      + apply find_existsb_false. unfold stored_verification in Hnone.
        rewrite Hs1 in Hnone. exact Hnone.
      + intros y. destruct (_ && _); reflexivity.
    - simpl. apply String.eqb_refl. }
  simpl. repeat (split; [reflexivity|]).
  split.
  { intros x Hin Hid Hunused. rewrite Hs in Hin. simpl in Hin.
    apply in_app_iff in Hin. destruct Hin as [Hin|[<-|[]]]; [|reflexivity].
    exfalso. apply (invalidated_rows_used t userID (store w) x); assumption. }
  split; [rewrite Hs; reflexivity|].
  split; assumption.
Qed.

Lemma Send_issue_tame cfg ctx userID user w o w' :
  Send_issue cfg ctx userID user w = (o, w') -> tame o.
Proof.
  intros H. destruct (Send_issue_inv _ _ _ _ _ _ _ H)
    as [(e & -> & _)|[(e & -> & _)|[(e & t & -> & _)|(token & id & c & t & ev & -> & _)]]];
    simpl; auto.
Qed.

(** [Send] up to its branch on the stored user, when the lookup is
    answered. *)
Lemma Send_answered cfg ctx userID w :
  answered w ->
  EmailVerificationService_Send (ProvideEmailVerificationService cfg) ctx userID w
  = match user_by_id (store w) userID with
    | None =>
        (Fail (eris_Wrap (eris_Wrap sql_ErrNoRows "failed to get user by id")
                 "failed to get user by id"),
         looked_up "GetUserByID" w)
    | Some u =>
        if negb (is_null (User_EmailVerifiedAt u))
        then (Fail ErrEmailAlreadyVerified, looked_up "GetUserByID" w)
        else Send_issue cfg ctx userID u (looked_up "GetUserByID" w)
    end.
Proof.
  intros Ha. rewrite Send_unfold. unfold UserRepository_GetByID. simpl.
  unfold bind at 1. unfold wrapping at 1 2.
  rewrite (exec_Pool_answered _ _ _ Ha).
  unfold sqlcgen.GetUserByID, user_by_id, looked_up. simpl.
  destruct (find _ (users (store w))) as [u|]; simpl; [|reflexivity].
  destruct (is_null (User_EmailVerifiedAt u)); reflexivity.
Qed.

(** X20. With the lookup answered by the server, [Send] fails with
    [ErrEmailAlreadyVerified] exactly when the user is stored with
    [email_verified_at] set; for a user that is not stored it fails with
    [sql.ErrNoRows] under two layers of context, which is not
    [ErrUserNotFound]; in both cases no row changed and nothing was
    handed to the broker. *)
Theorem X20_Send_refusals cfg ctx userID w o w' :
  answered w ->
  EmailVerificationService_Send (ProvideEmailVerificationService cfg) ctx userID w
    = (o, w') ->
  (o = Fail ErrEmailAlreadyVerified <->
     exists u, user_by_id (store w) userID = Some u /\ User_EmailVerifiedAt u <> None) /\
  (user_by_id (store w) userID = None ->
     o = Fail (eris_Wrap (eris_Wrap sql_ErrNoRows "failed to get user by id")
                 "failed to get user by id") /\
     forall e, o = Fail e ->
               eris_Is e ErrUserNotFound = false /\ eris_Is e sql_ErrNoRows = true) /\
  (o = Fail ErrEmailAlreadyVerified \/ user_by_id (store w) userID = None ->
     store w' = store w /\ log w' = EvQuery Pool "GetUserByID" :: log w).
Proof.
  intros Ha H. rewrite (Send_answered _ _ _ _ Ha) in H.
  destruct (looked_up_facts "GetUserByID" w) as (Hs & _ & _ & _ & Hl).
  destruct (user_by_id (store w) userID) as [u|].
  2:{ injection H as <- <-.
      split; [split; [discriminate | intros (u & C & _); discriminate]|].
      split; [|auto].
      intros _. split; [reflexivity|].
      intros e He. injection He as <-. split; reflexivity. }
  destruct (User_EmailVerifiedAt u) as [at_|] eqn:Ev; simpl in H.
  { injection H as <- <-.
    split; [split; [intros _; exists u; split; [reflexivity | congruence]
                   | intros _; reflexivity]|].
    split; [discriminate | auto]. }
  pose proof (Send_issue_tame _ _ _ _ _ _ _ H) as Htame.
  split.
  { split.
    - intros C. exfalso. revert C. apply tame_not_sentinel. exact Htame.
    - intros (u' & C & C'). injection C as <-. congruence. }
  split; [discriminate|].
  intros [C|C]; [|discriminate].
  exfalso. revert C. apply tame_not_sentinel. exact Htame.
Qed.

(** X21. [Resend] keeps quiet about who has an account: with the lookup
    answered by the server, for an email no user has and for a user whose
    email is verified it returns nil after the lookup alone, with no row
    changed and nothing handed to the broker; for an unverified user it is
    [Send] for that user. *)
Theorem X21_Resend_silent cfg ctx email w :
  answered w ->
  match stored_user w email with
  | Some u =>
      if is_null (User_EmailVerifiedAt u)
      then EmailVerificationService_Resend (ProvideEmailVerificationService cfg) ctx email w
           = EmailVerificationService_Send (ProvideEmailVerificationService cfg) ctx
               (User_ID u) (looked_up "GetUserByEmail" w)
      else EmailVerificationService_Resend (ProvideEmailVerificationService cfg) ctx email w
           = (Ret tt, looked_up "GetUserByEmail" w)
  | None =>
      EmailVerificationService_Resend (ProvideEmailVerificationService cfg) ctx email w
      = (Ret tt, looked_up "GetUserByEmail" w)
  end /\
  store (looked_up "GetUserByEmail" w) = store w /\
  dispatched (looked_up "GetUserByEmail" w) = dispatched w.
Proof.
  intros Ha. split.
  - assert (Hres :
      EmailVerificationService_Resend (ProvideEmailVerificationService cfg) ctx email w
      = match stored_user w email with
        | Some u =>
            if is_null (User_EmailVerifiedAt u)
            then EmailVerificationService_Send (ProvideEmailVerificationService cfg) ctx
                   (User_ID u) (looked_up "GetUserByEmail" w)
            else (Ret tt, looked_up "GetUserByEmail" w)
        | None => (Ret tt, looked_up "GetUserByEmail" w)
        end).
    { unfold EmailVerificationService_Resend, UserRepository_GetByEmail. simpl.
      unfold bind at 1. unfold try, wrapping at 1.
      rewrite (exec_Pool_answered _ _ _ Ha).
      unfold sqlcgen.GetUserByEmail, stored_user, looked_up. simpl.
      destruct (find _ (users (store w))) as [u|]; simpl; [|reflexivity].
      destruct (is_null (User_EmailVerifiedAt u)); reflexivity. }
    rewrite Hres. destruct (stored_user w email) as [u|]; [|reflexivity].
    destruct (is_null (User_EmailVerifiedAt u)); reflexivity.
  - destruct (looked_up_facts "GetUserByEmail" w) as (Hs & _ & _ & _ & Hl).
    split; [exact Hs|]. apply (dispatched_cons _ _ _ Hl). reflexivity.
Qed.

(** X22. [Send] is not atomic: when it fails at storing the new token,
    the links the user had are already invalidated, so the user is left
    without a usable link, and no email was handed to the broker. *)
Theorem X22_Send_failure_after_invalidation cfg ctx userID w e w' :
  EmailVerificationService_Send (ProvideEmailVerificationService cfg) ctx userID w
    = (Fail (eris_Wrap e "failed to create email verification"), w') ->
  (forall x, In x (email_verifications (store w')) ->
             EmailVerification_UserID x = userID ->
             EmailVerification_UsedAt x <> None) /\
  List.length (email_verifications (store w'))
    = List.length (email_verifications (store w)) /\
  users (store w') = users (store w) /\
  dispatched w' = dispatched w.
Proof.
  intros H. rewrite Send_unfold in H. pose proof H as H0.
  apply bind_inv in H. destruct H as [(u & w1 & Hget & H)|(_ & o1 & Hget & Hn)].
  2:{ exfalso.
      destruct (Send_lookup_inv _ _ _ _ Hget) as (_ & _ & _ & [(e0 & ->)|(u & -> & _)]).
      - rewrite (bind_stop _ _ _ _ _ Hget) in H0. discriminate.
      - eapply Hn. reflexivity. }
  destruct (Send_lookup_inv _ _ _ _ Hget) as (Hs1 & Hc1 & Hd1 & _).
  destruct (is_null (User_EmailVerifiedAt u)); simpl in H; [|discriminate].
  destruct (Send_issue_inv _ _ _ _ _ _ _ H)
    as [(e0 & C & _)|[(e0 & C & _)|[(e0 & t & _ & _ & Hs & Hd)
       |(token & id & createdAt & t & ev & C & _)]]];
    try discriminate.
  rewrite Hs, Hs1.
  split; [intros x; apply invalidated_rows_used|].
  split; [unfold invalidated_rows; simpl; apply length_map|].
  split; [reflexivity | congruence].
Qed.

(** *** TxManager.RunInTx: all or nothing *)

(** X23. [RunInTx] is all or nothing for a closure that writes through
    its transaction only.  If the closure returns nil, either the commit is
    answered, [RunInTx] returns nil and the committed rows become the
    working copy of the transaction, or the commit fails, [RunInTx] returns
    that failure wrapped and the committed rows stay as they were.  If the
    closure returns an error, the rollback is issued, the committed rows
    stay as they were, and the error comes back as it is, or, when the
    rollback fails too, wrapped with the rollback failure in a way that
    [eris.Is] still finds it. *)
Theorem X23_RunInTx_all_or_nothing {A} (fn : Tx -> M A) w tx w1 o1 w2 d o w' :
  BeginTx w = (Ret tx, w1) ->
  fn tx w1 = (o1, w2) ->
  store w2 = store w1 ->
  tx_lookup tx (txns w2) = Some d ->
  RunInTx fn w = (o, w') ->
  match o1 with
  | Ret a =>
      (o = Ret a /\ store w' = d /\ log w' = EvCommit tx :: log w2) \/
      (exists e, o = Fail (eris_Wrap e "failed to commit transaction")
                 /\ store w' = store w /\ log w' = EvFault "commit" e :: log w2)
  | Fail e =>
      store w' = store w /\
      ((o = Fail e /\ log w' = EvRollback tx :: log w2) \/
       (exists rbErr, o = Fail (eris_Wrapf_rollback e rbErr)
                      /\ eris_Is (eris_Wrapf_rollback e rbErr) e = true
                      /\ log w' = EvFault "rollback" rbErr :: log w2))
  | Panic v => o = Panic v /\ w' = w2
  end.
Proof.
  intros Hb Hf Hs Hd H.
  destruct (BeginTx_inv _ _ _ Hb) as (Hs1 & _).
  unfold RunInTx, bind, try, wrapping in H. rewrite Hb, Hf in H.
  destruct o1 as [a|e|v].
  - destruct (Tx_Commit tx w2) as [o3 w3] eqn:Ec.
    destruct (Tx_Commit_inv _ _ _ _ Ec) as (_ & [C|[C|C]]).
    + destruct C as (_ & C & _). congruence.
    + destruct C as (d' & e & _ & -> & Hs3 & _ & Hl3). injection H as <- <-.
      right. exists e. split; [reflexivity|]. split; [congruence | assumption].
    + destruct C as (d' & Hd' & -> & Hs3 & _ & Hl3). injection H as <- <-.
      left. split; [reflexivity|]. split; [congruence | assumption].
  - destruct (Tx_Rollback tx w2) as [o3 w3] eqn:Er.
    destruct (Tx_Rollback_inv _ _ _ _ Er) as (Hs3 & _ & [C|[C|C]]).
    + destruct C as (_ & C & _). congruence.
    + destruct C as (rbErr & _ & -> & _ & Hl3). injection H as <- <-.
      split; [congruence|]. right. exists rbErr.
      split; [reflexivity|]. split; [apply eris_Is_Wrapped | assumption].
    + destruct C as (_ & -> & _ & Hl3). injection H as <- <-.
      split; [congruence|]. left. auto.
  - injection H as <- <-. auto.
Qed.

(** *** support/errors: identity of application errors under wrapping *)

Lemma eris_Is_Wrapped_step e msg t :
  eris_Is (Wrapped e msg) t = error_is (Wrapped e msg) t || eris_Is e t.
Proof. reflexivity. Qed.


Lemma wrap_all_keeps_identity msgs c m s :
  eris_Is (wrap_all msgs (AppError c m s)) (AppError c m s) = true.
Proof.
  induction msgs as [|msg msgs IH].
  - apply eris_Is_refl.
  - change (wrap_all (msg :: msgs) (AppError c m s))
      with (Wrapped (wrap_all msgs (AppError c m s)) msg).
    rewrite eris_Is_Wrapped_step, IH. apply orb_true_r.
Qed.


(* ===================================================================== *)
(** ** The HTTP layer *)

Context {fmt : Formatting}.

(** *** strings.Split on the Authorization header *)

Lemma strings_Split_nonempty s sep : strings_Split s sep <> [].
Proof.
  destruct s as [|c r]; simpl; [discriminate|].
  destruct (Ascii.eqb c sep); [discriminate|].
  destruct (strings_Split r sep); discriminate.
Qed.

(** Joining the pieces gives the string back. *)
Lemma strings_Split_Join s sep : strings_Join (strings_Split s sep) sep = s.
Proof.
  induction s as [|c r IH]; simpl; [reflexivity|].
  destruct (Ascii.eqb_spec c sep) as [->|Hne].
  - pose proof (strings_Split_nonempty r sep) as Hn.
    destruct (strings_Split r sep) as [|p ps] eqn:E; [congruence|].
    simpl. simpl in IH. rewrite IH. reflexivity.
  - pose proof (strings_Split_nonempty r sep) as Hn.
    destruct (strings_Split r sep) as [|p ps]; [congruence|].
    destruct ps as [|q qs]; simpl in *; rewrite <- IH; reflexivity.
Qed.

(** No piece contains the separator. *)
Lemma strings_Split_clean s sep p :
  In p (strings_Split s sep) -> strings_ContainsRune p sep = false.
Proof.
  revert p. induction s as [|c r IH]; simpl; intros p Hin.
  - destruct Hin as [<-|[]]. reflexivity.
  - destruct (Ascii.eqb c sep) eqn:Ec.
    + destruct Hin as [<-|Hin]; [reflexivity | auto].
    + destruct (strings_Split r sep) as [|q qs].
      * destruct Hin as [<-|[]]. simpl. rewrite Ec. reflexivity.
      * destruct Hin as [<-|Hin].
        -- simpl. rewrite Ec. simpl. apply IH. left. reflexivity.
        -- apply IH. right. exact Hin.
Qed.

(** A string without the separator is one piece. *)
Lemma strings_Split_whole s sep :
  strings_ContainsRune s sep = false -> strings_Split s sep = [s].
Proof.
  induction s as [|c r IH]; simpl; [reflexivity|].
  intros H. apply orb_false_iff in H. destruct H as (Hc & Hr).
  rewrite Hc, (IH Hr). reflexivity.
Qed.

(** The header passes the format check exactly when it is ["Bearer "]
    followed by a token without a space. *)
Lemma bearer_format header :
  (negb (Nat.eqb (List.length (strings_Split header " "%char)) 2)
   || negb (String.eqb (nth 0 (strings_Split header " "%char) "") "Bearer")) = false <->
  exists token,
    header = "Bearer " ++ token /\ strings_ContainsRune token " "%char = false
    /\ nth 1 (strings_Split header " "%char) "" = token.
Proof.
  split.
  - intros H. apply orb_false_iff in H. destruct H as (Hlen & Hb).
    apply negb_false_iff in Hlen, Hb.
    apply Nat.eqb_eq in Hlen. apply String.eqb_eq in Hb.
    pose proof (strings_Split_Join header " "%char) as Hj.
    pose proof (strings_Split_clean header " "%char) as Hc.
    destruct (strings_Split header " "%char) as [|p0 [|p1 [|p2 ps]]]; try discriminate.
    simpl in Hb. subst p0. exists p1. simpl in Hj.
    split; [symmetry; exact Hj|]. split; [|reflexivity].
    apply Hc. right. left. reflexivity.
  - intros (token & -> & Hc & _). simpl.
    rewrite (strings_Split_whole _ _ Hc). reflexivity.
Qed.

Lemma ValidateToken_no_panic cfg ctx token w o w' :
  SessionService_ValidateToken (ProvideSessionService cfg) ctx token w = (o, w') ->
  no_panic o.
Proof.
  unfold SessionService_ValidateToken, AuthTokenRepository_GetByHash. simpl.
  unfold bind at 1. unfold try, wrapping.
  destruct (exec Pool _ _ w) as [o1 w1] eqn:E.
  pose proof (exec_no_panic _ _ _ _ _ _ E) as Hn.
  destruct o1 as [t|e|v]; [| |contradiction].
  - destruct (negb (is_null (AuthToken_RevokedAt t))).
    + intros H. injection H as <- _. exact I.
    + unfold bind. destruct (time_Now w1) as [o2 w2] eqn:En.
      destruct (time_Now_inv _ _ _ En) as (-> & _).
      destruct (Time_After _ _); intros H; injection H as <- _; exact I.
  - destruct (eris_Is _ _); intros H; injection H as <- _; exact I.
Qed.


(** The runs of [AuthMiddleware]. *)
Lemma AuthMiddleware_inv {A} cfg (next : echo_Context -> M A) c w o w' :
  AuthMiddleware (ProvideSessionService cfg) next c w = (o, w') ->
  (Header_Authorization c = "" /\ o = Fail ErrMissingAuthHeader /\ w' = w) \/
  (Header_Authorization c <> "" /\
   (forall token, Header_Authorization c = "Bearer " ++ token ->
                  strings_ContainsRune token " "%char = true) /\
   o = Fail ErrInvalidAuthFormat /\ w' = w) \/
  (exists token,
     Header_Authorization c = "Bearer " ++ token /\
     strings_ContainsRune token " "%char = false /\
     ((exists e,
         SessionService_ValidateToken (ProvideSessionService cfg)
           (RequestContext_ids (Request_Context c)) token w = (Fail e, w')
         /\ o = Fail e) \/
      (exists t w1 c',
         SessionService_ValidateToken (ProvideSessionService cfg)
           (RequestContext_ids (Request_Context c)) token w = (Ret t, w1)
         /\ c' = setAuthContext c (AuthToken_UserID t) token
         /\ reqctx_GetUserID c' = Some (AuthToken_UserID t)
         /\ reqctx_GetToken c' = Some token
         /\ next c' w1 = (o, w')))).
Proof.
  unfold AuthMiddleware.
  destruct (String.eqb_spec (Header_Authorization c) "") as [Hempty|Hne].
  { intros H. injection H as <- <-. left. auto. }
  destruct (negb (Nat.eqb (List.length (strings_Split (Header_Authorization c) " "%char)) 2)
            || negb (String.eqb (nth 0 (strings_Split (Header_Authorization c) " "%char) "")
                       "Bearer")) eqn:Ef.
  { intros H. injection H as <- <-. right. left.
    split; [assumption|]. split; [|auto].
    intros token Hh.
    destruct (strings_ContainsRune token " "%char) eqn:Ec; [reflexivity|].
    exfalso.
    assert (Hok : exists token0,
               Header_Authorization c = "Bearer " ++ token0
               /\ strings_ContainsRune token0 " "%char = false
               /\ nth 1 (strings_Split (Header_Authorization c) " "%char) "" = token0).
    { exists token. split; [assumption|]. split; [assumption|].
      rewrite Hh. simpl. rewrite (strings_Split_whole _ _ Ec). reflexivity. }
    apply bearer_format in Hok. congruence. }
  apply bearer_format in Ef. destruct Ef as (token & Hh & Hc & Htok).
  rewrite Htok. intros H. right. right. exists token.
  split; [assumption|]. split; [assumption|].
  unfold bind in H.
  destruct (SessionService_ValidateToken (ProvideSessionService cfg)
              (RequestContext_ids (Request_Context c)) token w) as [o1 w1] eqn:Ev.
  pose proof (ValidateToken_no_panic _ _ _ _ _ _ Ev) as Hn.
  destruct o1 as [t|e|v]; [| |contradiction].
  - right. exists t, w1, (setAuthContext c (AuthToken_UserID t) token).
    split; [reflexivity|]. split; [reflexivity|].
    split; [unfold setAuthContext; simpl; destruct (contextKeyLogger c); reflexivity|].
    split; [unfold setAuthContext; simpl; destruct (contextKeyLogger c); reflexivity|].
    exact H.
  - left. exists e. injection H as <- <-. auto.
Qed.

(** X25. [AuthMiddleware] lets a request through only behind a session
    token that validates.  A request without an [Authorization] header is
    refused with [ErrMissingAuthHeader] and a header that is not
    ["Bearer "] followed by a token without a space with
    [ErrInvalidAuthFormat], in both cases before anything is looked up;
    otherwise the token is validated, a refusal of [ValidateToken] is
    returned as it is, and the next handler runs only after a success, on
    a context that carries the user of the token row and the raw token. *)
Theorem X25_AuthMiddleware_guards {A} cfg (next : echo_Context -> M A) c w o w' :
  AuthMiddleware (ProvideSessionService cfg) next c w = (o, w') ->
  (Header_Authorization c = "" /\ o = Fail ErrMissingAuthHeader /\ w' = w) \/
  (Header_Authorization c <> "" /\
   (forall token, Header_Authorization c = "Bearer " ++ token ->
                  strings_ContainsRune token " "%char = true) /\
   o = Fail ErrInvalidAuthFormat /\ w' = w) \/
  (exists token,
     Header_Authorization c = "Bearer " ++ token /\
     strings_ContainsRune token " "%char = false /\
     ((exists e,
         SessionService_ValidateToken (ProvideSessionService cfg)
           (RequestContext_ids (Request_Context c)) token w = (Fail e, w')
         /\ o = Fail e) \/
      (exists t w1 c',
         SessionService_ValidateToken (ProvideSessionService cfg)
           (RequestContext_ids (Request_Context c)) token w = (Ret t, w1)
         /\ c' = setAuthContext c (AuthToken_UserID t) token
         /\ reqctx_GetUserID c' = Some (AuthToken_UserID t)
         /\ reqctx_GetToken c' = Some token
         /\ next c' w1 = (o, w')))).
Proof. apply AuthMiddleware_inv. Qed.


(** *** The error handler *)

Lemma wrap_all_cons_wrapped msgs e : msgs <> [] -> is_wrapped (wrap_all msgs e) = true.
Proof. destruct msgs as [|msg msgs]; [congruence | reflexivity]. Qed.

Lemma ErrorHandler_internal e x :
  Response_Committed x = false ->
  (forall c m s, e <> AppError c m s) ->
  ErrorHandler (GoError e) x
  = echo_JSON_error (sentry_CaptureError_extras x (GoError e) (error_extras x))
      StatusInternalServerError
      (mkErrorResponse "INTERNAL_ERROR" "internal server error" []).
Proof.
  intros Hc Hne. unfold ErrorHandler. rewrite Hc.
  destruct e; try reflexivity. exfalso. eapply Hne. reflexivity.
Qed.

Lemma ErrorHandler_sentinel c m s x :
  Response_Committed x = false ->
  ErrorHandler (GoError (AppError c m s)) x
  = echo_JSON_error
      (if 500 <=? s
       then sentry_CaptureError_extras x (GoError (AppError c m s)) (error_extras x)
       else x)
      s (mkErrorResponse c m []).
Proof. intros Hc. unfold ErrorHandler. rewrite Hc. reflexivity. Qed.

(** X27. The error handler answers with the status, code and message of
    an application error only when the error reaches it as such.  An
    application error under one or more layers of [eris.Wrap], although
    [eris.Is] still identifies it, is answered like any other error: status
    500, code [INTERNAL_ERROR], the fixed message, and a report to Sentry.
    In every case the response is committed, and Sentry gets a report
    exactly when the status is 500 or more. *)
Theorem X27_ErrorHandler_answers msgs c m s x :
  Response_Committed x = false ->
  let e := wrap_all msgs (AppError c m s) in
  let x' := ErrorHandler (GoError e) x in
  eris_Is e (AppError c m s) = true /\
  Response_Committed x' = true /\
  (msgs = [] ->
     Response_Status x' = s /\
     Response_Body x' = Some (BodyError (mkErrorResponse c m []))) /\
  (msgs <> [] ->
     Response_Status x' = 500 /\
     Response_Body x'
     = Some (BodyError (mkErrorResponse "INTERNAL_ERROR" "internal server error" []))) /\
  Sentry_reports x'
  = if 500 <=? Response_Status x'
    then (GoError e, error_extras x) :: Sentry_reports x
    else Sentry_reports x.
Proof.
  intros Hc e x'. subst e x'.
  split; [apply (wrap_all_keeps_identity msgs c m s)|].
  destruct msgs as [|msg msgs].
  - simpl wrap_all. rewrite (ErrorHandler_sentinel _ _ _ _ Hc).
    split; [reflexivity|]. split; [intros _; split; reflexivity|].
    split; [congruence|]. simpl. destruct (500 <=? s); reflexivity.
  - rewrite ErrorHandler_internal; [|exact Hc|intros c0 m0 s0; discriminate].
    split; [reflexivity|]. split; [discriminate|].
    split; [intros _; split; reflexivity|]. reflexivity.
Qed.

(** *** Routes, end to end *)










End Properties.

(* ===================================================================== *)
(** ** The properties on the concrete scenario *)

Module Runs.

Import Example.
#[local] Existing Instance Example.toy.

Example Load_without_settings : Load [] = Some default_cfg.
Proof. vm_compute. reflexivity. Qed.

Example GenerateSecureToken_length :
  fst (GenerateSecureToken 32 world) = Ret (hex_EncodeToString (repeat x00 32))
  /\ String.length (hex_EncodeToString (repeat x00 32)) = 64%nat.
Proof. split; reflexivity. Qed.

(** *** C3: the expired session of Alice *)

Lemma C3_witness :
  answered world /\
  fst (SessionService_ValidateToken (ProvideSessionService cfg) ctx "old" world)
    = Fail ErrTokenExpired.
Proof.
  split; [reflexivity|].
  apply (proj1 (proj2 (proj2 (C3_ValidateToken_outcomes cfg ctx "old" world eq_refl)))).
  exists old_session. split; [reflexivity|]. split; reflexivity.
Defined.

(** *** C5: an unknown email and a wrong password *)

Lemma nobody_is_unknown :
  ~ exists u, In u (users (store world)) /\ User_Email u = "nobody@example.com".
Proof.
  intros (u & Hin & He). simpl in Hin.
  destruct Hin as [<-|[<-|[]]]; discriminate.
Defined.

Lemma C5_witness :
  fst (SessionService_Create (ProvideSessionService cfg) ctx
         "nobody@example.com" "secret123" world) = Fail ErrInvalidCredentials /\
  fst (SessionService_Create (ProvideSessionService cfg) ctx
         "alice@example.com" "wrong" world) = Fail ErrInvalidCredentials.
Proof.
  exact (C5_login_refusals_coincide cfg ctx world "nobody@example.com" "secret123"
           world "alice@example.com" "wrong" alice
           eq_refl eq_refl nobody_is_unknown eq_refl eq_refl).
Defined.

(** *** C1: Alice resets her password *)

Lemma C1_witness :
  stored_reset world "reset-token" = Some reset1 /\
  PasswordResetService_Execute (ProvidePasswordResetService cfg) ctx
    "reset-token" "newpass" world = reset_run /\
  fst reset_run = Ret tt /\
  (forall u, In u (users (store (snd reset_run))) -> User_ID u = 1%nat ->
             User_PasswordHash u = "$2a$newpass") /\
  (forall r, In r (password_resets (store (snd reset_run))) ->
             PasswordReset_UserID r = 1%nat -> PasswordReset_UsedAt r <> None) /\
  (forall t, In t (auth_tokens (store (snd reset_run))) ->
             AuthToken_UserID t = 1%nat -> AuthToken_RevokedAt t <> None).
Proof.
  assert (Hrun : PasswordResetService_Execute (ProvidePasswordResetService cfg) ctx
                   "reset-token" "newpass" world = (fst reset_run, snd reset_run))
    by (vm_compute; reflexivity).
  assert (Hstored : stored_reset world "reset-token" = Some reset1)
    by (vm_compute; reflexivity).
  split; [exact Hstored|]. split; [vm_compute; reflexivity|]. split; [reflexivity|].
  destruct (C1_Execute_atomic cfg ctx "reset-token" "newpass" world reset1
              (fst reset_run) (snd reset_run) Hstored Hrun) as (Hok & _).
  destruct (Hok eq_refl) as (_ & _ & tx & h & (salt & Hh) & Hpw & _ & Hres & Hses & _).
  split; [|split; assumption].
  intros u Hin Hid. rewrite (Hpw u Hin Hid).
  simpl in Hh. injection Hh as <-. reflexivity.
Defined.

(** *** C2: a closure that panics after its first statement *)

Lemma C2_witness :
  RunInTx panicking world = (Panic "boom", after_panic) /\
  log after_panic = [EvQuery (InTx 0%nat) "UpdateUserPassword"; EvBegin 0%nat] /\
  tx_lookup 0%nat (txns after_panic) <> None /\
  store after_panic = store world.
Proof.
  split.
  - apply (C2_RunInTx_panic_skips_rollback panicking world 0%nat after_begin "boom"
             after_panic); vm_compute; reflexivity.
  - split; [reflexivity|]. split; [discriminate | reflexivity].
Defined.

(** *** C4: reset requests for an unknown and for a known email *)


(** *** C6: Alice schedules the deletion of her account *)

Lemma C6_witness :
  UserService_ScheduleDeletion (ProvideUserService cfg) ctx 1%nat world = schedule_run /\
  fst schedule_run = Ret tt /\
  (forall u, In u (users (store (snd schedule_run))) -> User_ID u = 1%nat ->
             User_DeletionScheduledAt u = Some (1000 + 720 * Hour)) /\
  (forall t, In t (auth_tokens (store (snd schedule_run))) -> AuthToken_UserID t = 1%nat ->
             AuthToken_RevokedAt t <> None).
Proof.
  assert (Hrun : UserService_ScheduleDeletion (ProvideUserService cfg) ctx 1%nat world
                 = (fst schedule_run, snd schedule_run))
    by (vm_compute; reflexivity).
  split; [vm_compute; reflexivity|].
  destruct (C6_ScheduleDeletion cfg ctx 1%nat world (fst schedule_run) (snd schedule_run)
              Hrun) as (Hok & _ & Hcalm).
  assert (Ho : fst schedule_run = Ret tt) by exact (Hcalm eq_refl).
  split; [exact Ho|].
  destruct (Hok Ho) as (u & tx & ev & _ & _ & Hat & _ & Hses & _).
  split; assumption.
Defined.

(** *** C7: Bob logs in and keeps his account *)

Lemma C7_witness :
  SessionService_Create (ProvideSessionService cfg) ctx "bob@example.com" "hunter2" world
    = (Ret (clear_deletion bob, bob_token), snd login_run) /\
  User_DeletionScheduledAt (clear_deletion bob) = None /\
  (forall u, In u (users (store (snd login_run))) -> User_ID u = 2%nat ->
             User_DeletionScheduledAt u = None).
Proof.
  assert (Hrun : SessionService_Create (ProvideSessionService cfg) ctx
                   "bob@example.com" "hunter2" world
                 = (Ret (clear_deletion bob, bob_token), snd login_run))
    by (vm_compute; reflexivity).
  assert (Hu : stored_user world "bob@example.com" = Some bob)
    by (vm_compute; reflexivity).
  split; [exact Hrun|].
  destruct (C7_login_cancels_deletion cfg ctx "bob@example.com" "hunter2" world bob 5000
              (clear_deletion bob) bob_token (snd login_run) Hu eq_refl Hrun)
    as (_ & _ & Hnone & Hrow & _).
  split; assumption.
Defined.

(** *** C10: the same login with the entropy source down *)

Lemma C10_witness :
  SessionService_Create (ProvideSessionService cfg) ctx "bob@example.com" "hunter2"
    world_no_entropy
    = (Fail (eris_Wrap entropy_failure "failed to generate token"), snd failed_login) /\
  (forall u, In u (users (store (snd failed_login))) -> User_ID u = 2%nat ->
             User_DeletionScheduledAt u = None) /\
  txns (snd failed_login) = [] /\
  log (snd failed_login) =
    [EvQuery Pool "CancelUserDeletion"; EvQuery Pool "GetUserByEmail"].
Proof.
  assert (Hrun : SessionService_Create (ProvideSessionService cfg) ctx
                   "bob@example.com" "hunter2" world_no_entropy
                 = (Fail (eris_Wrap entropy_failure "failed to generate token"),
                    snd failed_login))
    by (vm_compute; reflexivity).
  assert (Hu : stored_user world_no_entropy "bob@example.com" = Some bob)
    by (vm_compute; reflexivity).
  split; [exact Hrun|].
  destruct (C10_cancellation_outlives_token_failure cfg ctx "bob@example.com" "hunter2"
              world_no_entropy bob 5000 entropy_failure (snd failed_login) Hu eq_refl Hrun)
    as (_ & Hrow & _ & Htx & _).
  split; [exact Hrow|]. split; [exact Htx | reflexivity].
Defined.

(** *** C8: the lifetime of a session token under the defaults *)

Lemma C8_witness :
  PasswordResetTokenTTL (Auth default_cfg) = 1 * Hour /\
  EmailConfirmationTokenTTL (Auth default_cfg) = 24 * Hour /\
  AuthTokenTTL (Auth default_cfg) = 0 /\
  exists id createdAt,
    auth_tokens (store (snd issue_run))
    = (auth_tokens (store world)
       ++ [mkAuthToken id 1%nat (HashToken bob_token) (1000 + 365 * 24 * Hour)
             None createdAt])%list.
Proof.
  assert (Hrun : SessionService_generateToken (ProvideSessionService default_cfg) 1%nat world
                 = (Ret bob_token, snd issue_run))
    by (vm_compute; reflexivity).
  exact (C8_default_token_lifetimes [] default_cfg 1%nat world bob_token (snd issue_run)
           Load_without_settings eq_refl eq_refl eq_refl Hrun).
Defined.

(** The token just issued, presented one year and a day later. *)
Lemma C8_unset_ttl_token_expires :
  Load [] = Some default_cfg /\
  AuthTokenTTL (Auth default_cfg) = 0 /\
  SessionService_generateToken (ProvideSessionService default_cfg) 1%nat world
    = (Ret bob_token, snd issue_run) /\
  fst (SessionService_ValidateToken (ProvideSessionService default_cfg) ctx bob_token
         (with_clock (snd issue_run) (1000 + 366 * 24 * Hour) []))
    = Fail ErrTokenExpired.
Proof.
  split; [vm_compute; reflexivity|]. split; [reflexivity|].
  split; vm_compute; reflexivity.
Qed.

(** *** C9: the cleanup on the day of Bob's deletion *)


(* --------------------------------------------------------------------- *)
(** *** The further properties on the scenario *)

#[local] Existing Instance Example.marks.

(** *** X1: the token of 32 bytes *)

Lemma X1_witness :
  String.length bob_token = (2 * 32)%nat /\
  forallb is_hex_char (list_ascii_of_string bob_token) = true /\
  store (snd (GenerateSecureToken 32 world)) = store world /\
  log (snd (GenerateSecureToken 32 world)) = log world.
Proof.
  apply (X1_GenerateSecureToken_shape 32 world bob_token
           (snd (GenerateSecureToken 32 world))).
  vm_compute; reflexivity.
Defined.

(** *** X2: Alice's new session validates *)

Lemma X2_witness :
  SessionService_CreateForUser (ProvideSessionService cfg) ctx 1%nat world
    = (Ret bob_token, snd session_run) /\
  exists t,
    AuthToken_UserID t = 1%nat /\
    AuthToken_ExpiresAt t = 1000 + 365 * 24 * Hour /\
    fst (SessionService_ValidateToken (ProvideSessionService cfg) ctx bob_token
           (snd session_run)) = Ret t.
Proof.
  assert (Hrun : SessionService_CreateForUser (ProvideSessionService cfg) ctx 1%nat world
                 = (Ret bob_token, snd session_run))
    by (vm_compute; reflexivity).
  split; [exact Hrun|].
  destruct (X2_issued_token_validates cfg ctx 1%nat world bob_token (snd session_run)
              (snd session_run) Hrun eq_refl eq_refl) as (t & Hu & _ & He & Hv).
  exists t. split; [exact Hu|]. split; [exact He|].
  rewrite Hv, He. reflexivity.
Defined.

(** *** X3 and X4: logging out *)

Lemma X3_witness :
  fst logout_run = Ret tt /\
  stored_auth_token (snd logout_run) "live" = Some (revoked_at 1000 live_session) /\
  fst (SessionService_ValidateToken (ProvideSessionService cfg) ctx "live" (snd logout_run))
    = Fail ErrTokenRevoked /\
  stored_auth_token (snd logout_run) "old" = Some old_session.
Proof.
  assert (Hrun : SessionService_Delete (ProvideSessionService cfg) ctx "live" world
                 = (Ret tt, snd logout_run))
    by (vm_compute; reflexivity).
  destruct (X3_logout_revokes cfg ctx "live" world (snd logout_run) Hrun)
    as (H1 & H2 & H3 & _).
  split; [reflexivity|]. split; [exact (H1 live_session eq_refl)|].
  split; [exact (H2 ctx (snd logout_run) eq_refl eq_refl)|].
  rewrite H3; [reflexivity | vm_compute; discriminate].
Defined.

Lemma X4_witness :
  answered world /\
  fst (SessionService_Delete (ProvideSessionService cfg) ctx "unknown" world) = Ret tt /\
  store (snd (SessionService_Delete (ProvideSessionService cfg) ctx "unknown" world))
    = store world.
Proof.
  destruct (X4_logout_always_succeeds cfg ctx "unknown" world eq_refl) as (H1 & H2).
  split; [reflexivity|]. split; [exact H1 | exact (H2 eq_refl)].
Defined.

(** *** X5 to X8: password resets *)

Lemma X5_witness :
  stored_reset world "nope" = None /\
  fst bad_reset_run = Fail ErrInvalidResetToken /\
  store (snd bad_reset_run) = store world /\
  txns (snd bad_reset_run) = txns world /\
  log (snd bad_reset_run) = [EvQuery Pool "GetPasswordResetByTokenHash"].
Proof.
  assert (Hrun : PasswordResetService_Execute (ProvidePasswordResetService cfg) ctx
                   "nope" "newpass" world = (fst bad_reset_run, snd bad_reset_run))
    by (vm_compute; reflexivity).
  destruct (X5_Execute_refusals cfg ctx "nope" "newpass" world (fst bad_reset_run)
              (snd bad_reset_run) eq_refl Hrun) as (H1 & _ & _ & H4).
  split; [reflexivity|].
  assert (Ho : fst bad_reset_run = Fail ErrInvalidResetToken)
    by exact (proj2 H1 eq_refl).
  split; [exact Ho|]. exact (H4 (or_introl Ho)).
Defined.

Lemma X6_witness :
  fst (PasswordResetService_Execute (ProvidePasswordResetService cfg) ctx "reset-token"
         "again" (snd reset_run)) = Fail ErrTokenAlreadyUsed /\
  store (snd (PasswordResetService_Execute (ProvidePasswordResetService cfg) ctx
                "reset-token" "again" (snd reset_run))) = store (snd reset_run).
Proof.
  apply (X6_reset_token_single_use cfg ctx "reset-token" "newpass" world (snd reset_run)
           ctx "again" (snd reset_run)); vm_compute; reflexivity.
Defined.

Lemma X7_witness :
  stored_auth_token world "live" = Some live_session /\
  fst (SessionService_ValidateToken (ProvideSessionService cfg) ctx "live" world)
    = Ret live_session /\
  fst (SessionService_ValidateToken (ProvideSessionService cfg) ctx "live" (snd reset_run))
    = Fail ErrTokenRevoked.
Proof.
  split; [reflexivity|]. split; [reflexivity|].
  apply (X7_reset_revokes_sessions cfg ctx "reset-token" "newpass" world (snd reset_run)
           reset1 "live" live_session ctx (snd reset_run)); vm_compute; reflexivity.
Defined.

Lemma X8_witness :
  exists token id createdAt ev,
    String.length token = 64%nat /\
    store (snd request_known)
    = set_password_resets (store world)
        (password_resets (store world)
           ++ [mkPasswordReset id 1%nat (HashToken token) (1000 + 1 * Hour) None createdAt]) /\
    stored_reset world token = None /\
    log (snd request_known)
    = [ev; EvQuery Pool "CreatePasswordReset"; EvQuery Pool "GetUserByEmail"] /\
    ((exists jobID, ev = enqueued ctx cfg jobID (reset_email cfg alice token))
     \/ (exists e, ev = EvCapture e)).
Proof.
  assert (Hrun : PasswordResetService_Create (ProvidePasswordResetService cfg) ctx
                   "alice@example.com" world = (Ret tt, snd request_known))
    by (vm_compute; reflexivity).
  exact (X8_reset_request_issues_token cfg ctx "alice@example.com" world alice
           (snd request_known) eq_refl eq_refl Hrun).
Defined.

(** *** X9: Alice schedules the deletion of her account *)

Lemma X9_witness :
  fst (SessionService_ValidateToken (ProvideSessionService cfg) ctx "live"
         (snd schedule_run)) = Fail ErrTokenRevoked /\
  stored_auth_token (snd schedule_run) "gone" = Some revoked_session.
Proof.
  assert (Hrun : UserService_ScheduleDeletion (ProvideUserService cfg) ctx 1%nat world
                 = (Ret tt, snd schedule_run))
    by (vm_compute; reflexivity).
  split.
  - exact (proj1 (X9_scheduled_deletion_revokes_sessions cfg ctx 1%nat world
                    (snd schedule_run) "live" live_session ctx (snd schedule_run)
                    Hrun eq_refl eq_refl eq_refl) eq_refl).
  - apply (proj2 (X9_scheduled_deletion_revokes_sessions cfg ctx 1%nat world
                    (snd schedule_run) "gone" revoked_session ctx (snd schedule_run)
                    Hrun eq_refl eq_refl eq_refl)).
    discriminate.
Defined.

(** *** X10 and X11: the cleanup on the day of Bob's deletion *)

Lemma X10_witness :
  (forall u, In u (users (store (snd cleanup_run))) ->
     forall a, User_DeletionScheduledAt u = Some a -> 5000 < a) /\
  In alice (users (store (snd cleanup_run))) /\
  (forall t, In t (auth_tokens (store (snd cleanup_run))) ->
     AuthToken_RevokedAt t = None /\ 5000 <= AuthToken_ExpiresAt t) /\
  In live_session (auth_tokens (store (snd cleanup_run))).
Proof.
  assert (Hrun : CleanupTask_Handle ProvideCleanupTask ctx world_later
                 = (Ret (2, 0, 1, 1), snd cleanup_run))
    by (vm_compute; reflexivity).
  destruct (X10_cleanup_keeps_live_rows ctx world_later (2, 0, 1, 1) (snd cleanup_run) Hrun)
    as (H1 & H2 & H3 & H4).
  split; [intros u Hu; exact (proj2 (H1 u Hu))|].
  split; [apply H2; [simpl; auto | intros a Ha; discriminate Ha]|].
  split.
  - intros t Ht. destruct (H3 t Ht) as (_ & Hr & He & _). split; assumption.
  - apply H4; [simpl; auto | reflexivity | vm_compute; discriminate |].
    intros u a [<-|[<-|[]]] Hid Hd; discriminate.
Defined.

Lemma X11_witness :
  1 = Z.of_nat (List.length (users (store world_later)))
      - Z.of_nat (List.length (users (store (snd cleanup_run)))) /\
  Z.of_nat (List.length (auth_tokens (store (snd cleanup_run))))
  <= Z.of_nat (List.length (auth_tokens (store world_later))) - 2 /\
  Z.of_nat (List.length (email_verifications (store (snd cleanup_run))))
  <= Z.of_nat (List.length (email_verifications (store world_later))) - 1.
Proof.
  assert (Hrun : CleanupTask_Handle ProvideCleanupTask ctx world_later
                 = (Ret (2, 0, 1, 1), snd cleanup_run))
    by (vm_compute; reflexivity).
  pose proof (X11_cleanup_counts ctx world_later 2 0 1 1 (snd cleanup_run) Hrun) as H.
  cbv zeta in H. destruct H as (H4 & _ & H1 & _ & _ & _ & H3).
  split; [exact H4|]. split; [exact H1 | exact H3].
Defined.

(** *** X12 to X15: registration and lookups *)

Lemma X12_witness :
  fst taken_run = Fail ErrEmailAlreadyExists /\
  store (snd taken_run) = store world /\
  log (snd taken_run) = [EvQuery Pool "EmailExists"].
Proof.
  assert (Hrun : UserService_Create (ProvideUserService cfg) ctx "Mallory"
                   "alice@example.com" "correct horse" world
                 = (fst taken_run, snd taken_run))
    by (vm_compute; reflexivity).
  destruct (X12_register_existing_email cfg ctx "Mallory" "alice@example.com"
              "correct horse" world (fst taken_run) (snd taken_run) eq_refl Hrun)
    as (H1 & H2).
  assert (Ho : fst taken_run = Fail ErrEmailAlreadyExists).
  { apply (proj2 H1). exists alice. split; [simpl; auto | reflexivity]. }
  split; [exact Ho|]. exact (H2 Ho).
Defined.

Lemma X13_witness :
  UserService_Create (ProvideUserService cfg) ctx "Carol" "carol@example.com"
    "correct horse" world = (Ret carol, snd register_run) /\
  users (store (snd register_run)) = [alice; bob; carol] /\
  stored_user (snd register_run) "carol@example.com" = Some carol /\
  User_EmailVerifiedAt carol = None.
Proof.
  assert (Hrun : UserService_Create (ProvideUserService cfg) ctx "Carol"
                   "carol@example.com" "correct horse" world
                 = (Ret carol, snd register_run))
    by (vm_compute; reflexivity).
  split; [exact Hrun|].
  destruct (X13_register_appends_user cfg ctx "Carol" "carol@example.com" "correct horse"
              world carol (snd register_run) Hrun)
    as (H1 & _ & _ & _ & _ & _ & _ & H8 & _ & _ & _ & _ & H13).
  split; [exact H1|]. split; [exact H13 | exact H8].
Defined.

Lemma X14_witness :
  fst first_login_run = Ret (carol, bob_token) /\
  stored_auth_token (snd first_login_run) bob_token <> None.
Proof.
  assert (Hlaw : forall salt h,
             bcrypt_hash "correct horse" (BcryptCost (Auth cfg)) salt = inr h ->
             bcrypt_matches h "correct horse" = true).
  { intros salt h H. vm_compute in H. injection H as <-. reflexivity. }
  assert (Hreg : UserService_Create (ProvideUserService cfg) ctx "Carol"
                   "carol@example.com" "correct horse" world
                 = (Ret carol, snd register_run))
    by (vm_compute; reflexivity).
  assert (Hlogin : SessionService_Create (ProvideSessionService cfg) ctx
                     "carol@example.com" "correct horse" (snd register_run)
                   = (fst first_login_run, snd first_login_run))
    by (vm_compute; reflexivity).
  split; [reflexivity|].
  destruct (X14_registered_user_can_log_in cfg ctx "Carol" "carol@example.com"
              "correct horse" world carol (snd register_run) ctx (snd register_run)
              (fst first_login_run) (snd first_login_run)
              Hlaw Hreg eq_refl eq_refl Hlogin) as [(token & Ho & Hst)|(e & He)].
  - vm_compute in Ho. injection Ho as <-. exact Hst.
  - discriminate He.
Defined.

Lemma X15_witness :
  fst (UserService_GetByID (ProvideUserService cfg) ctx 1%nat world) = Ret alice /\
  fst (UserService_GetByEmail (ProvideUserService cfg) ctx "nobody@example.com" world)
    = Fail ErrUserNotFound.
Proof.
  exact (proj1 (X15_user_lookups cfg ctx 1%nat "nobody@example.com" world) eq_refl).
Defined.

(** *** X16 to X18: Bob follows his verification link *)

Lemma X16_witness :
  fst verify_run = Ret tt /\
  (exists t1, 60 <= t1 /\
     forall u, In u (users (store (snd verify_run))) -> User_ID u = 2%nat ->
               User_EmailVerifiedAt u = Some t1) /\
  (forall x, In x (email_verifications (store (snd verify_run))) ->
             EmailVerification_UserID x = 2%nat -> EmailVerification_UsedAt x <> None) /\
  In alice (users (store (snd verify_run))).
Proof.
  assert (Hrun : EmailVerificationService_Verify (ProvideEmailVerificationService cfg) ctx
                   "verify" world_early = (fst verify_run, snd verify_run))
    by (vm_compute; reflexivity).
  assert (Hstored : stored_verification world_early "verify" = Some verification1)
    by reflexivity.
  destruct (X16_Verify_atomic cfg ctx "verify" world_early verification1 (fst verify_run)
              (snd verify_run) Hstored Hrun) as (Hok & _).
  destruct (Hok eq_refl) as (_ & _ & tx & t1 & Ht & Hu & Hothers & Hv & _).
  split; [reflexivity|]. split; [exists t1; split; [exact Ht | exact Hu]|].
  split; [exact Hv|].
  apply Hothers; [simpl; auto | discriminate].
Defined.

Lemma X17_witness :
  fst late_verify_run = Fail ErrTokenExpired /\
  store (snd late_verify_run) = store world.
Proof.
  assert (Hrun : EmailVerificationService_Verify (ProvideEmailVerificationService cfg) ctx
                   "verify" world = (fst late_verify_run, snd late_verify_run))
    by (vm_compute; reflexivity).
  destruct (X17_Verify_refusals cfg ctx "verify" world (fst late_verify_run)
              (snd late_verify_run) eq_refl Hrun) as (_ & _ & H3 & H4).
  assert (Ho : fst late_verify_run = Fail ErrTokenExpired).
  { apply (proj2 H3). exists verification1.
    split; [reflexivity|]. split; reflexivity. }
  split; [exact Ho|]. exact (proj1 (H4 (or_intror (or_intror Ho)))).
Defined.

Lemma X18_witness :
  fst (EmailVerificationService_Verify (ProvideEmailVerificationService cfg) ctx "verify"
         (snd verify_run)) = Fail ErrTokenAlreadyUsed /\
  fst (EmailVerificationService_Verify (ProvideEmailVerificationService cfg) ctx "verify-2"
         (snd verify_run)) = Fail ErrTokenAlreadyUsed.
Proof.
  apply (X18_verification_token_single_use cfg ctx "verify" world_early (snd verify_run)
           verification1 "verify-2" verification2 ctx (snd verify_run));
    vm_compute; reflexivity.
Defined.

(** *** X19 to X22: verification emails *)

Lemma X19_witness :
  fst send_run = Ret tt /\
  exists token new,
    String.length token = 64%nat /\
    stored_verification (snd send_run) token = Some new /\
    EmailVerification_ExpiresAt new = 60 + 24 * Hour /\
    EmailVerification_UsedAt new = None /\
    (forall x, In x (email_verifications (store (snd send_run))) ->
               EmailVerification_UserID x = 2%nat ->
               EmailVerification_UsedAt x = None -> x = new).
Proof.
  assert (Hrun : EmailVerificationService_Send (ProvideEmailVerificationService cfg) ctx
                   2%nat world_early = (Ret tt, snd send_run))
    by (vm_compute; reflexivity).
  split; [reflexivity|].
  destruct (X19_Send_leaves_one_usable_link cfg ctx 2%nat world_early (snd send_run) Hrun)
    as (u & token & new & ev & _ & _ & Hlen & Hst & _ & _ & Hexp & Hused & Honly & _).
  exists token, new.
  split; [exact Hlen|]. split; [exact Hst|]. split; [exact Hexp|].
  split; [exact Hused | exact Honly].
Defined.

Lemma X20_witness :
  fst send_nobody_run
  = Fail (eris_Wrap (eris_Wrap sql_ErrNoRows "failed to get user by id")
            "failed to get user by id") /\
  (forall e, fst send_nobody_run = Fail e ->
             eris_Is e ErrUserNotFound = false /\ eris_Is e sql_ErrNoRows = true) /\
  store (snd send_nobody_run) = store world.
Proof.
  assert (Hrun : EmailVerificationService_Send (ProvideEmailVerificationService cfg) ctx
                   9%nat world = (fst send_nobody_run, snd send_nobody_run))
    by (vm_compute; reflexivity).
  destruct (X20_Send_refusals cfg ctx 9%nat world (fst send_nobody_run)
              (snd send_nobody_run) eq_refl Hrun) as (_ & H2 & H3).
  destruct (H2 eq_refl) as (Ho & He).
  split; [exact Ho|]. split; [exact He|].
  exact (proj1 (H3 (or_intror eq_refl))).
Defined.

Lemma X21_witness :
  EmailVerificationService_Resend (ProvideEmailVerificationService cfg) ctx
    "nobody@example.com" world = (Ret tt, looked_up "GetUserByEmail" world) /\
  store (looked_up "GetUserByEmail" world) = store world /\
  dispatched (looked_up "GetUserByEmail" world) = dispatched world.
Proof.
  exact (X21_Resend_silent cfg ctx "nobody@example.com" world eq_refl).
Defined.

Lemma X22_witness :
  (forall x, In x (email_verifications (store (snd send_failed_run))) ->
             EmailVerification_UserID x = 2%nat ->
             EmailVerification_UsedAt x <> None) /\
  List.length (email_verifications (store (snd send_failed_run)))
    = List.length (email_verifications (store world_insert_fails)) /\
  users (store (snd send_failed_run)) = users (store world_insert_fails) /\
  dispatched (snd send_failed_run) = dispatched world_insert_fails.
Proof.
  apply (X22_Send_failure_after_invalidation cfg ctx 2%nat world_insert_fails
           (eris_Wrap (DriverError "connection reset")
              "failed to create email verification")
           (snd send_failed_run)).
  vm_compute; reflexivity.
Defined.

(** *** X23: the closure of Alice's reset in its transaction *)

Lemma X23_witness :
  fst closure_run = Ret tt /\
  RunInTx (Execute_tx cfg reset1 "$2a$newpass") world = closure_commit /\
  fst closure_commit = Ret tt /\
  store (snd closure_commit) = closure_rows /\
  log (snd closure_commit) = EvCommit 0%nat :: log (snd closure_run).
Proof.
  assert (Hb : BeginTx world = (Ret 0%nat, after_begin)) by (vm_compute; reflexivity).
  assert (Hf : Execute_tx cfg reset1 "$2a$newpass" 0%nat after_begin
               = (fst closure_run, snd closure_run)) by (vm_compute; reflexivity).
  assert (Hr : RunInTx (Execute_tx cfg reset1 "$2a$newpass") world
               = (fst closure_commit, snd closure_commit)) by (vm_compute; reflexivity).
  pose proof (X23_RunInTx_all_or_nothing (Execute_tx cfg reset1 "$2a$newpass") world
                0%nat after_begin (fst closure_run) (snd closure_run) closure_rows
                (fst closure_commit) (snd closure_commit) Hb Hf eq_refl eq_refl Hr) as H.
  change (fst closure_run) with (@Ret unit tt) in H. cbv iota in H.
  split; [reflexivity|]. split; [vm_compute; reflexivity|].
  destruct H as [(Ho & Hs & Hl)|(e & Ho & _)]; [|discriminate Ho].
  split; [exact Ho|]. split; [exact Hs | exact Hl].
Defined.

(** *** X25 and X26: a request with Alice's live session *)

Lemma X25_witness :
  exists t w1,
    SessionService_ValidateToken (ProvideSessionService cfg) ctx "live" world = (Ret t, w1) /\
    AuthMiddleware (ProvideSessionService cfg) whoami request_live world
    = (Ret (Some (AuthToken_UserID t)), w1).
Proof.
  destruct (AuthMiddleware (ProvideSessionService cfg) whoami request_live world)
    as [o w'] eqn:Hrun.
  destruct (X25_AuthMiddleware_guards cfg whoami request_live world o w' Hrun)
    as [(Hh & _)|[(_ & Hf & _)|(token & Hh & _ & [(e & Hv & _)|Hok])]].
  - discriminate Hh.
  - specialize (Hf "live" eq_refl). discriminate Hf.
  - simpl in Hh. injection Hh as <-. vm_compute in Hv. discriminate Hv.
  - destruct Hok as (t & w1 & c' & Hv & _ & Hid & _ & Hn).
    simpl in Hh. injection Hh as <-.
    exists t, w1. split; [exact Hv|].
    unfold whoami, ret in Hn. rewrite Hid in Hn. symmetry. exact Hn.
Defined.


(** *** X27: an expired token, bare and wrapped by a handler *)

Lemma X27_witness :
  Response_Status (ErrorHandler (GoError ErrTokenExpired) exchange) = 401 /\
  Response_Status
    (ErrorHandler (GoError (eris_Wrap ErrTokenExpired "failed to verify email")) exchange)
  = 500.
Proof.
  split.
  - pose proof (X27_ErrorHandler_answers [] "TOKEN_EXPIRED" "token expired" 401 exchange
                  eq_refl) as H.
    cbv zeta in H. destruct H as (_ & _ & H & _). exact (proj1 (H eq_refl)).
  - pose proof (X27_ErrorHandler_answers ["failed to verify email"] "TOKEN_EXPIRED"
                  "token expired" 401 exchange eq_refl) as H.
    cbv zeta in H. destruct H as (_ & _ & _ & H & _).
    apply (proj1 (H ltac:(discriminate))).
Defined.

(** *** X28 to X30: the routes *)




End Runs.
